(** * SceneSage: subtitle parsing, scene segmentation and reply decoding

    A shallow embedding of [ai_film_project.py].  Python values are modelled
    as follows.

    - A [str] is a Rocq [string]; its characters are the code points 0..255.
    - A [dict] with a fixed set of keys is a record; the dicts handed to
      [json.dumps] are association lists, so that key order is visible.
    - An exception is a value of [exn]; a function that may raise returns a
      [result].
    - [datetime.strptime], [timedelta.total_seconds], [str.strip],
      [str.split], [str.replace], [int] and [re.findall] belong to the
      Python library; they are modelled after the behaviour of CPython on
      the inputs the program gives them. *)

From Stdlib Require Import List String Ascii Bool Arith ZArith QArith Lia.
Import ListNotations.

Local Open Scope list_scope.
Local Open Scope string_scope.
Local Open Scope nat_scope.

(** ** Exceptions *)

Inductive exn : Type :=
| ValueError_int          (* int(): invalid literal *)
| ValueError_strptime     (* datetime.strptime: data does not match / out of range *)
| ValueError_msg (msg : string)   (* raise ValueError(msg) in the program *)
| AttributeError          (* method call on None *)
| IndexError              (* list index out of range *)
| ServiceError.           (* any failure of the remote reasoning service *)

Inductive result (A : Type) : Type :=
| Ok (a : A)
| Raise (e : exn).

Arguments Ok {A} a.
Arguments Raise {A} e.

Definition bind {A B : Type} (r : result A) (k : A -> result B) : result B :=
  match r with
  | Ok a => k a
  | Raise e => Raise e
  end.

Notation "x <- r ;; k" := (bind r (fun x => k))
  (at level 61, r at next level, right associativity).

(** ** Python strings *)

Module PyStr.

Definition nl : string := String "010"%char "".

(** [str.isspace] on the code points 0..255. *)
Definition is_space (c : ascii) : bool :=
  let n := nat_of_ascii c in
  ((9 <=? n) && (n <=? 13)) || ((28 <=? n) && (n <=? 32))
  || (n =? 133) || (n =? 160).

(** [\d] and [[0-9]] on the code points 0..255. *)
Definition is_digit (c : ascii) : bool :=
  let n := nat_of_ascii c in (48 <=? n) && (n <=? 57).

Definition digit_value (c : ascii) : Z := Z.of_nat (nat_of_ascii c - 48).

Definition nonempty (s : string) : bool :=
  match s with "" => false | _ => true end.

Fixpoint lstrip (s : string) : string :=
  match s with
  | "" => ""
  | String c r => if is_space c then lstrip r else s
  end.

Fixpoint rstrip (s : string) : string :=
  match s with
  | "" => ""
  | String c r =>
      match rstrip r with
      | "" => if is_space c then "" else String c ""
      | r' => String c r'
      end
  end.

(** [s.strip()] *)
Definition strip (s : string) : string := rstrip (lstrip s).

(** [s.startswith(p)] *)
Definition startswith (s p : string) : bool := prefix p s.

Fixpoint last_char (s : string) : option ascii :=
  match s with
  | "" => None
  | String c "" => Some c
  | String _ r => last_char r
  end.

(** [s.endswith(c)] for a one-character [c]. *)
Definition endswith_char (s : string) (c : ascii) : bool :=
  match last_char s with
  | Some d => Ascii.eqb d c
  | None => false
  end.

Fixpoint drop_last (s : string) : string :=
  match s with
  | "" => ""
  | String _ "" => ""
  | String c r => String c (drop_last r)
  end.

(** [s[1:-1]] *)
Definition slice_1_m1 (s : string) : string :=
  match s with
  | "" => ""
  | String _ r => drop_last r
  end.

(** [s.split(sep)] for a non-empty separator: the pieces between the
    occurrences of [sep], found from left to right without overlap.
    [skip] counts the characters of a separator still to be passed. *)
Fixpoint split_aux (sep : string) (skip : nat) (cur s : string) : list string :=
  match s with
  | "" => [cur]
  | String c r =>
      match skip with
      | S k => split_aux sep k cur r
      | O =>
          if prefix sep s
          then cur :: split_aux sep (String.length sep - 1) "" r
          else split_aux sep 0 (cur ++ String c "") r
      end
  end.

Definition split (s sep : string) : list string := split_aux sep 0 "" s.

(** [s.replace(old, new)] for a non-empty [old]. *)
Fixpoint replace_aux (old new : string) (skip : nat) (s : string) : string :=
  match s with
  | "" => ""
  | String c r =>
      match skip with
      | S k => replace_aux old new k r
      | O =>
          if prefix old s
          then new ++ replace_aux old new (String.length old - 1) r
          else String c (replace_aux old new 0 r)
      end
  end.

Definition replace (s old new : string) : string := replace_aux old new 0 s.

(** [sep.join(l)] *)
Fixpoint join (sep : string) (l : list string) : string :=
  match l with
  | [] => ""
  | [x] => x
  | x :: r => x ++ sep ++ join sep r
  end.

(** [s.upper()] on ASCII letters. *)
Definition upper_char (c : ascii) : ascii :=
  let n := nat_of_ascii c in
  if (97 <=? n) && (n <=? 122) then ascii_of_nat (n - 32) else c.

Fixpoint upper (s : string) : string :=
  match s with
  | "" => ""
  | String c r => String (upper_char c) (upper r)
  end.

End PyStr.

(** ** Python lists *)

Module PyList.

(** [l[k]] with Python's negative indices. *)
Definition getitem {A : Type} (l : list A) (k : Z) : result A :=
  let n := Z.of_nat (List.length l) in
  let k' := if (k <? 0)%Z then (k + n)%Z else k in
  if ((0 <=? k') && (k' <? n))%Z
  then match nth_error l (Z.to_nat k') with
       | Some a => Ok a
       | None => Raise IndexError
       end
  else Raise IndexError.

End PyList.

(** ** [datetime.strptime(s, '%H:%M:%S,%f')] *)

Module Datetime.
Import PyStr.

(** The date part is always 1900-01-01 and is left out. *)
Record datetime : Type := mk_datetime
  { hour : Z; minute : Z; second : Z; microsecond : Z }.

(** One numeric directive followed by the literal [sep]: a two-digit
    alternative restricted by [two_ok], else a single digit. *)
Definition re_field (two_ok : ascii -> ascii -> bool) (sep : ascii)
           (s : string) : option (Z * string) :=
  match s with
  | String a (String b r) =>
      match r with
      | String c r' =>
          if is_digit a && is_digit b && two_ok a b && Ascii.eqb c sep
          then Some ((10 * digit_value a + digit_value b)%Z, r')
          else if is_digit a && Ascii.eqb b sep
               then Some (digit_value a, r) else None
      | "" => if is_digit a && Ascii.eqb b sep
              then Some (digit_value a, r) else None
      end
  | _ => None
  end.

(** [%H] is [2[0-3]|[0-1]\d|\d]. *)
Definition two_H (a b : ascii) : bool :=
  (Ascii.eqb a "2" && (digit_value b <=? 3)%Z) || (digit_value a <=? 1)%Z.

(** [%M] is [[0-5]\d|\d]. *)
Definition two_M (a b : ascii) : bool := (digit_value a <=? 5)%Z.

(** [%S] is [6[0-1]|[0-5]\d|\d]. *)
Definition two_S (a b : ascii) : bool :=
  (Ascii.eqb a "6" && (digit_value b <=? 1)%Z) || (digit_value a <=? 5)%Z.

Fixpoint all_digits (s : string) : bool :=
  match s with
  | "" => true
  | String c r => is_digit c && all_digits r
  end.

Fixpoint digits_value (acc : Z) (s : string) : Z :=
  match s with
  | "" => acc
  | String c r => digits_value (10 * acc + digit_value c) r
  end.

(** [%f] is [[0-9]{1,6}], padded on the right with zeros to six digits;
    any character left after it is unconverted data. *)
Definition re_fraction (s : string) : option Z :=
  let n := String.length s in
  if all_digits s && (1 <=? n) && (n <=? 6)
  then Some (digits_value 0 s * 10 ^ Z.of_nat (6 - n))%Z
  else None.

Definition strptime (s : string) : result datetime :=
  match re_field two_H ":" s with
  | None => Raise ValueError_strptime
  | Some (h, s1) =>
      match re_field two_M ":" s1 with
      | None => Raise ValueError_strptime
      | Some (m, s2) =>
          match re_field two_S "," s2 with
          | None => Raise ValueError_strptime
          | Some (sec, s3) =>
              match re_fraction s3 with
              | None => Raise ValueError_strptime
              | Some us =>
                  (* the datetime constructor rejects a leap second *)
                  if (sec <=? 59)%Z then Ok (mk_datetime h m sec us)
                  else Raise ValueError_strptime
              end
          end
      end
  end.

(** [a - b] as a timedelta, kept as its total number of microseconds. *)
Definition micros (d : datetime) : Z :=
  (((hour d * 60 + minute d) * 60 + second d) * 1000000 + microsecond d)%Z.

Definition sub (a b : datetime) : Z := (micros a - micros b)%Z.

(** [x / y] rounded to the nearest integer, a half to the even neighbour
    ([0 < y]). *)
Definition round_div (x y : Z) : Z :=
  let f := (x / y)%Z in
  match (2 * (x mod y) ?= y)%Z with
  | Lt => f
  | Gt => (f + 1)%Z
  | Eq => if Z.even f then f else (f + 1)%Z
  end.

(** The exponent [p] with [2^p <= |a| / b < 2^(p+1)] ([a <> 0], [0 < b]). *)
Definition binade (a b : Z) : Z :=
  let k := (Z.log2 (Z.abs a) - Z.log2 b)%Z in
  if (if (0 <=? k)%Z then (b * 2 ^ k <=? Z.abs a)%Z
      else (b <=? Z.abs a * 2 ^ (- k))%Z)
  then k else (k - 1)%Z.

(** [a / b] on two [int]s: the [float] nearest to the quotient, that is a
    significand of 53 bits, rounded half to even, times a power of two.
    The value of the float is given as a rational.  Overflow and subnormal
    results do not occur for the quotients of the program, which lie
    between 10^-6 and 86400 in size, and are not modelled. *)
Definition true_divide (a b : Z) : Q :=
  if (a =? 0)%Z then 0%Q else
  let e := (binade a b - 52)%Z in
  if (e <? 0)%Z
  then Qmake (round_div (a * 2 ^ (- e)) b) (Z.to_pos (2 ^ (- e)))
  else inject_Z (round_div a (b * 2 ^ e) * 2 ^ e).

(** [timedelta.total_seconds()]: the microseconds divided by [10**6]. *)
Definition total_seconds (td : Z) : Q := true_divide td 1000000.

End Datetime.

(** ** The scene segmenter *)

Record subtitle : Type := mk_subtitle
  { index : Z; start : string; end_ : string; text : string }.

Abbreviation scene := (list subtitle) (only parsing).

Module Segmenter.
Import PyStr PyList Datetime.
Local Open Scope list_scope.

(** [pause_duration >= min_pause_seconds]: Python compares a [float] with
    an [int], a finite [float] or a [Fraction] by their exact values;
    [min_pause_seconds] stands for such a number, given by its value. *)
Definition pause_reached (min_pause_seconds pause_duration : Q) : bool :=
  Qle_bool min_pause_seconds pause_duration.

(** One turn of the [for i, subtitle in enumerate(subtitles)] loop on the
    state [(scenes, current_scene)]. *)
Definition loop_body (subtitles : list subtitle) (min_pause_seconds : Q)
           (st : list scene * scene) (i : nat) (sub_i : subtitle)
  : result (list scene * scene) :=
  let '(scenes, current_scene) := st in
  match current_scene with
  | [] => Ok (scenes, current_scene ++ [sub_i])
  | _ :: _ =>
      prev <- getitem subtitles (Z.of_nat i - 1) ;;
      prev_end <- strptime (end_ prev) ;;
      current_start <- strptime (start sub_i) ;;
      let pause_duration := total_seconds (sub current_start prev_end) in
      let '(scenes, current_scene) :=
        if pause_reached min_pause_seconds pause_duration
        then match current_scene with
             | [] => (scenes, current_scene)
             | _ :: _ => (scenes ++ [current_scene], [])
             end
        else (scenes, current_scene) in
      Ok (scenes, current_scene ++ [sub_i])
  end.

Fixpoint loop (subtitles : list subtitle) (min_pause_seconds : Q)
         (i : nat) (rest : list subtitle) (st : list scene * scene)
  : result (list scene * scene) :=
  match rest with
  | [] => Ok st
  | sub_i :: rest' =>
      st' <- loop_body subtitles min_pause_seconds st i sub_i ;;
      loop subtitles min_pause_seconds (S i) rest' st'
  end.

Definition group_into_scenes (subtitles : list subtitle)
           (min_pause_seconds : Q) : result (list scene) :=
  st <- loop subtitles min_pause_seconds 0 subtitles ([], []) ;;
  let '(scenes, current_scene) := st in
  match current_scene with
  | [] => Ok scenes
  | _ :: _ => Ok (scenes ++ [current_scene])
  end.

(** The number of the scene that holds position [pos] of the transcript. *)
Fixpoint scene_index {A : Type} (scenes : list (list A)) (pos : nat)
  : option nat :=
  match scenes with
  | [] => None
  | s :: r =>
      if pos <? List.length s then Some 0
      else option_map S (scene_index r (pos - List.length s))
  end.

End Segmenter.

(** ** The subtitle parser *)

Module SrtParser.
Import PyStr PyList.

(** [re.match(r'\d{2}:\d{2}:\d{2},\d{3}', s)]: the twelve matched
    characters, when [s] begins with a timestamp. *)
Definition timestamp_at (s : string) : option string :=
  match s with
  | String a (String b (String c (String d (String e (String f
    (String g (String h (String i (String j (String k (String l _)))))))))))
    =>
      if is_digit a && is_digit b && Ascii.eqb c ":"
         && is_digit d && is_digit e && Ascii.eqb f ":"
         && is_digit g && is_digit h && Ascii.eqb i ","
         && is_digit j && is_digit k && is_digit l
      then Some (String a (String b (String c (String d (String e (String f
                (String g (String h (String i (String j (String k
                (String l ""))))))))))))
      else None
  | _ => None
  end.

(** [re.findall(r'(\d{2}:\d{2}:\d{2},\d{3})', s)]: the matches from left
    to right, without overlap. *)
Fixpoint findall_aux (skip : nat) (s : string) : list string :=
  match s with
  | "" => []
  | String _ r =>
      match skip with
      | S k => findall_aux k r
      | O =>
          match timestamp_at s with
          | Some t => t :: findall_aux 11 r
          | None => findall_aux 0 r
          end
      end
  end.

Definition findall_timestamps (s : string) : list string := findall_aux 0 s.

(** The whitespace [int] allows around a literal: on the code points
    0..255 these are the characters of [str.isspace] without the four
    separators 28..31. *)
Definition is_int_space (c : ascii) : bool :=
  let n := nat_of_ascii c in
  ((9 <=? n) && (n <=? 13)) || (n =? 32) || (n =? 133) || (n =? 160).

Fixpoint skip_int_space (s : string) : string :=
  match s with
  | "" => ""
  | String c r => if is_int_space c then skip_int_space r else s
  end.

Fixpoint drop_int_space (s : string) : string :=
  match s with
  | "" => ""
  | String c r =>
      match drop_int_space r with
      | "" => if is_int_space c then "" else String c ""
      | r' => String c r'
      end
  end.

(** The digits of an integer literal, single underscores allowed between
    digits. *)
Fixpoint int_body (prev_digit : bool) (acc : Z) (s : string) : option Z :=
  match s with
  | "" => if prev_digit then Some acc else None
  | String c r =>
      if is_digit c then int_body true (10 * acc + digit_value c)%Z r
      else if Ascii.eqb c "_" && prev_digit then int_body false acc r
           else None
  end.

Fixpoint count_digits (s : string) : Z :=
  match s with
  | "" => 0%Z
  | String c r => ((if is_digit c then 1 else 0) + count_digits r)%Z
  end.

(** [sys.get_int_max_str_digits()], which the program leaves at its
    default. *)
Definition int_max_str_digits : Z := 4300.

(** [int(s)] in base 10: whitespace, an optional sign, the digits; a
    literal of more than [int_max_str_digits] digits is refused. *)
Definition py_int (s : string) : result Z :=
  let t := drop_int_space (skip_int_space s) in
  let '(sign, body) :=
    match t with
    | String "-" r => ((-1)%Z, r)
    | String "+" r => (1%Z, r)
    | _ => (1%Z, t)
    end in
  match int_body false 0 body with
  | Some n =>
      if (count_digits body <=? int_max_str_digits)%Z then Ok (sign * n)%Z
      else Raise ValueError_int
  | None => Raise ValueError_int
  end.

(** The body of the [for block in subtitle_blocks] loop: [Ok None] is
    [continue], [Ok (Some d)] is [subtitles.append(d)]. *)
Definition parse_block (block : string) : result (option subtitle) :=
  let lines := split (strip block) nl in
  if List.length lines <? 3 then Ok None
  else
    timestamp_line <- getitem lines 1 ;;
    let times := findall_timestamps timestamp_line in
    match times with
    | [start_time; end_time] =>
        let text := join " " (skipn 2 lines) in
        line0 <- getitem lines 0 ;;
        idx <- py_int line0 ;;
        Ok (Some (mk_subtitle idx start_time end_time text))
    | _ => Ok None
    end.

Fixpoint parse_blocks (blocks : list string) (subtitles : list subtitle)
  : result (list subtitle) :=
  match blocks with
  | [] => Ok subtitles
  | block :: rest =>
      r <- parse_block block ;;
      match r with
      | None => parse_blocks rest subtitles
      | Some d => parse_blocks rest (subtitles ++ [d])%list
      end
  end.

(** [parse_srt], from the content of the file on. *)
Definition parse_srt (content : string) : result (list subtitle) :=
  let subtitle_blocks := split (strip content) (nl ++ nl) in
  parse_blocks subtitle_blocks [].

End SrtParser.

(** ** The response parser *)

Inductive pyval : Type :=
| PyNone
| PyStr (s : string).

Record analysis : Type := mk_analysis
  { summary : string;
    characters : list string;
    mood : string;
    cultural_refs : list string }.

Module ResponseParser.
Import PyStr.

Definition defaults : analysis := mk_analysis "" [] "" [].

Definition sentinel : analysis :=
  mk_analysis "Analysis parsing failed" [] "unknown" [].

(** [[x.strip() for x in t.split(',') if x.strip()]] *)
Definition comma_items (t : string) : list string :=
  map strip (filter (fun x => nonempty (strip x)) (split t ",")).

(** Strip one pair of brackets when [t] has both. *)
Definition unbracket (t : string) : string :=
  if startswith t "[" && endswith_char t "]" then slice_1_m1 t else t.

(** The body of the [for line in lines] loop. *)
Definition parse_line (a : analysis) (line0 : string) : analysis :=
  let line := strip line0 in
  if startswith line "Summary:" then
    mk_analysis (strip (replace line "Summary:" ""))
                (characters a) (mood a) (cultural_refs a)
  else if startswith line "Characters:" then
    let chars_text := unbracket (strip (replace line "Characters:" "")) in
    if nonempty chars_text
    then mk_analysis (summary a) (comma_items chars_text)
                     (mood a) (cultural_refs a)
    else a
  else if startswith line "Mood:" then
    mk_analysis (summary a) (characters a)
                (strip (replace line "Mood:" "")) (cultural_refs a)
  else if startswith line "Cultural References:" then
    let refs_text :=
      unbracket (strip (replace line "Cultural References:" "")) in
    if nonempty refs_text && negb (String.eqb refs_text "[]")
    then mk_analysis (summary a) (characters a) (mood a)
                     (comma_items refs_text)
    else a
  else a.

(** The [try] block; [None] has no method [strip]. *)
Definition parse_body (response_text : pyval) : result analysis :=
  match response_text with
  | PyNone => Raise AttributeError
  | PyStr s =>
      let lines := split (strip s) nl in
      Ok (fold_left parse_line lines defaults)
  end.

Definition parse_llm_response (response_text : pyval) : analysis :=
  match parse_body response_text with
  | Ok a => a
  | Raise _ => sentinel
  end.

End ResponseParser.

(** ** The context loader and the fallback synopsis *)

Module Context.
Import PyStr.

(** What the section directory holds under a file name. *)
Inductive file : Type :=
| Missing
| Unreadable
| Content (c : string).

Definition section_order : list string :=
  [ "Introduction.txt"; "Plot.txt"; "Cast.txt"; "Production.txt";
    "Reception.txt"; "Legacy.txt"; "Documentaries.txt" ].

Definition add_section (fs : string -> file) (context_parts : list string)
           (section_file : string) : list string :=
  match fs section_file with
  | Content c =>
      let content := strip c in
      if nonempty content then
        let section_name :=
          replace (replace section_file ".txt" "") "_" " " in
        let part := "=== " ++ upper section_name ++ " ===" ++ nl ++ content in
        (context_parts ++ [part])%list
      else context_parts
  | Unreadable => context_parts   (* a warning is printed *)
  | Missing => context_parts
  end.

Definition load_movie_context (fs : string -> file) : string :=
  join (nl ++ nl) (fold_left (add_section fs) section_order []).

Definition movie_intro : string :=
  "This movie, Plan 9 from Outer Space, is a 1957 American independent science fiction-horror film. The film's storyline concerns extraterrestrials who seek to stop humanity from creating a doomsday weapon that could destroy the universe.[8] The aliens implement 'Plan 9', a scheme to resurrect the Earth's dead. By causing chaos, the aliens hope the crisis will force humanity to listen to them; otherwise, the aliens will destroy mankind with armies of the undead.".

Definition influence_intro : string :=
  "and his film were posthumously given two Golden Turkey Awards for Worst Director Ever and Worst Film Ever. It has since been called 'the epitome of so-bad-it's-good cinema'[10] and gained a large cult following.".

Definition main_character_intro : string :=
  "Pilot Jeff Trent, Wife Paula Trent, Lieutenant John Harper, Colonel Tom Edwards, The narrator, Patrolman Larry, Patrolman Kelton, Inspector Daniel Clay, and the alien invaders.".

(** The module-level [system_instruction]: in the f-string of the
    fallback only [movie_intro] and [main_character_intro] stand in
    braces. *)
Definition system_instruction (fs : string -> file) : string :=
  let loaded := load_movie_context fs in
  if nonempty loaded then loaded
  else movie_intro ++ nl ++ "influence_intro" ++ nl ++ main_character_intro.

End Context.

(** ** The scene annotator *)

Module Annotator.
Import PyStr ResponseParser.

Definition dq : string := String "034"%char "".
Definition ind : string := "        ".

(** The f-string [prompt]. *)
Definition prompt (scene_text : string) : string :=
  nl ++ ind ++ "Analyze this movie scene transcription:" ++ nl
  ++ nl
  ++ ind ++ dq ++ scene_text ++ dq ++ nl
  ++ nl
  ++ ind ++ "Provide a structured analysis with:" ++ nl
  ++ ind ++ "1. A one-sentence summary" ++ nl
  ++ ind ++ "2. Characters in the scene (list)" ++ nl
  ++ ind ++ "3. Overall mood/emotion, up to 3 words" ++ nl
  ++ ind ++ "4. Up to 3 cultural references (list, can be empty)" ++ nl
  ++ nl
  ++ ind ++ "Please format your response as follows:" ++ nl
  ++ ind ++ "Summary: [your one-sentence summary]" ++ nl
  ++ ind ++ "Characters: [character1, character2, ...]" ++ nl
  ++ ind ++ "Mood: [mood/emotion]" ++ nl
  ++ ind ++ "Cultural References: [reference1, reference2, reference3] (or [] if none)" ++ nl
  ++ ind.

Section WithService.
(** The remote reasoning service: the state of the world outside the
    program, and one exchange with it (building the client, creating the
    cached context and generating the reply), which returns
    [response.text] or raises.  The module [Client] below spells out the
    three calls of an exchange. *)
Variable world : Type.
Variable generate :
  world -> string (* api key *) -> string (* model *) ->
  string (* system instruction *) -> string (* prompt *) ->
  result pyval * world.

(** [os.environ.get("GEMINI_API_KEY")] *)
Variable api_key_env : option string.
Variable system_instruction : string.

Definition analyze_scene_with_llm (w : world) (scene_text model : string)
  : result analysis * world :=
  if startswith model "gemini" then
    match api_key_env with
    | None | Some "" =>
        (Raise (ValueError_msg
                  "GEMINI_API_KEY not found in environment variables"), w)
    | Some api_key =>
        match generate w api_key model system_instruction
                       (prompt scene_text) with
        | (Ok response_text, w') =>
            (Ok (parse_llm_response response_text), w')
        | (Raise e, w') => (Raise e, w')
        end
    end
  else (Raise (ValueError_msg ("Unsupported model: " ++ model)), w).

End WithService.

End Annotator.

(** ** The run *)

(** The values of the result dicts, and a dict with its keys in insertion
    order; [results] is a list of them and [json.dumps] writes them in
    that order. *)
Inductive jvalue : Type :=
| JStr (s : string)
| JStrList (l : list string).

Definition jobject : Type := list (string * jvalue).

Module Run.
Import PyStr PyList SrtParser Segmenter ResponseParser Annotator.

Section WithService.
Variable world : Type.
Variable generate :
  world -> string -> string -> string -> string -> result pyval * world.
Variable api_key_env : option string.
Variable system_instruction : string.

(** The dict appended to [results]. *)
Definition scene_result (scene_start scene_end scene_text : string)
           (a : analysis) : jobject :=
  [ ("start", JStr scene_start);
    ("end", JStr scene_end);
    ("transcript", JStr scene_text);
    ("summary", JStr (summary a));
    ("characters", JStrList (characters a));
    ("mood", JStr (mood a));
    ("cultural_refs", JStrList (cultural_refs a)) ]%list.

(** The body of the [for scene in scenes] loop. *)
Definition analyze_one (w : world) (model : string) (sc : scene)
  : result jobject * world :=
  let scene_text := join " " (map text sc) in
  match getitem sc 0 with
  | Raise e => (Raise e, w)
  | Ok first =>
      let scene_start := start first in
      match getitem sc (-1) with
      | Raise e => (Raise e, w)
      | Ok last =>
          let scene_end := end_ last in
          match analyze_scene_with_llm world generate api_key_env
                  system_instruction w scene_text model with
          | (Raise e, w') => (Raise e, w')
          | (Ok a, w') =>
              (Ok (scene_result scene_start scene_end scene_text a), w')
          end
      end
  end.

Fixpoint analyze_all (w : world) (model : string) (scenes : list scene)
         (results : list jobject) : result (list jobject) * world :=
  match scenes with
  | [] => (Ok results, w)
  | sc :: rest =>
      match analyze_one w model sc with
      | (Raise e, w') => (Raise e, w')
      | (Ok r, w') => analyze_all w' model rest (results ++ [r])%list
      end
  end.

(** [main], from the content of the subtitle file to the list handed
    to [json.dumps]. *)
Definition main (w : world) (content model : string)
  : result (list jobject) * world :=
  match parse_srt content with
  | Raise e => (Raise e, w)
  | Ok subtitles =>
      match group_into_scenes subtitles (4 # 1) with
      | Raise e => (Raise e, w)
      | Ok scenes =>
          match analyze_all w model scenes [] with
          | (Raise e, w') => (Raise e, w')
          | (Ok results, w') => (Ok results, w')
          end
      end
  end.

End WithService.

End Run.

(** ** Notions used to state the properties of the segmenter *)

Module SegmenterSpec.
Import PyStr PyList Datetime Segmenter.
Local Open Scope list_scope.

(** [strptime] returns a datetime for [s]. *)
Definition accepted (s : string) : Prop := exists d, strptime s = Ok d.

(** The timestamps the segmenter reads: for two neighbours, the end of
    the earlier and the start of the later. *)
Definition consulted_ok (subtitles : list subtitle) : Prop :=
  forall i u v,
    nth_error subtitles i = Some u ->
    nth_error subtitles (S i) = Some v ->
    accepted (end_ u) /\ accepted (start v).

(** The test made between the previous subtitle [p] and the current
    subtitle [x]. *)
Definition pause_test (thr : Q) (p x : subtitle) : result bool :=
  prev_end <- strptime (end_ p) ;;
  current_start <- strptime (start x) ;;
  Ok (pause_reached thr (total_seconds (sub current_start prev_end))).

(** The scenes of [p :: rest] as the scene of [p] and the later scenes. *)
Fixpoint scenes_from (thr : Q) (p : subtitle) (rest : list subtitle)
  : result (scene * list scene) :=
  match rest with
  | [] => Ok ([p], [])
  | x :: r =>
      b <- pause_test thr p x ;;
      fm <- scenes_from thr x r ;;
      Ok (if b : bool then ([p], fst fm :: snd fm) else (p :: fst fm, snd fm))
  end.

(** The state of the loop at its end, flushed. *)
Definition flush (st : list scene * scene) : list scene :=
  match snd st with
  | [] => fst st
  | _ :: _ => fst st ++ [snd st]
  end.

(** A timestamp in the format [HH:MM:SS,mmm]: two digits each for the
    hours, the minutes and the seconds, three for the milliseconds. *)
Definition two_digits (a b : ascii) : Z :=
  (10 * digit_value a + digit_value b)%Z.

Definition stamp_fields (s : string) : option (Z * Z * Z * Z) :=
  match s with
  | String h1 (String h2 (String c1 (String m1 (String m2 (String c2
    (String s1 (String s2 (String c3 (String f1 (String f2 (String f3 "")))))))))))
    =>
      if is_digit h1 && is_digit h2 && is_digit m1 && is_digit m2
         && is_digit s1 && is_digit s2
         && is_digit f1 && is_digit f2 && is_digit f3
         && Ascii.eqb c1 ":" && Ascii.eqb c2 ":" && Ascii.eqb c3 ","
      then Some (two_digits h1 h2, two_digits m1 m2, two_digits s1 s2,
                 (100 * digit_value f1 + two_digits f2 f3)%Z)
      else None
  | _ => None
  end.

Definition is_stamp (s : string) : bool :=
  match stamp_fields s with Some _ => true | None => false end.

(** The position in the medium, in milliseconds. *)
Definition stamp_millis (s : string) : Z :=
  match stamp_fields s with
  | Some (h, m, sec, ms) => (((h * 60 + m) * 60 + sec) * 1000 + ms)%Z
  | None => 0%Z
  end.

(** A timestamp of a clock: the hour is at most 23, the minute and the
    second are at most 59. *)
Definition is_clock (s : string) : bool :=
  match stamp_fields s with
  | Some (h, m, sec, _) => ((h <=? 23) && (m <=? 59) && (sec <=? 59))%Z
  | None => false
  end.

(** The exact gap between two neighbours, in seconds. *)
Definition gap (u v : subtitle) : Q :=
  Qmake (stamp_millis (start v) - stamp_millis (end_ u)) 1000.

(** The gap as the segmenter computes it: the [float] that
    [total_seconds()] returns for the difference, by its value. *)
Definition gap_seconds (u v : subtitle) : Q :=
  total_seconds ((stamp_millis (start v) - stamp_millis (end_ u)) * 1000).

Definition clock_timed (u : subtitle) : Prop :=
  is_clock (start u) = true /\ is_clock (end_ u) = true.

End SegmenterSpec.

(** ** Notions used to state the properties of the response parser *)

Module ResponseSpec.
Import PyStr ResponseParser.

(** A stripped line carries one of the four labels. *)
Definition labelled (line : string) : bool :=
  startswith line "Summary:" || startswith line "Characters:"
  || startswith line "Mood:" || startswith line "Cultural References:".

(** The lines the parser walks over. *)
Definition reply_lines (s : string) : list string := split (strip s) nl.

Definition first_char (s : string) : option ascii :=
  match s with
  | "" => None
  | String c _ => Some c
  end.

(** A non-empty string without whitespace at either end. *)
Definition trimmed (x : string) : Prop :=
  x <> "" /\ strip x = x
  /\ (forall c, first_char x = Some c -> is_space c = false)
  /\ (forall c, last_char x = Some c -> is_space c = false).

Definition lists_trimmed (a : analysis) : Prop :=
  forall x, In x (characters a) \/ In x (cultural_refs a) -> trimmed x.

(** The reply of the example in the specification. *)
Definition sample_reply : string :=
  "Summary: A man walks." ++ nl ++ "Characters: [Jeff, Paula]" ++ nl
  ++ "Mood: tense" ++ nl ++ "Cultural References: []".

(** A reply that repeats labels. *)
Definition repeated_reply : string :=
  "Summary: first draft" ++ nl ++ "Mood: calm" ++ nl
  ++ "Summary:  A saucer lands. " ++ nl ++ "Mood: eerie, tense" ++ nl
  ++ "Characters: Jeff , , Paula".

Definition chatter : string :=
  "I could not analyse this scene." ++ nl ++ "summary: none".

End ResponseSpec.

(** ** Sample transcripts *)

Module Samples.
Local Open Scope list_scope.

(** Three subtitles; seven seconds pass before the third. *)
Definition opening : list subtitle :=
  [ mk_subtitle 1 "00:00:01,000" "00:00:02,500" "Greetings, my friend.";
    mk_subtitle 2 "00:00:03,000" "00:00:05,000"
                "We are all interested in the future.";
    mk_subtitle 3 "00:00:12,000" "00:00:14,250" "You are interested." ].

(** Two subtitles of a recording that runs past its twenty-fourth hour. *)
Definition past_midnight : list subtitle :=
  [ mk_subtitle 1 "23:59:50,000" "23:59:58,000" "Good night.";
    mk_subtitle 2 "24:00:05,000" "24:00:07,000" "Good morning." ].

Definition second_day : list subtitle :=
  [ mk_subtitle 7 "24:10:00,000" "24:10:02,000" "Can you prove";
    mk_subtitle 8 "24:10:02,500" "24:10:04,000" "that it didn't happen?" ].

(** The subtitle files [parse_srt] reads them from. *)
Definition past_midnight_srt : string :=
  "1" ++ PyStr.nl ++ "23:59:50,000 --> 23:59:58,000" ++ PyStr.nl
  ++ "Good night." ++ PyStr.nl ++ PyStr.nl
  ++ "2" ++ PyStr.nl ++ "24:00:05,000 --> 24:00:07,000" ++ PyStr.nl
  ++ "Good morning." ++ PyStr.nl.

Definition second_day_srt : string :=
  "7" ++ PyStr.nl ++ "24:10:00,000 --> 24:10:02,000" ++ PyStr.nl
  ++ "Can you prove" ++ PyStr.nl ++ PyStr.nl
  ++ "8" ++ PyStr.nl ++ "24:10:02,500 --> 24:10:04,000" ++ PyStr.nl
  ++ "that it didn't happen?" ++ PyStr.nl.

End Samples.

(** ** Notions used to state the properties of the run *)

Module RunSpec.
Import PyStr.
Local Open Scope list_scope.

(** The dict that belongs to a scene: the start of its first subtitle,
    the end of its last, its texts joined by single spaces, and the four
    fields of some annotation, under these seven keys in this order. *)
Definition result_of_scene (sc : scene) (r : jobject) : Prop :=
  exists (first last : subtitle) (back front : list subtitle) (a : analysis),
    sc = first :: back
    /\ sc = front ++ [last]
    /\ r = [ ("start", JStr (start first));
             ("end", JStr (end_ last));
             ("transcript", JStr (join " " (map text sc)));
             ("summary", JStr (summary a));
             ("characters", JStrList (characters a));
             ("mood", JStr (mood a));
             ("cultural_refs", JStrList (cultural_refs a)) ].

(** A credential is configured: the variable is set and not empty. *)
Definition credential (api_key_env : option string) : Prop :=
  exists k, api_key_env = Some k /\ nonempty k = true.

Definition no_credential (api_key_env : option string) : Prop :=
  api_key_env = None \/ api_key_env = Some "".

End RunSpec.

(** ** Sample subtitle files and services *)

Module RunSamples.
Import PyStr ResponseSpec.

(** Three blocks; the first line of the second is not an integer. *)
Definition lettered_index : string :=
  "1" ++ nl ++ "00:00:01,000 --> 00:00:04,000" ++ nl
  ++ "Greetings, my friend." ++ nl ++ nl
  ++ "TWO" ++ nl ++ "00:00:05,000 --> 00:00:08,000" ++ nl
  ++ "We are all interested in the future." ++ nl ++ nl
  ++ "3" ++ nl ++ "00:00:09,000 --> 00:00:12,000" ++ nl
  ++ "Future events such as these" ++ nl.

(** Two well-formed blocks ten seconds apart, then a block without text
    and a block without a second timestamp. *)
Definition two_scenes : string :=
  "1" ++ nl ++ "00:00:01,000 --> 00:00:04,000" ++ nl
  ++ "Greetings," ++ nl ++ "my friend." ++ nl ++ nl
  ++ "2" ++ nl ++ "00:00:14,000 --> 00:00:18,000" ++ nl
  ++ "We are all interested in the future." ++ nl ++ nl
  ++ "3" ++ nl ++ "00:00:19,000 --> 00:00:20,000" ++ nl ++ nl
  ++ "4" ++ nl ++ "00:00:21,000 -->" ++ nl ++ "And remember, my friend" ++ nl.

(** A service without state that always sends the same reply. *)
Definition canned (w : unit) (api_key model context prompt : string)
  : result pyval * unit :=
  (Ok (PyStr sample_reply), w).

(** A directory without section files. *)
Definition no_sections (name : string) : Context.file := Context.Missing.

End RunSamples.

(** ** Further notions for the segmenter *)

Module SegmenterMoreSpec.
Import PyStr Datetime Segmenter SegmenterSpec.
Local Open Scope list_scope.

(** The number of neighbours in [p :: rest] between which the test of the
    loop finds the threshold reached. *)
Fixpoint pauses (thr : Q) (p : subtitle) (rest : list subtitle) : nat :=
  match rest with
  | [] => 0
  | x :: r =>
      (match pause_test thr p x with Ok true => 1 | _ => 0 end)
      + pauses thr x r
  end.

(** Every test between neighbours of a transcript has the outcome [b]. *)
Definition all_tests (thr : Q) (subtitles : list subtitle) (b : bool) : Prop :=
  forall i u v,
    nth_error subtitles i = Some u ->
    nth_error subtitles (S i) = Some v ->
    pause_test thr u v = Ok b.

(** A change of subtitles that leaves their two timestamps alone. *)
Definition keeps_times (f : subtitle -> subtitle) : Prop :=
  forall u, start (f u) = start u /\ end_ (f u) = end_ u.

(** The scenes of two transcripts put one after the other, when the test
    at the seam is [b]: side by side, or with the last scene of the first
    joined to the first scene of the second. *)
Definition seam (b : bool) (sa sb : list (list subtitle))
  : list (list subtitle) :=
  if b then sa ++ sb
  else match sb with
       | [] => sa
       | first_b :: rest_b =>
           removelast sa ++ (last sa [] ++ first_b) :: rest_b
       end.

(** The scenes of [q :: rest] from the scenes of [rest], when the test
    between [q] and the head of [rest] is [b]. *)
Definition cons_scene (b : bool) (q : subtitle) (sc : list (list subtitle))
  : list (list subtitle) :=
  match sc with
  | [] => [[q]]
  | f :: m => if b then [q] :: f :: m else (q :: f) :: m
  end.

Definition retitled (u : subtitle) : subtitle :=
  mk_subtitle (index u + 100) (start u) (end_ u) (upper (text u)).

End SegmenterMoreSpec.

(** ** Further notions for the subtitle parser *)

Module SrtMoreSpec.
Import PyStr PyList SrtParser SegmenterSpec.
Local Open Scope list_scope.

(** The blocks and the lines [parse_srt] works on. *)
Definition blocks_of (content : string) : list string :=
  split (strip content) (nl ++ nl).

Definition block_lines (block : string) : list string :=
  split (strip block) nl.

(** The character [c] does not occur in [s]. *)
Fixpoint no_char (c : ascii) (s : string) : bool :=
  match s with
  | "" => true
  | String d r => negb (Ascii.eqb d c) && no_char c r
  end.

(** A block that passes both guards: at least three lines, and exactly two
    timestamps on the second. *)
Definition passes_guards (block : string) : Prop :=
  3 <= List.length (block_lines block)
  /\ exists line,
      nth_error (block_lines block) 1 = Some line
      /\ List.length (findall_timestamps line) = 2.

(** The first line of the block is an integer literal. *)
Definition numbered (block : string) : Prop :=
  exists line n, nth_error (block_lines block) 0 = Some line
                 /\ py_int line = Ok n.

(** A block one of the two guards turns away. *)
Definition turned_away (block : string) : Prop :=
  List.length (block_lines block) < 3
  \/ exists line,
      nth_error (block_lines block) 1 = Some line
      /\ List.length (findall_timestamps line) <> 2.

(** What every subtitle of the parser looks like. *)
Definition parsed_shape (u : subtitle) : Prop :=
  is_stamp (start u) = true /\ is_stamp (end_ u) = true
  /\ no_char "010" (text u) = true.

(** [two_scenes] without its third block. *)
Definition two_scenes_shorter : string :=
  "1" ++ nl ++ "00:00:01,000 --> 00:00:04,000" ++ nl
  ++ "Greetings," ++ nl ++ "my friend." ++ nl ++ nl
  ++ "2" ++ nl ++ "00:00:14,000 --> 00:00:18,000" ++ nl
  ++ "We are all interested in the future." ++ nl ++ nl
  ++ "4" ++ nl ++ "00:00:21,000 -->" ++ nl ++ "And remember, my friend" ++ nl.

(** *** Writing a subtitle file *)

(** A block of three lines for the subtitle [u], with [number] as its
    first line, and the file made of such blocks. *)
Definition srt_block (entry : string * subtitle) : string :=
  fst entry ++ nl
  ++ start (snd entry) ++ " --> " ++ end_ (snd entry) ++ nl
  ++ text (snd entry).

Definition srt_file (entries : list (string * subtitle)) : string :=
  join (nl ++ nl) (map srt_block entries).

(** The first (last) character of [s] exists and is no whitespace. *)
Definition head_solid (s : string) : bool :=
  match s with
  | "" => false
  | String c _ => negb (is_space c)
  end.

Definition tail_solid (s : string) : bool :=
  match last_char s with
  | Some c => negb (is_space c)
  | None => false
  end.

(** What the round trip needs of an entry: a first line that [int] reads
    as the index, timestamps of the right form, a text of one line; the
    block begins and ends with a character that [strip] keeps. *)
Definition writable (entry : string * subtitle) : Prop :=
  py_int (fst entry) = Ok (index (snd entry))
  /\ no_char "010" (fst entry) = true
  /\ head_solid (fst entry) = true
  /\ is_stamp (start (snd entry)) = true
  /\ is_stamp (end_ (snd entry)) = true
  /\ no_char "010" (text (snd entry)) = true
  /\ tail_solid (text (snd entry)) = true.

(** No empty line inside [s], and no line break at its end. *)
Fixpoint unbroken (s : string) : bool :=
  match s with
  | "" => true
  | String c r =>
      (if Ascii.eqb c "010"
       then match r with
            | "" => false
            | String d _ => negb (Ascii.eqb d "010")
            end
       else true)
      && unbroken r
  end.

Definition numbered_opening : list (string * subtitle) :=
  combine ["1"; "2 "; "+3"] Samples.opening.

End SrtMoreSpec.

(** ** Which parsed files the segmenter accepts *)

Module ClockSpec.
Import SegmenterSpec.

(** The timestamps the segmenter reads are clock timestamps. *)
Definition clock_consulted (subtitles : list subtitle) : Prop :=
  forall i u v,
    nth_error subtitles i = Some u ->
    nth_error subtitles (S i) = Some v ->
    is_clock (end_ u) = true /\ is_clock (start v) = true.

End ClockSpec.

(** ** Further notions for the response parser *)

Module ResponseMoreSpec.
Import PyStr ResponseParser ResponseSpec SrtMoreSpec.
Local Open Scope list_scope.

Inductive label : Type := LSummary | LCharacters | LMood | LReferences.

(** The branch of the loop body a stripped line takes. *)
Definition label_of (line : string) : option label :=
  if startswith line "Summary:" then Some LSummary
  else if startswith line "Characters:" then Some LCharacters
  else if startswith line "Mood:" then Some LMood
  else if startswith line "Cultural References:" then Some LReferences
  else None.

(** The lines that carry a label. *)
Definition labelled_lines (s : string) : list string :=
  filter (fun line => labelled (strip line)) (reply_lines s).


(** [sample_reply] between two lines of small talk, and with its lines in
    another order. *)
Definition padded_reply : string :=
  ("Sure! Here is the analysis:" ++ nl ++ sample_reply ++ nl
   ++ "Let me know if you need more.")%string.

Definition shuffled_reply : string :=
  ("Summary: A man walks." ++ nl ++ "Mood: tense" ++ nl
   ++ "Characters: [Jeff, Paula]" ++ nl ++ "Cultural References: []")%string.

(** *** Writing a reply *)

Definition bracketed (items : list string) : string :=
  ("[" ++ join ", " items ++ "]")%string.

Definition formatted (a : analysis) : string :=
  ("Summary: " ++ summary a ++ nl
   ++ "Characters: " ++ bracketed (characters a) ++ nl
   ++ "Mood: " ++ mood a ++ nl
   ++ "Cultural References: " ++ bracketed (cultural_refs a))%string.

(** [p] occurs in [s] ([p] is not empty). *)
Fixpoint occurs (p s : string) : bool :=
  match s with
  | "" => false
  | String _ r => prefix p s || occurs p r
  end.

(** A text of one line that begins and ends with a character [strip]
    keeps and does not hold the label [lbl]. *)
Definition plain_text (lbl s : string) : Prop :=
  head_solid s = true /\ tail_solid s = true
  /\ no_char "010" s = true /\ occurs lbl s = false.

(** A name or reference: one line, no comma, no whitespace at its ends. *)
Definition plain_item (x : string) : Prop :=
  head_solid x = true /\ tail_solid x = true
  /\ no_char "010" x = true /\ no_char "," x = true.

(** A record the format can carry. *)
Definition plain (a : analysis) : Prop :=
  plain_text "Summary:" (summary a)
  /\ plain_text "Mood:" (mood a)
  /\ Forall plain_item (characters a)
  /\ occurs "Characters:" (bracketed (characters a)) = false
  /\ Forall plain_item (cultural_refs a)
  /\ occurs "Cultural References:" (bracketed (cultural_refs a)) = false
  /\ join ", " (cultural_refs a) <> "[]".

Definition saucer_record : analysis :=
  mk_analysis "A saucer lands; the pilot's wife worries."
              ["Jeff Trent"; "Paula"; "[the narrator]"]
              "eerie, tense" ["Flying saucers"].

End ResponseMoreSpec.

(** ** Further notions for the context loader *)

Module ContextMoreSpec.
Import PyStr Context.
Local Open Scope list_scope.

(** What the loader keeps of a file: its stripped content, nothing when it
    is missing or cannot be read. *)
Definition shown (f : file) : string :=
  match f with
  | Content c => strip c
  | Unreadable => ""
  | Missing => ""
  end.

(** The block of a section, if it has one. *)
Definition section_part (fs : string -> file) (section_file : string)
  : list string :=
  if nonempty (shown (fs section_file))
  then [("=== " ++ upper (replace (replace section_file ".txt" "") "_" " ")
         ++ " ===" ++ nl ++ shown (fs section_file))%string]
  else [].

(** The text used when the loader returns nothing. *)
Definition fallback_text : string :=
  (movie_intro ++ nl ++ "influence_intro" ++ nl ++ main_character_intro)%string.

(** A directory with a plot, a cast that cannot be read, an empty legacy
    and a file the loader does not know. *)
Definition some_sections (name : string) : file :=
  if String.eqb name "Plot.txt" then Content ("  Aliens raise the dead." ++ nl)
  else if String.eqb name "Cast.txt" then Unreadable
  else if String.eqb name "Legacy.txt" then Content ("   " ++ nl)
  else if String.eqb name "See_also.txt" then Content "Ed Wood"
  else Missing.

Definition plot_only (name : string) : file :=
  if String.eqb name "Plot.txt" then Content "Aliens raise the dead."
  else Missing.

End ContextMoreSpec.

(** ** The client of the reasoning service *)

(** The exchange of [analyze_scene_with_llm] with the service, call by
    call: the client is built, a cached context is created from the
    system instruction, and the reply is generated against that cache.
    Each call may raise and may change the world. *)
Module Client.

Section WithClient.
Variable world : Type.
Variable client : Type.
(** [genai.Client(api_key=api_key)] *)
Variable new_client : world -> string -> result client * world.
(** [client.caches.create(model=model_name, config=...).name], the config
    holding the system instruction. *)
Variable caches_create :
  world -> client -> string (* model *) -> string (* system instruction *) ->
  result pyval * world.
(** [client.models.generate_content(model=model_name, contents=[prompt],
    config=...).text], the config holding the name of the cache. *)
Variable generate_content :
  world -> client -> string (* model *) -> string (* prompt *) ->
  pyval (* cached_content *) -> result pyval * world.

Definition exchange (w : world)
           (api_key model system_instruction prompt : string)
  : result pyval * world :=
  match new_client w api_key with
  | (Raise e, w0) => (Raise e, w0)
  | (Ok c, w0) =>
      match caches_create w0 c model system_instruction with
      | (Raise e, w1) => (Raise e, w1)
      | (Ok cache_name, w1) => generate_content w1 c model prompt cache_name
      end
  end.

End WithClient.

End Client.

(** ** Further notions for the run *)

Module RunMoreSpec.
Import PyStr Annotator.
Local Open Scope list_scope.

(** The value a result dict holds under a key. *)
Definition lookup (key : string) (o : jobject) : option jvalue :=
  match find (fun kv => String.eqb (fst kv) key) o with
  | Some kv => Some (snd kv)
  | None => None
  end.

(** The prompt sent for a scene. *)
Definition scene_prompt (sc : list subtitle) : string :=
  prompt (join " " (map text sc)).

(** A request: a call of [client.caches.create] or of
    [client.models.generate_content], with its arguments and with what it
    returned or raised. *)
Inductive request : Type :=
| CreateCache (model system_instruction : string) (returned : result pyval)
| GenerateContent (model prompt : string) (cached_content : pyval)
                  (returned : result pyval).

(** The three calls of the exchange, with the requests recorded in a log
    kept beside the world; building the client is no request. *)
Definition logged_client {world client : Type}
           (new_client : world -> string -> result client * world)
           (wl : world * list request) (api_key : string)
  : result client * (world * list request) :=
  let '(r, w') := new_client (fst wl) api_key in (r, (w', snd wl)).

Definition logged_create {world client : Type}
           (caches_create : world -> client -> string -> string ->
                            result pyval * world)
           (wl : world * list request) (c : client)
           (model system_instruction : string)
  : result pyval * (world * list request) :=
  let '(r, w') := caches_create (fst wl) c model system_instruction in
  (r, (w', snd wl ++ [CreateCache model system_instruction r])).

Definition logged_generate {world client : Type}
           (generate_content : world -> client -> string -> string -> pyval ->
                               result pyval * world)
           (wl : world * list request) (c : client)
           (model prompt : string) (cached_content : pyval)
  : result pyval * (world * list request) :=
  let '(r, w') := generate_content (fst wl) c model prompt cached_content in
  (r, (w', snd wl ++ [GenerateContent model prompt cached_content r])).

(** The requests of a scene that was annotated: a cache is created from
    the system instruction, and the reply is generated from the prompt of
    the scene against the cache just created. *)
Definition answered (model context : string) (sc : list subtitle)
           (l : list request) : Prop :=
  exists name reply,
    l = [ CreateCache model context (Ok name);
          GenerateContent model (scene_prompt sc) name (Ok reply) ].

(** The requests of a scene that ended in the error [e]: none, the
    creation of the cache that raised [e], or the creation of a cache and
    the generation that raised [e]. *)
Definition refused (model context : string) (sc : list subtitle) (e : exn)
           (l : list request) : Prop :=
  l = []
  \/ l = [ CreateCache model context (Raise e) ]
  \/ exists name,
       l = [ CreateCache model context (Ok name);
             GenerateContent model (scene_prompt sc) name (Raise e) ].

(** A service that counts its requests, names a cache after the count and
    generates no reply from the fifth request on. *)
Definition numbered_cache (w : nat) (c : unit) (model context : string)
  : result pyval * nat :=
  (Ok (PyStr (if w <? 2 then "cachedContents/1" else "cachedContents/2")), S w).

Definition tired_generation (w : nat) (c : unit) (model prompt : string)
           (cached_content : pyval) : result pyval * nat :=
  (if w <? 4 then Ok (PyStr ResponseSpec.sample_reply) else Raise ServiceError,
   S w).

Definition key_client (w : nat) (api_key : string) : result unit * nat :=
  (Ok tt, w).

(** An error of the annotator: one of the two configuration errors, or
    one the service raised. *)
Definition annotator_error {world : Type}
           (generate : world -> string -> string -> string -> string ->
                       result pyval * world)
           (context model : string) (e : exn) : Prop :=
  e = ValueError_msg "GEMINI_API_KEY not found in environment variables"
  \/ e = ValueError_msg ("Unsupported model: " ++ model)
  \/ exists w0 k p w1, generate w0 k model context p = (Raise e, w1).

(** A service that answers twice and then fails. *)
Definition third_time_down (w : nat) (api_key model context prompt : string)
  : result pyval * nat :=
  (if w <? 2 then Ok (PyStr ResponseSpec.sample_reply) else Raise ServiceError,
   S w).

(** A file of three blocks more than four seconds apart. *)
Definition three_scenes : string :=
  ("1" ++ nl ++ "00:00:01,000 --> 00:00:04,000" ++ nl ++ "Greetings." ++ nl
   ++ nl ++ "2" ++ nl ++ "00:00:14,000 --> 00:00:18,000" ++ nl
   ++ "We are all interested" ++ nl ++ "in the future." ++ nl
   ++ nl ++ "3" ++ nl ++ "00:00:29,000 --> 00:00:30,000" ++ nl
   ++ "My friend." ++ nl)%string.

(** A file in which no block is a subtitle. *)
Definition no_subtitles : string :=
  ("WEBVTT" ++ nl ++ nl ++ "1" ++ nl ++ "00:00:01.000 --> 00:00:04.000" ++ nl
   ++ "Greetings, my friend." ++ nl)%string.

End RunMoreSpec.

(** ** The section files of [extract_plan9_intro.py] *)

Module Scraper.
Import PyStr Context.
Local Open Scope list_scope.

(** A character of the class [[a-zA-Z0-9_]]. *)
Definition is_word_char (c : ascii) : bool :=
  let n := nat_of_ascii c in
  ((97 <=? n) && (n <=? 122)) || ((65 <=? n) && (n <=? 90))
  || ((48 <=? n) && (n <=? 57)) || (n =? 95).

(** [re.sub(r'[^a-zA-Z0-9_]', '_', title)] *)
Fixpoint clean_filename (title : string) : string :=
  match title with
  | "" => ""
  | String c r =>
      String (if is_word_char c then c else "_"%char) (clean_filename r)
  end.

(** [s.endswith(p)] *)
Fixpoint endswith (s p : string) : bool :=
  String.eqb s p
  || match s with
     | "" => false
     | String _ r => endswith r p
     end.

(** The output stage of [main], on the directory [plan9_sections] as a
    map from file names to files (failures of the file system aside). *)

(** [filename = f"{clean_filename(title)}.txt"] *)
Definition section_filename (title : string) : string :=
  (clean_filename title ++ ".txt")%string.

(** What is written: [f"# {title}\n\n{content}\n"]. *)
Definition section_file_text (title content : string) : string :=
  ("# " ++ title ++ nl ++ nl ++ content ++ nl)%string.

(** The files removed first: those named [plan9_*.txt]. *)
Definition clear_old (fs : string -> file) (name : string) : file :=
  if startswith name "plan9_" && endswith name ".txt" then Missing
  else fs name.

Definition write (fs : string -> file) (name text : string) (n : string)
  : file :=
  if String.eqb n name then Content text else fs n.

(** [for title, content in sections: ... f.write(...)] *)
Definition write_sections (fs : string -> file)
           (sections : list (string * string)) : string -> file :=
  fold_left
    (fun fs' section =>
       write fs' (section_filename (fst section))
             (section_file_text (fst section) (snd section)))
    sections (clear_old fs).

End Scraper.

Module ScraperSpec.
Import PyStr Context Scraper.
Local Open Scope list_scope.

Fixpoint all_chars (p : ascii -> bool) (s : string) : bool :=
  match s with
  | "" => true
  | String c r => p c && all_chars p r
  end.

(** The headings whose files the loader reads. *)
Definition loaded_titles : list string :=
  [ "Introduction"; "Plot"; "Cast"; "Production"; "Reception"; "Legacy";
    "Documentaries" ].

(** The last section written to the file [name], if any. *)
Definition last_written (sections : list (string * string)) (name : string)
  : option (string * string) :=
  find (fun section => String.eqb (section_filename (fst section)) name)
       (rev sections).

(** Sections as the scraper may find them: two headings share a file
    name, one is not read by the loader. *)
Definition scraped : list (string * string) :=
  [ ("Plot", "Aliens raise the dead.");
    ("Cast & crew", "Bela Lugosi appears in old footage.");
    ("Cast_&_crew", "Tor Johnson plays Inspector Clay.");
    ("Reception", "The film gained a cult following.") ].

(** A directory left by an earlier run. *)
Definition earlier_run (name : string) : file :=
  if String.eqb name "Legacy.txt" then Content "# Legacy" else
  if String.eqb name "plan9_notes.txt" then Content "old" else Missing.

End ScraperSpec.

(** * Properties *)

(** ** Scene segmentation *)

Module SegmenterProofs.
Import PyStr PyList Datetime Segmenter SegmenterSpec ClockSpec.
Local Open Scope list_scope.

Lemma getitem_previous {A : Type} (done : list A) (p : A) (rest : list A) :
  getitem ((done ++ [p]) ++ rest) (Z.of_nat (List.length (done ++ [p])) - 1)
  = Ok p.
Proof.
  unfold getitem.
  replace (Z.of_nat (List.length (done ++ [p])) - 1)%Z
    with (Z.of_nat (List.length done))
    by (rewrite length_app; simpl; lia).
  destruct (Z.ltb_spec (Z.of_nat (List.length done)) 0) as [Hneg | _];
    [lia |].
  assert (Hin : (Z.of_nat (List.length done)
                 < Z.of_nat (List.length ((done ++ [p]) ++ rest)))%Z).
  { rewrite !length_app. simpl. lia. }
  destruct (Z.leb_spec 0 (Z.of_nat (List.length done))) as [_ | Hneg];
    [| lia].
  destruct (Z.ltb_spec (Z.of_nat (List.length done))
              (Z.of_nat (List.length ((done ++ [p]) ++ rest))))
    as [_ | Hge]; [| lia].
  simpl. rewrite Nat2Z.id, <- app_assoc.
  rewrite nth_error_app2 by lia.
  rewrite Nat.sub_diag. reflexivity.
Qed.

(** One turn of the loop, when the open scene ends with the previous
    subtitle. *)
Lemma loop_body_step subtitles thr done p rest scenes cur x :
  subtitles = (done ++ [p]) ++ rest ->
  loop_body subtitles thr (scenes, cur ++ [p]) (List.length (done ++ [p])) x
  = b <- pause_test thr p x ;;
    Ok (if b : bool then (scenes ++ [cur ++ [p]], [x])
        else (scenes, (cur ++ [p]) ++ [x])).
Proof.
  intros ->. unfold loop_body.
  destruct (cur ++ [p]) as [| c0 cs] eqn:Hcur.
  { destruct cur; discriminate Hcur. }
  rewrite getitem_previous. unfold pause_test. simpl.
  destruct (strptime (end_ p)) as [e | err]; simpl; [| reflexivity].
  destruct (strptime (start x)) as [s | err]; simpl; [| reflexivity].
  destruct (pause_reached thr (total_seconds (sub s e))); reflexivity.
Qed.

(** The loop computes [scenes_from]. *)
Lemma loop_scenes_from thr rest :
  forall done p scenes cur,
    (st <- loop ((done ++ [p]) ++ rest) thr (List.length (done ++ [p]))
                rest (scenes, cur ++ [p]) ;;
     Ok (flush st))
    = (fm <- scenes_from thr p rest ;;
       Ok (scenes ++ (cur ++ fst fm) :: snd fm)).
Proof.
  induction rest as [| x r IH]; intros done p scenes cur.
  - simpl. unfold flush. simpl.
    destruct (cur ++ [p]) eqn:Hcur; [destruct cur; discriminate Hcur |].
    reflexivity.
  - cbn [loop scenes_from].
    rewrite (loop_body_step _ thr done p (x :: r) scenes cur x eq_refl).
    destruct (pause_test thr p x) as [b | err]; cbn [bind]; [| reflexivity].
    replace ((done ++ [p]) ++ x :: r) with (((done ++ [p]) ++ [x]) ++ r)
      by (rewrite <- (app_assoc (done ++ [p]) [x] r); reflexivity).
    replace (S (List.length (done ++ [p])))
      with (List.length ((done ++ [p]) ++ [x]))
      by (rewrite (length_app (done ++ [p]) [x]); simpl; lia).
    destruct b.
    + pose proof (IH (done ++ [p]) x (scenes ++ [cur ++ [p]]) []) as IHx.
      cbn [app] in IHx. rewrite IHx.
      destruct (scenes_from thr x r) as [[f m] | err]; cbn [bind fst snd];
        [| reflexivity].
      rewrite <- app_assoc. reflexivity.
    + rewrite (IH (done ++ [p]) x scenes (cur ++ [p])).
      destruct (scenes_from thr x r) as [[f m] | err]; cbn [bind fst snd];
        [| reflexivity].
      rewrite <- app_assoc. reflexivity.
Qed.

Lemma group_into_scenes_nil thr : group_into_scenes [] thr = Ok [].
Proof. reflexivity. Qed.

Lemma group_into_scenes_cons thr p rest :
  group_into_scenes (p :: rest) thr
  = fm <- scenes_from thr p rest ;; Ok (fst fm :: snd fm).
Proof.
  pose proof (loop_scenes_from thr rest [] p [] []) as H.
  cbn [app List.length] in H.
  unfold group_into_scenes. cbn [loop loop_body app bind].
  transitivity (st <- loop (p :: rest) thr 1 rest ([], [p]) ;; Ok (flush st)).
  - destruct (loop (p :: rest) thr 1 rest ([], [p])) as [[scenes cur] | err];
      cbn [bind]; [| reflexivity].
    unfold flush. cbn [fst snd]. destruct cur; reflexivity.
  - rewrite H.
    destruct (scenes_from thr p rest) as [[f m] | err]; reflexivity.
Qed.

(** *** What [scenes_from] returns *)

Lemma scenes_from_partition thr rest :
  forall p f m,
    scenes_from thr p rest = Ok (f, m) ->
    f ++ List.concat m = p :: rest /\ f <> [] /\ Forall (fun s => s <> []) m.
Proof.
  induction rest as [| x r IH]; intros p f m H.
  - injection H as <- <-. repeat split; [discriminate | constructor].
  - cbn [scenes_from] in H.
    destruct (pause_test thr p x) as [b | err]; [| discriminate H].
    destruct (scenes_from thr x r) as [[f' m'] | err] eqn:Hr;
      [| discriminate H].
    destruct (IH x f' m' Hr) as (Hcat & Hne & Hall).
    cbn [bind fst snd] in H. destruct b; injection H as <- <-.
    + cbn [List.concat app]. rewrite Hcat.
      repeat split; [discriminate | constructor; assumption].
    + cbn [app]. rewrite Hcat.
      repeat split; [discriminate | assumption].
Qed.

Lemma pause_test_ok thr p x :
  (exists b, pause_test thr p x = Ok b)
  <-> accepted (end_ p) /\ accepted (start x).
Proof.
  unfold pause_test, accepted. split.
  - intros [b H].
    destruct (strptime (end_ p)) as [e | err]; [| discriminate H].
    destruct (strptime (start x)) as [s | err]; [| discriminate H].
    split; eexists; reflexivity.
  - intros [[e ->] [s ->]]. eexists. reflexivity.
Qed.

Lemma consulted_ok_cons p x r :
  consulted_ok (p :: x :: r)
  <-> (accepted (end_ p) /\ accepted (start x)) /\ consulted_ok (x :: r).
Proof.
  unfold consulted_ok. split.
  - intros H. split.
    + apply (H 0 p x); reflexivity.
    + intros i u v Hu Hv. apply (H (S i) u v); assumption.
  - intros [H0 H] [| i] u v Hu Hv.
    + cbn in Hu, Hv. injection Hu as <-. injection Hv as <-. exact H0.
    + apply (H i u v); assumption.
Qed.

Lemma scenes_from_ok thr rest :
  forall p,
    (exists fm, scenes_from thr p rest = Ok fm) <-> consulted_ok (p :: rest).
Proof.
  induction rest as [| x r IH]; intros p.
  - split.
    + intros _ [| i] u v Hu Hv; [discriminate Hv |].
      destruct i; discriminate Hu.
    + intros _. eexists. reflexivity.
  - rewrite consulted_ok_cons, <- IH, <- (pause_test_ok thr).
    cbn [scenes_from]. split.
    + intros [fm H].
      destruct (pause_test thr p x) as [b | err]; [| discriminate H].
      destruct (scenes_from thr x r) as [fm' | err]; [| discriminate H].
      split; eexists; reflexivity.
    + intros [[b ->] [fm ->]]. eexists. reflexivity.
Qed.

(** *** The scene of a position *)

Lemma scene_index_head {A : Type} (f : list A) (m : list (list A)) :
  f <> [] -> scene_index (f :: m) 0 = Some 0.
Proof. destruct f; [congruence | reflexivity]. Qed.

Lemma scene_index_new_scene {A : Type} (p : A) (ss : list (list A)) j :
  scene_index ([p] :: ss) (S j) = option_map S (scene_index ss j).
Proof. cbn. rewrite Nat.sub_0_r. reflexivity. Qed.

Lemma scene_index_same_scene {A : Type} (p : A) f (m : list (list A)) j :
  scene_index ((p :: f) :: m) (S j) = scene_index (f :: m) j.
Proof. reflexivity. Qed.

Lemma scenes_from_neighbours thr rest :
  forall p f m,
    scenes_from thr p rest = Ok (f, m) ->
    forall i u v,
      nth_error (p :: rest) i = Some u ->
      nth_error (p :: rest) (S i) = Some v ->
      exists b k,
        pause_test thr u v = Ok b
        /\ scene_index (f :: m) i = Some k
        /\ scene_index (f :: m) (S i) = Some (if b : bool then S k else k).
Proof.
  induction rest as [| x r IH]; intros p f m H i u v Hu Hv.
  - destruct i; discriminate Hv.
  - cbn [scenes_from] in H.
    destruct (pause_test thr p x) as [b | err] eqn:Hb; [| discriminate H].
    destruct (scenes_from thr x r) as [[f' m'] | err] eqn:Hr;
      [| discriminate H].
    destruct (scenes_from_partition thr r x f' m' Hr) as (_ & Hne & _).
    cbn [bind fst snd] in H.
    destruct i as [| i].
    + cbn in Hu, Hv. injection Hu as <-. injection Hv as <-.
      exists b, 0. split; [exact Hb |].
      destruct b; injection H as <- <-.
      * split; [reflexivity |].
        rewrite scene_index_new_scene, (scene_index_head f' m' Hne).
        reflexivity.
      * split; [reflexivity |].
        rewrite scene_index_same_scene. apply scene_index_head, Hne.
    + destruct (IH x f' m' Hr i u v Hu Hv) as (b' & k & Hb' & Hi & HSi).
      destruct b; injection H as <- <-.
      * exists b', (S k). split; [exact Hb' |].
        rewrite !scene_index_new_scene, Hi, HSi.
        destruct b'; split; reflexivity.
      * exists b', k. split; [exact Hb' |].
        rewrite !scene_index_same_scene. split; assumption.
Qed.

(** *** Clock timestamps and [strptime] *)

Lemma is_digit_cases c :
  is_digit c = true ->
  c = "0"%char \/ c = "1"%char \/ c = "2"%char \/ c = "3"%char
  \/ c = "4"%char \/ c = "5"%char \/ c = "6"%char \/ c = "7"%char
  \/ c = "8"%char \/ c = "9"%char.
Proof.
  destruct c as [[] [] [] [] [] [] [] []]; cbv; intros H;
    try discriminate H;
    repeat (first [left; reflexivity | right]); reflexivity.
Qed.

Ltac digit_cases Ha Hb :=
  repeat (destruct Ha as [Ha | Ha]); subst;
  repeat (destruct Hb as [Hb | Hb]); subst.

Lemma two_digits_ok a b :
  is_digit a = true -> is_digit b = true ->
  ((two_digits a b <=? 23)%Z = true -> two_H a b = true)
  /\ ((two_digits a b <=? 59)%Z = true ->
      two_M a b = true /\ two_S a b = true).
Proof.
  intros Ha Hb.
  apply is_digit_cases in Ha. apply is_digit_cases in Hb.
  digit_cases Ha Hb; vm_compute; split; intros H;
    first [discriminate H | reflexivity | split; reflexivity].
Qed.

Lemma re_field_two two_ok sep a b r :
  is_digit a = true -> is_digit b = true -> two_ok a b = true ->
  re_field two_ok sep (String a (String b (String sep r)))
  = Some (two_digits a b, r).
Proof.
  intros Ha Hb Hok. unfold re_field.
  rewrite Ha, Hb, Hok, Ascii.eqb_refl. reflexivity.
Qed.

Lemma strptime_clock s :
  is_clock s = true ->
  exists d, strptime s = Ok d /\ micros d = (stamp_millis s * 1000)%Z.
Proof.
  unfold is_clock, stamp_millis, stamp_fields.
  destruct s as [| h1 [| h2 [| c1 [| m1 [| m2 [| c2 [| s1 [| s2 [| c3
    [| f1 [| f2 [| f3 [| ? ?]]]]]]]]]]]]]; try discriminate.
  match goal with
  | |- context [if (?c && Ascii.eqb c3 ",")%bool then _ else _] =>
      destruct (c && Ascii.eqb c3 ",")%bool eqn:Hc
  end; [| discriminate].
  intros Hrange.
  repeat match goal with
         | H : (_ && _)%bool = true |- _ =>
             apply andb_prop in H; destruct H
         end.
  repeat match goal with
         | H : Ascii.eqb _ _ = true |- _ =>
             apply Ascii.eqb_eq in H; subst
         end.
  pose proof (two_digits_ok h1 h2 ltac:(assumption) ltac:(assumption))
    as [HH _].
  pose proof (two_digits_ok m1 m2 ltac:(assumption) ltac:(assumption))
    as [_ HM].
  pose proof (two_digits_ok s1 s2 ltac:(assumption) ltac:(assumption))
    as [_ HS].
  specialize (HH ltac:(assumption)).
  destruct (HM ltac:(assumption)) as [HM' _].
  destruct (HS ltac:(assumption)) as [_ HS'].
  unfold strptime.
  rewrite (re_field_two two_H) by auto.
  rewrite (re_field_two two_M) by auto.
  rewrite (re_field_two two_S) by auto.
  unfold re_fraction. cbn [all_digits String.length].
  repeat match goal with
         | H : is_digit _ = true |- _ => rewrite H
         end.
  cbn [andb Nat.leb Nat.sub digits_value Z.of_nat].
  match goal with
  | H : (two_digits s1 s2 <=? 59)%Z = true |- _ => rewrite H
  end.
  eexists. split; [reflexivity |].
  unfold micros, two_digits. cbn [hour minute second microsecond]. lia.
Qed.

(** *** The float of a gap *)

Lemma digit_value_range c :
  is_digit c = true -> (0 <= digit_value c <= 9)%Z.
Proof.
  unfold is_digit, digit_value. intros H.
  apply andb_prop in H. destruct H as [H1 H2].
  apply Nat.leb_le in H1. apply Nat.leb_le in H2. lia.
Qed.

Lemma clock_millis s :
  is_clock s = true -> (0 <= stamp_millis s < 86400000)%Z.
Proof.
  unfold is_clock, stamp_millis, stamp_fields.
  destruct s as [| h1 [| h2 [| c1 [| m1 [| m2 [| c2 [| s1 [| s2 [| c3
    [| f1 [| f2 [| f3 [| ? ?]]]]]]]]]]]]]; try discriminate.
  match goal with
  | |- context [if (?c && Ascii.eqb c3 ",")%bool then _ else _] =>
      destruct (c && Ascii.eqb c3 ",")%bool eqn:Hc
  end; [| discriminate].
  intros Hrange.
  repeat match goal with
         | H : (_ && _)%bool = true |- _ =>
             apply andb_prop in H; destruct H
         end.
  repeat match goal with
         | H : (_ <=? _)%Z = true |- _ => apply Z.leb_le in H
         end.
  repeat match goal with
         | H : is_digit _ = true |- _ => apply digit_value_range in H
         end.
  unfold two_digits in *. lia.
Qed.

(** Rounding to the nearest integer keeps the side of a whole number
    [N * S] that [td * S / b] is on, when the multiples of [1 / b] lie
    further apart than the integers do after the scaling by [S]. *)
Lemma round_div_whole (b N S td : Z) :
  (0 < b)%Z -> (b < 2 * S)%Z ->
  (N * S <= round_div (td * S) b)%Z <-> (N * b <= td)%Z.
Proof.
  intros Hb HS. unfold round_div.
  pose proof (Z.div_mod (td * S) b ltac:(lia)) as Hdm.
  pose proof (Z.mod_pos_bound (td * S) b Hb) as Hr.
  set (f := (td * S / b)%Z) in *. set (r := ((td * S) mod b)%Z) in *.
  assert (HSpos : (0 < S)%Z) by lia.
  split.
  - intros H.
    destruct (Z_le_gt_dec (N * b) td) as [Hle | Hgt]; [exact Hle | exfalso].
    assert (Hx : (td * S <= N * b * S - S)%Z) by nia.
    assert (Hf : (f <= N * S - 1)%Z) by nia.
    destruct (Z.compare_spec (2 * r) b) as [He | Hlt | Hgt'].
    + assert (f = N * S - 1)%Z by (destruct (Z.even f); lia). nia.
    + lia.
    + assert (f = N * S - 1)%Z by lia. nia.
  - intros H.
    assert (Hx : (N * S * b <= td * S)%Z) by nia.
    assert (Hf : (N * S <= f)%Z) by nia.
    destruct (2 * r ?= b)%Z; [destruct (Z.even f) | |]; lia.
Qed.

Lemma binade_seconds td :
  td <> 0%Z -> (Z.abs td < 86400000000)%Z -> (binade td 1000000 <= 17)%Z.
Proof.
  intros Hne Hb. unfold binade.
  assert (Hl : (Z.log2 (Z.abs td) <= 36)%Z).
  { assert (Z.log2 (Z.abs td) < 37)%Z; [| lia].
    apply Z.log2_lt_pow2; [lia |].
    change (2 ^ 37)%Z with 137438953472%Z. lia. }
  change (Z.log2 1000000) with 19%Z.
  match goal with
  | |- ((if ?c then _ else _) <= _)%Z => destruct c
  end; lia.
Qed.

(** Against a whole number, the float of a difference of less than a day
    compares as the exact quotient does. *)
Lemma total_seconds_whole (td n : Z) :
  (Z.abs td < 86400000000)%Z ->
  (inject_Z n <= total_seconds td)%Q <-> (n * 1000000 <= td)%Z.
Proof.
  intros Hb. unfold total_seconds, true_divide.
  destruct (Z.eqb_spec td 0) as [-> | Hne].
  - unfold Qle. cbn. lia.
  - pose proof (binade_seconds td Hne Hb) as He.
    set (e := (binade td 1000000 - 52)%Z) in *.
    assert (Hneg : (e <? 0)%Z = true) by (apply Z.ltb_lt; lia).
    rewrite Hneg.
    assert (HS : (2 ^ 35 <= 2 ^ (- e))%Z) by (apply Z.pow_le_mono_r; lia).
    change (2 ^ 35)%Z with 34359738368%Z in HS.
    unfold Qle. cbn [Qnum Qden inject_Z].
    rewrite Z2Pos.id by lia. rewrite Z.mul_1_r.
    apply (round_div_whole 1000000 n (2 ^ (- e)) td); lia.
Qed.

Lemma gap_whole (u v : subtitle) (n : Z) :
  is_clock (end_ u) = true -> is_clock (start v) = true ->
  (inject_Z n <= gap_seconds u v)%Q <-> (inject_Z n <= gap u v)%Q.
Proof.
  intros He Hs.
  pose proof (clock_millis _ He) as Hbe.
  pose proof (clock_millis _ Hs) as Hbs.
  unfold gap_seconds. rewrite total_seconds_whole by lia.
  unfold gap, Qle. cbn [Qnum Qden inject_Z]. lia.
Qed.

Lemma pause_test_clock thr u v :
  is_clock (end_ u) = true -> is_clock (start v) = true ->
  pause_test thr u v = Ok (Qle_bool thr (gap_seconds u v)).
Proof.
  intros He Hs. unfold pause_test.
  destruct (strptime_clock _ He) as (de & -> & Hde).
  destruct (strptime_clock _ Hs) as (ds & -> & Hds).
  cbn [bind]. unfold pause_reached, gap_seconds, sub.
  rewrite Hde, Hds. do 3 f_equal. lia.
Qed.

Lemma clock_timed_consulted subtitles :
  Forall clock_timed subtitles -> consulted_ok subtitles.
Proof.
  intros Hall i u v Hu Hv.
  rewrite Forall_forall in Hall.
  pose proof (Hall u (nth_error_In _ _ Hu)) as [_ He].
  pose proof (Hall v (nth_error_In _ _ Hv)) as [Hs _].
  destruct (strptime_clock _ He) as (de & Hde & _).
  destruct (strptime_clock _ Hs) as (ds & Hds & _).
  split; eexists; eassumption.
Qed.

Lemma clock_consulted_ok subtitles :
  clock_consulted subtitles -> consulted_ok subtitles.
Proof.
  intros Hall i u v Hu Hv.
  destruct (Hall i u v Hu Hv) as [He Hs].
  destruct (strptime_clock _ He) as (de & Hde & _).
  destruct (strptime_clock _ Hs) as (ds & Hds & _).
  split; eexists; eassumption.
Qed.

(** *** The segmenter *)

(** Against C1 as the specification states it: the two subtitles of [second_day]
    carry timestamps of the twenty-fifth hour, [strptime] rejects the
    first one it reads, and no scenes are returned. *)
Lemma second_day_not_partitioned :
  ~ exists scenes,
      group_into_scenes Samples.second_day (4 # 1) = Ok scenes
      /\ List.concat scenes = Samples.second_day
      /\ Forall (fun s => s <> []) scenes.
Proof.
  intros (scenes & H & _). vm_compute in H. discriminate H.
Qed.

(** C1 (amended): when the timestamps the segmenter reads are accepted by
    [strptime] (and only then) it returns scenes; their concatenation, in
    order, is the input list and none of them is empty.  The empty list
    gives no scene and a single subtitle gives one scene holding it,
    whatever its timestamps are. *)
Theorem group_into_scenes_partition (subtitles : list subtitle) (thr : Q) :
  (consulted_ok subtitles ->
   exists scenes,
     group_into_scenes subtitles thr = Ok scenes
     /\ List.concat scenes = subtitles
     /\ Forall (fun s => s <> []) scenes)
  /\ (forall scenes,
        group_into_scenes subtitles thr = Ok scenes ->
        consulted_ok subtitles)
  /\ group_into_scenes [] thr = Ok []
  /\ (forall u, group_into_scenes [u] thr = Ok [[u]]).
Proof.
  split; [| split; [| split]].
  - destruct subtitles as [| p rest]; intros Hok.
    + exists []. repeat split. constructor.
    + apply (scenes_from_ok thr) in Hok. destruct Hok as [[f m] Hfm].
      destruct (scenes_from_partition thr rest p f m Hfm)
        as (Hcat & Hne & Hall).
      exists (f :: m). rewrite group_into_scenes_cons, Hfm.
      repeat split; [exact Hcat | constructor; assumption].
  - destruct subtitles as [| p rest]; intros scenes H.
    + intros [| i] u v Hu Hv; discriminate Hu.
    + apply (scenes_from_ok thr). rewrite group_into_scenes_cons in H.
      destruct (scenes_from thr p rest) as [fm | err]; [| discriminate H].
      exists fm. reflexivity.
  - reflexivity.
  - intros u. reflexivity.
Qed.

Lemma group_into_scenes_partition_witness :
  consulted_ok Samples.opening
  /\ exists scenes,
       group_into_scenes Samples.opening (4 # 1) = Ok scenes
       /\ List.concat scenes = Samples.opening
       /\ Forall (fun s => s <> []) scenes.
Proof.
  assert (Hok : consulted_ok Samples.opening).
  { apply clock_timed_consulted.
    repeat constructor. }
  split; [exact Hok |].
  exact (proj1 (group_into_scenes_partition Samples.opening (4 # 1)) Hok).
Defined.

(** Against C2 as the specification states it: the timestamps of [past_midnight]
    are in the format [HH:MM:SS,mmm] and seven seconds lie between its two
    subtitles, yet with the threshold 4 they are placed in no scenes at
    all, because [strptime] rejects the hour 24. *)
Lemma past_midnight_not_split :
  Forall (fun u => is_stamp (start u) = true /\ is_stamp (end_ u) = true)
         Samples.past_midnight
  /\ (exists u v,
        nth_error Samples.past_midnight 0 = Some u
        /\ nth_error Samples.past_midnight 1 = Some v
        /\ (4 # 1 <= gap u v)%Q)
  /\ ~ exists scenes,
        group_into_scenes Samples.past_midnight (4 # 1) = Ok scenes
        /\ scene_index scenes 0 <> scene_index scenes 1.
Proof.
  split; [| split].
  - repeat constructor.
  - do 2 eexists. split; [reflexivity |]. split; [reflexivity |].
    vm_compute. discriminate.
  - intros (scenes & H & _). vm_compute in H. discriminate H.
Qed.

(** C2 (amended): when the timestamps the segmenter reads - the end of
    every subtitle but the last, the start of every subtitle but the
    first - are clock timestamps [HH:MM:SS,mmm] in the digits 0 to 9 (hour
    at most 23, minute and second at most 59), it returns scenes, and two
    neighbours lie in consecutive scenes when their gap in seconds, the
    float [total_seconds()] returns, reaches the threshold, in the same
    scene when it does not.  For a whole threshold, such as the default 4,
    the same holds of the exact gap. *)
Theorem pause_decides_scene (subtitles : list subtitle) (thr : Q) :
  clock_consulted subtitles ->
  exists scenes,
    group_into_scenes subtitles thr = Ok scenes
    /\ List.concat scenes = subtitles
    /\ forall i u v,
         nth_error subtitles i = Some u ->
         nth_error subtitles (S i) = Some v ->
         exists k,
           scene_index scenes i = Some k
           /\ ((thr <= gap_seconds u v)%Q ->
               scene_index scenes (S i) = Some (S k))
           /\ ((gap_seconds u v < thr)%Q ->
               scene_index scenes (S i) = Some k)
           /\ (forall n : Z,
                  (thr == inject_Z n)%Q ->
                  ((thr <= gap u v)%Q ->
                   scene_index scenes (S i) = Some (S k))
                  /\ ((gap u v < thr)%Q ->
                      scene_index scenes (S i) = Some k)).
Proof.
  intros Hall.
  destruct subtitles as [| p rest].
  { exists []. repeat split. intros [| i] u v Hu; discriminate Hu. }
  pose proof (clock_consulted_ok _ Hall) as Hok.
  apply (scenes_from_ok thr) in Hok. destruct Hok as [[f m] Hfm].
  destruct (scenes_from_partition thr rest p f m Hfm) as (Hcat & _ & _).
  exists (f :: m). rewrite group_into_scenes_cons, Hfm.
  repeat split; [exact Hcat |].
  intros i u v Hu Hv.
  destruct (scenes_from_neighbours thr rest p f m Hfm i u v Hu Hv)
    as (b & k & Hb & Hi & HSi).
  destruct (Hall i u v Hu Hv) as [He Hs].
  rewrite (pause_test_clock thr u v He Hs) in Hb. injection Hb as <-.
  assert (Hreach : (thr <= gap_seconds u v)%Q ->
                   scene_index (f :: m) (S i) = Some (S k)).
  { intros Hgap. apply Qle_bool_iff in Hgap. rewrite Hgap in HSi. exact HSi. }
  assert (Hbelow : (gap_seconds u v < thr)%Q ->
                   scene_index (f :: m) (S i) = Some k).
  { intros Hgap. destruct (Qle_bool thr (gap_seconds u v)) eqn:Hle.
    - apply Qle_bool_iff in Hle. exfalso.
      exact (Qlt_not_le _ _ Hgap Hle).
    - exact HSi. }
  exists k. split; [exact Hi |]. split; [exact Hreach |].
  split; [exact Hbelow |].
  intros n Hn. split; intros Hgap.
  - apply Hreach. rewrite Hn. apply (gap_whole u v n He Hs).
    rewrite <- Hn. exact Hgap.
  - apply Hbelow. apply Qnot_le_lt. intros Hle. rewrite Hn in Hle.
    apply (gap_whole u v n He Hs) in Hle. rewrite <- Hn in Hle.
    exact (Qlt_not_le _ _ Hgap Hle).
Qed.

Lemma pause_decides_scene_witness :
  clock_consulted Samples.opening
  /\ exists scenes,
       group_into_scenes Samples.opening (4 # 1) = Ok scenes
       /\ List.concat scenes = Samples.opening
       /\ forall i u v,
            nth_error Samples.opening i = Some u ->
            nth_error Samples.opening (S i) = Some v ->
            exists k,
              scene_index scenes i = Some k
              /\ ((4 # 1 <= gap_seconds u v)%Q ->
                  scene_index scenes (S i) = Some (S k))
              /\ ((gap_seconds u v < 4 # 1)%Q ->
                  scene_index scenes (S i) = Some k)
              /\ (forall n : Z,
                     (4 # 1 == inject_Z n)%Q ->
                     ((4 # 1 <= gap u v)%Q ->
                      scene_index scenes (S i) = Some (S k))
                     /\ ((gap u v < 4 # 1)%Q ->
                         scene_index scenes (S i) = Some k)).
Proof.
  assert (Hall : clock_consulted Samples.opening).
  { intros [| [| [| i]]] u v Hu Hv; cbn in Hu, Hv;
      try discriminate Hv;
      injection Hu as <-; injection Hv as <-; split; reflexivity. }
  split; [exact Hall |].
  exact (pause_decides_scene Samples.opening (4 # 1) Hall).
Defined.

End SegmenterProofs.

(** ** Decoding the reply *)

Module ResponseProofs.
Import PyStr ResponseParser ResponseSpec.
Local Open Scope list_scope.

(** *** [strip] *)

Lemma lstrip_length s : String.length (lstrip s) <= String.length s.
Proof.
  induction s as [| c r IH]; cbn [lstrip String.length]; [lia |].
  destruct (is_space c); cbn [String.length]; lia.
Qed.

Lemma lstrip_head s c r : lstrip s = String c r -> is_space c = false.
Proof.
  induction s as [| d t IH]; cbn [lstrip]; [discriminate |].
  destruct (is_space d) eqn:Hd; [exact IH |].
  intros H. injection H as <- _. exact Hd.
Qed.

Lemma lstrip_fixed s c r : is_space c = false -> s = String c r -> lstrip s = s.
Proof. intros Hc ->. cbn [lstrip]. rewrite Hc. reflexivity. Qed.

Lemma rstrip_head c r :
  is_space c = false -> exists r', rstrip (String c r) = String c r'.
Proof.
  intros Hc. cbn [rstrip]. destruct (rstrip r).
  - rewrite Hc. eexists. reflexivity.
  - eexists. reflexivity.
Qed.

Lemma rstrip_idem s : rstrip (rstrip s) = rstrip s.
Proof.
  induction s as [| c r IH]; [reflexivity |].
  cbn [rstrip]. destruct (rstrip r) as [| d r'] eqn:Hr.
  - destruct (is_space c) eqn:Hc; [reflexivity |].
    cbn [rstrip]. rewrite Hc. reflexivity.
  - cbn [rstrip] in *. rewrite IH. reflexivity.
Qed.

Lemma rstrip_last s c : last_char (rstrip s) = Some c -> is_space c = false.
Proof.
  induction s as [| d r IH]; [discriminate |].
  cbn [rstrip]. destruct (rstrip r) as [| e r'] eqn:Hr.
  - destruct (is_space d) eqn:Hd; [discriminate |].
    cbn. intros H. injection H as <-. exact Hd.
  - intros H. apply IH. exact H.
Qed.

Lemma strip_head s c r : strip s = String c r -> is_space c = false.
Proof.
  unfold strip. destruct (lstrip s) as [| d t] eqn:Hl; [discriminate |].
  pose proof (lstrip_head s d t Hl) as Hd.
  destruct (rstrip_head d t Hd) as [r' ->].
  intros H. injection H as <- _. exact Hd.
Qed.

Lemma strip_idem s : strip (strip s) = strip s.
Proof.
  unfold strip.
  destruct (lstrip s) as [| d t] eqn:Hl; [reflexivity |].
  pose proof (lstrip_head s d t Hl) as Hd.
  destruct (rstrip_head d t Hd) as [r' Hr].
  rewrite (lstrip_fixed (rstrip (String d t)) d r' Hd Hr).
  apply rstrip_idem.
Qed.

Lemma strip_trimmed s : nonempty (strip s) = true -> trimmed (strip s).
Proof.
  intros Hne. unfold trimmed. repeat split.
  - intros H. rewrite H in Hne. discriminate Hne.
  - apply strip_idem.
  - intros c Hc. destruct (strip s) as [| d r] eqn:Hs; [discriminate |].
    injection Hc as <-. exact (strip_head s d r Hs).
  - intros c. unfold strip. apply rstrip_last.
Qed.

(** *** The two lists *)

Lemma comma_items_trimmed t x : In x (comma_items t) -> trimmed x.
Proof.
  unfold comma_items. intros H.
  apply in_map_iff in H. destruct H as (y & <- & Hy).
  apply filter_In in Hy. apply strip_trimmed, Hy.
Qed.

Lemma parse_line_trimmed a line :
  lists_trimmed a -> lists_trimmed (parse_line a line).
Proof.
  unfold lists_trimmed, parse_line. intros Ha x.
  repeat match goal with
         | |- context [if ?c then _ else _] => destruct c
         end;
    cbn [characters cultural_refs]; intros [H | H];
    first [ apply (comma_items_trimmed _ _ H)
          | apply Ha; (left; exact H) || (right; exact H) ].
Qed.

Lemma fold_parse_line_trimmed lines :
  forall a, lists_trimmed a -> lists_trimmed (fold_left parse_line lines a).
Proof.
  induction lines as [| l r IH]; intros a Ha; [exact Ha |].
  cbn [fold_left]. apply IH, parse_line_trimmed, Ha.
Qed.

(** C10: whatever the reply, every string of [characters] and of
    [cultural_refs] is non-empty, equals its own stripped form and has no
    whitespace at its first or last place. *)
Theorem parsed_lists_trimmed (response_text : pyval) (x : string) :
  In x (characters (parse_llm_response response_text))
  \/ In x (cultural_refs (parse_llm_response response_text)) ->
  trimmed x.
Proof.
  destruct response_text as [| s]; unfold parse_llm_response, parse_body.
  - cbn. intros [[] | []].
  - apply fold_parse_line_trimmed. intros y [[] | []].
Qed.

Lemma parsed_lists_trimmed_witness :
  In "Paula" (characters (parse_llm_response (PyStr repeated_reply)))
  /\ trimmed "Paula".
Proof.
  assert (H : In "Paula"
                (characters (parse_llm_response (PyStr repeated_reply))))
    by (vm_compute; right; left; reflexivity).
  split; [exact H |].
  exact (parsed_lists_trimmed (PyStr repeated_reply) "Paula" (or_introl H)).
Defined.

(** *** Lines without a label *)

Lemma labelled_false line :
  labelled line = false ->
  startswith line "Summary:" = false
  /\ startswith line "Characters:" = false
  /\ startswith line "Mood:" = false
  /\ startswith line "Cultural References:" = false.
Proof.
  unfold labelled. intros H.
  repeat (apply orb_false_elim in H; destruct H as [H ?]).
  repeat split; assumption.
Qed.

Lemma parse_line_unlabelled a line :
  labelled (strip line) = false -> parse_line a line = a.
Proof.
  intros H. apply labelled_false in H. destruct H as (H1 & H2 & H3 & H4).
  unfold parse_line. rewrite H1, H2, H3, H4. reflexivity.
Qed.

Lemma fold_unlabelled lines :
  forall a,
    (forall line, In line lines -> labelled (strip line) = false) ->
    fold_left parse_line lines a = a.
Proof.
  induction lines as [| l r IH]; intros a H; [reflexivity |].
  cbn [fold_left]. rewrite parse_line_unlabelled by (apply H; left; reflexivity).
  apply IH. intros line Hin. apply H. right. exact Hin.
Qed.

(** For a string the [try] block raises nothing; the sentinel is the answer
    to a reply that is [None]. *)
Lemma string_reply_decoded s : exists a, parse_body (PyStr s) = Ok a.
Proof. eexists. reflexivity. Qed.

Lemma none_reply_sentinel : parse_llm_response PyNone = sentinel.
Proof. reflexivity. Qed.

(** Against C3 as the specification states it: the empty reply is decoded to the
    record of default values, which is not the sentinel. *)
Lemma empty_reply_not_sentinel :
  parse_llm_response (PyStr "") <> sentinel.
Proof. vm_compute. discriminate. Qed.

(** C3 (amended): for a string in which no line carries one of the four
    labels, and for the empty string, the [try] block raises nothing and
    the parser returns the record of default values (empty summary, no
    characters, empty mood, no cultural references). *)
Theorem unlabelled_reply_gives_defaults (s : string) :
  ((forall line, In line (reply_lines s) -> labelled (strip line) = false) ->
   parse_body (PyStr s) = Ok defaults
   /\ parse_llm_response (PyStr s) = defaults)
  /\ parse_body (PyStr "") = Ok defaults
  /\ parse_llm_response (PyStr "") = defaults.
Proof.
  split; [| split; reflexivity].
  intros H. unfold parse_llm_response, parse_body.
  fold (reply_lines s). rewrite (fold_unlabelled _ _ H).
  split; reflexivity.
Qed.

Lemma unlabelled_reply_gives_defaults_witness :
  (forall line, In line (reply_lines chatter) -> labelled (strip line) = false)
  /\ parse_body (PyStr chatter) = Ok defaults
  /\ parse_llm_response (PyStr chatter) = defaults.
Proof.
  assert (H : forall line,
              In line (reply_lines chatter) -> labelled (strip line) = false).
  { intros line Hin. vm_compute in Hin.
    destruct Hin as [<- | [<- | []]]; reflexivity. }
  split; [exact H |].
  exact (proj1 (unlabelled_reply_gives_defaults chatter) H).
Defined.

(** C5: the reply of the example is decoded to the summary "A man walks.",
    the characters Jeff and Paula, the mood "tense" and no cultural
    reference: the literal [[]] gives the empty list. *)
Theorem sample_reply_decoded :
  parse_llm_response (PyStr sample_reply)
  = mk_analysis "A man walks." ["Jeff"; "Paula"] "tense" [].
Proof. vm_compute. reflexivity. Qed.

(** *** Repeated labels *)

Lemma mood_not_other line :
  startswith line "Mood:" = true ->
  startswith line "Summary:" = false /\ startswith line "Characters:" = false.
Proof.
  unfold startswith. destruct line as [| c r]; cbn [prefix]; [discriminate |].
  destruct (ascii_dec "M" c) as [<- | _]; [| discriminate].
  intros _. split; reflexivity.
Qed.

Lemma summary_kept a line :
  startswith (strip line) "Summary:" = false ->
  summary (parse_line a line) = summary a.
Proof.
  intros H. unfold parse_line. rewrite H.
  repeat match goal with
         | |- context [if ?c then _ else _] => destruct c
         end; reflexivity.
Qed.

Lemma mood_kept a line :
  startswith (strip line) "Mood:" = false ->
  mood (parse_line a line) = mood a.
Proof.
  intros H. unfold parse_line. rewrite H.
  repeat match goal with
         | |- context [if ?c then _ else _] => destruct c
         end; reflexivity.
Qed.

Lemma fold_kept (field : analysis -> string) (label : string) lines :
  (forall a line,
      startswith (strip line) label = false ->
      field (parse_line a line) = field a) ->
  forall a,
    (forall line, In line lines -> startswith (strip line) label = false) ->
    field (fold_left parse_line lines a) = field a.
Proof.
  intros Hkept.
  induction lines as [| l r IH]; intros a H; [reflexivity |].
  cbn [fold_left]. rewrite IH by (intros line Hin; apply H; right; exact Hin).
  apply Hkept, H. left. reflexivity.
Qed.

(** C9: when several lines begin with [Summary:] (with [Mood:]) the
    returned summary (mood) is the value of the last of them: the line
    with every occurrence of the label removed, stripped. *)
Theorem last_label_wins (s : string) (before after : list string)
        (line : string) :
  reply_lines s = before ++ line :: after ->
  (startswith (strip line) "Summary:" = true ->
   (forall l, In l after -> startswith (strip l) "Summary:" = false) ->
   summary (parse_llm_response (PyStr s))
   = strip (replace (strip line) "Summary:" ""))
  /\ (startswith (strip line) "Mood:" = true ->
      (forall l, In l after -> startswith (strip l) "Mood:" = false) ->
      mood (parse_llm_response (PyStr s))
      = strip (replace (strip line) "Mood:" "")).
Proof.
  intros Hlines. unfold parse_llm_response, parse_body.
  fold (reply_lines s). rewrite Hlines, fold_left_app. cbn [fold_left].
  split; intros Hline Hafter.
  - rewrite (fold_kept summary "Summary:" after summary_kept _ Hafter).
    unfold parse_line. rewrite Hline. reflexivity.
  - rewrite (fold_kept mood "Mood:" after mood_kept _ Hafter).
    destruct (mood_not_other _ Hline) as [H1 H2].
    unfold parse_line. rewrite H1, H2, Hline. reflexivity.
Qed.

Lemma last_label_wins_witness :
  summary (parse_llm_response (PyStr repeated_reply)) = "A saucer lands."
  /\ mood (parse_llm_response (PyStr repeated_reply)) = "eerie, tense".
Proof.
  split.
  - refine (proj1 (last_label_wins repeated_reply
                     ["Summary: first draft"; "Mood: calm"]
                     ["Mood: eerie, tense"; "Characters: Jeff , , Paula"]
                     "Summary:  A saucer lands. " _) _ _).
    + vm_compute. reflexivity.
    + vm_compute. reflexivity.
    + intros l [<- | [<- | []]]; vm_compute; reflexivity.
  - refine (proj2 (last_label_wins repeated_reply
                     ["Summary: first draft"; "Mood: calm";
                      "Summary:  A saucer lands. "]
                     ["Characters: Jeff , , Paula"]
                     "Mood: eerie, tense" _) _ _).
    + vm_compute. reflexivity.
    + vm_compute. reflexivity.
    + intros l [<- | []]; vm_compute; reflexivity.
Defined.

End ResponseProofs.

(** ** Parsing the subtitle file *)

Module SrtProofs.
Import PyStr PyList SrtParser RunSamples.
Local Open Scope list_scope.

Lemma getitem_nth {A : Type} (l : list A) (k : nat) (a : A) :
  nth_error l k = Some a -> getitem l (Z.of_nat k) = Ok a.
Proof.
  intros Hnth. unfold getitem.
  assert (Hk : k < List.length l)
    by (apply nth_error_Some; rewrite Hnth; discriminate).
  destruct (Z.ltb_spec (Z.of_nat k) 0) as [Hneg | _]; [lia |].
  destruct (Z.leb_spec 0 (Z.of_nat k)) as [_ | Hneg]; [| lia].
  destruct (Z.ltb_spec (Z.of_nat k) (Z.of_nat (List.length l)))
    as [_ | Hge]; [| lia].
  cbn [andb]. rewrite Nat2Z.id, Hnth. reflexivity.
Qed.

Lemma getitem_in_range {A : Type} (l : list A) (k : nat) :
  k < List.length l -> exists a, getitem l (Z.of_nat k) = Ok a.
Proof.
  intros Hk.
  destruct (nth_error l k) as [a |] eqn:Hnth.
  - exists a. apply getitem_nth, Hnth.
  - apply nth_error_None in Hnth. lia.
Qed.

(** A block of fewer than three lines is skipped. *)
Lemma short_block_skipped block :
  List.length (split (strip block) nl) < 3 -> parse_block block = Ok None.
Proof.
  intros H. unfold parse_block.
  apply Nat.ltb_lt in H. rewrite H. reflexivity.
Qed.

(** A block whose second line does not hold exactly two timestamps is
    skipped. *)
Lemma mistimed_block_skipped block line :
  nth_error (split (strip block) nl) 1 = Some line ->
  List.length (findall_timestamps line) <> 2 ->
  parse_block block = Ok None.
Proof.
  intros Hline Htimes. unfold parse_block.
  destruct (List.length (split (strip block) nl) <? 3) eqn:Hlen;
    [reflexivity |].
  pose proof (getitem_nth _ 1 line Hline) as Hget.
  cbn [Z.of_nat Pos.of_succ_nat] in Hget. rewrite Hget. cbn [bind].
  destruct (findall_timestamps line) as [| t1 [| t2 [| t3 ts]]];
    try reflexivity.
  exfalso. apply Htimes. reflexivity.
Qed.

Lemma py_int_raises s e : py_int s = Raise e -> e = ValueError_int.
Proof.
  unfold py_int.
  destruct (drop_int_space (skip_int_space s)) as [| c r].
  - cbn. intros H. injection H as <-. reflexivity.
  - match goal with
    | |- (let '(sign, body) := ?p in _) = _ -> _ =>
        destruct p as [sign body]
    end.
    destruct (int_body false 0 body) as [n |];
      [destruct (count_digits body <=? int_max_str_digits)%Z |];
      intros H; first [discriminate H | injection H as <-; reflexivity].
Qed.

(** The only exception a block can raise is that of [int]. *)
Lemma parse_block_raises block e :
  parse_block block = Raise e -> e = ValueError_int.
Proof.
  unfold parse_block.
  destruct (List.length (split (strip block) nl) <? 3) eqn:Hlen;
    [discriminate |].
  apply Nat.ltb_ge in Hlen.
  destruct (getitem_in_range (split (strip block) nl) 1 ltac:(lia))
    as [l1 H1].
  destruct (getitem_in_range (split (strip block) nl) 0 ltac:(lia))
    as [l0 H0].
  cbn [Z.of_nat Pos.of_succ_nat] in H0, H1. rewrite H1. cbn [bind].
  destruct (findall_timestamps l1) as [| t1 [| t2 [| t3 ts]]];
    try discriminate.
  rewrite H0. cbn [bind].
  intros H.
  destruct (py_int l0) as [n | e0] eqn:Hint; [discriminate H |].
  injection H as <-. exact (py_int_raises _ _ Hint).
Qed.

(** The transcripts past the twenty-fourth hour are what [parse_srt]
    returns for well-formed subtitle files. *)
Lemma late_samples_parsed :
  parse_srt Samples.past_midnight_srt = Ok Samples.past_midnight
  /\ parse_srt Samples.second_day_srt = Ok Samples.second_day.
Proof. split; vm_compute; reflexivity. Qed.

(** C4, at the failing input: the second block of [lettered_index] has
    three lines and two timestamps but begins with the line TWO; [int]
    raises, and [parse_srt] returns no subtitle at all instead of
    skipping the block. *)
Theorem lettered_index_raises :
  parse_srt lettered_index = Raise ValueError_int.
Proof. vm_compute. reflexivity. Qed.

End SrtProofs.

(** ** The fallback synopsis *)

Module ContextProofs.
Import PyStr Context RunSamples.

Lemma empty_context_fallback fs :
  load_movie_context fs = "" ->
  system_instruction fs
  = movie_intro ++ nl ++ "influence_intro" ++ nl ++ main_character_intro.
Proof. unfold system_instruction. intros ->. reflexivity. Qed.

(** C6, at the failing input: without section files the background
    context is the plot paragraph, the bare word influence_intro and the
    character list; the reception note is not part of it. *)
Theorem fallback_lacks_reception_note :
  load_movie_context no_sections = ""
  /\ system_instruction no_sections
     = movie_intro ++ nl ++ "influence_intro" ++ nl ++ main_character_intro
  /\ system_instruction no_sections
     <> movie_intro ++ nl ++ influence_intro ++ nl ++ main_character_intro.
Proof.
  split; [reflexivity |]. split; [reflexivity |].
  intros H. apply String.eqb_eq in H. vm_compute in H. discriminate H.
Qed.

End ContextProofs.

(** ** The annotator and the run *)

Module RunProofs.
Import PyStr PyList SrtParser Segmenter SegmenterSpec SegmenterProofs.
Import ResponseParser Annotator Run RunSpec RunSamples.
Local Open Scope list_scope.

Lemma group_into_scenes_nonempty subtitles thr scenes :
  group_into_scenes subtitles thr = Ok scenes ->
  Forall (fun s => s <> []) scenes.
Proof.
  destruct subtitles as [| p rest].
  - intros H. injection H as <-. constructor.
  - rewrite group_into_scenes_cons.
    destruct (scenes_from thr p rest) as [[f m] | err] eqn:Hfm;
      [| discriminate].
    intros H. injection H as <-.
    destruct (scenes_from_partition thr rest p f m Hfm) as (_ & Hne & Hall).
    constructor; assumption.
Qed.

Lemma getitem_first {A : Type} (l : list A) (a : A) :
  getitem l 0 = Ok a -> exists back, l = a :: back.
Proof.
  destruct l as [| x t]; [discriminate |].
  unfold getitem. cbn. intros H. injection H as <-. exists t. reflexivity.
Qed.

Lemma getitem_last_snoc {A : Type} (front : list A) (x : A) :
  getitem (front ++ [x]) (-1) = Ok x.
Proof.
  unfold getitem. cbn [Z.ltb Z.compare].
  rewrite length_app. cbn [List.length].
  destruct (Z.leb_spec 0 (-1 + Z.of_nat (List.length front + 1)))
    as [_ | Hneg]; [| lia].
  destruct (Z.ltb_spec (-1 + Z.of_nat (List.length front + 1))
              (Z.of_nat (List.length front + 1))) as [_ | Hge]; [| lia].
  cbn [andb].
  replace (Z.to_nat (-1 + Z.of_nat (List.length front + 1)))
    with (List.length front) by lia.
  rewrite nth_error_app2 by lia. rewrite Nat.sub_diag. reflexivity.
Qed.

Lemma getitem_last {A : Type} (l : list A) (a : A) :
  getitem l (-1) = Ok a -> exists front, l = front ++ [a].
Proof.
  destruct l as [| x front] using rev_ind; [discriminate |].
  rewrite getitem_last_snoc. intros H. injection H as <-.
  exists front. reflexivity.
Qed.

Lemma getitem_ends {A : Type} (l : list A) :
  l <> [] ->
  exists first last, getitem l 0 = Ok first /\ getitem l (-1) = Ok last.
Proof.
  intros Hne. destruct l as [| x t]; [congruence |].
  exists x. destruct (exists_last (l := x :: t) Hne) as (front & y & Hy).
  exists y. split; [reflexivity |]. rewrite Hy. apply getitem_last_snoc.
Qed.

Section WithService.
Variable world : Type.
Variable generate :
  world -> string -> string -> string -> string -> result pyval * world.
Variable api_key_env : option string.
Variable system_instruction : string.

Local Abbreviation analyze :=
  (analyze_scene_with_llm world generate api_key_env system_instruction).
Local Abbreviation one :=
  (analyze_one world generate api_key_env system_instruction).
Local Abbreviation all :=
  (analyze_all world generate api_key_env system_instruction).
Local Abbreviation run :=
  (main world generate api_key_env system_instruction).

(** *** Configuration errors *)

Lemma unsupported_model_raises w scene_text model :
  startswith model "gemini" = false ->
  analyze w scene_text model
  = (Raise (ValueError_msg ("Unsupported model: " ++ model)), w).
Proof.
  intros H. unfold analyze_scene_with_llm. rewrite H. reflexivity.
Qed.

Lemma missing_credential_raises w scene_text model :
  startswith model "gemini" = true ->
  no_credential api_key_env ->
  analyze w scene_text model
  = (Raise (ValueError_msg
              "GEMINI_API_KEY not found in environment variables"), w).
Proof.
  intros H [Hkey | Hkey]; unfold analyze_scene_with_llm;
    rewrite H, Hkey; reflexivity.
Qed.

Lemma misconfigured_raises w scene_text model :
  startswith model "gemini" = false \/ no_credential api_key_env ->
  exists msg, analyze w scene_text model = (Raise (ValueError_msg msg), w).
Proof.
  intros [H | H].
  - eexists. apply unsupported_model_raises, H.
  - destruct (startswith model "gemini") eqn:Hm.
    + eexists. apply missing_credential_raises; assumption.
    + eexists. apply unsupported_model_raises, Hm.
Qed.

Lemma misconfigured_run_aborts w content model subtitles scenes :
  startswith model "gemini" = false \/ no_credential api_key_env ->
  parse_srt content = Ok subtitles ->
  group_into_scenes subtitles (4 # 1) = Ok scenes ->
  scenes <> [] ->
  exists msg, run w content model = (Raise (ValueError_msg msg), w).
Proof.
  intros Hcfg Hparse Hgroup Hne.
  pose proof (group_into_scenes_nonempty _ _ _ Hgroup) as Hall.
  destruct scenes as [| sc rest]; [congruence |].
  inversion Hall as [| ? ? Hsc _]; subst.
  destruct (getitem_ends sc Hsc) as (first & last & Hf & Hl).
  destruct (misconfigured_raises w (join " " (map text sc)) model Hcfg)
    as [msg Hmsg].
  exists msg. unfold main. rewrite Hparse, Hgroup.
  cbn [analyze_all]. unfold analyze_one. rewrite Hf, Hl.
  rewrite Hmsg. reflexivity.
Qed.

(** *** The results *)

Lemma analyze_one_result w model sc r w' :
  one w model sc = (Ok r, w') -> result_of_scene sc r.
Proof.
  unfold analyze_one.
  destruct (getitem sc 0) as [first | e] eqn:Hf; [| discriminate].
  destruct (getitem sc (-1)) as [last | e] eqn:Hl; [| discriminate].
  destruct (analyze_scene_with_llm world generate api_key_env
              system_instruction w (join " " (map text sc)) model)
    as [[a | e] w2]; [| discriminate].
  intros H. injection H as <- _.
  destruct (getitem_first sc first Hf) as [back Hback].
  destruct (getitem_last sc last Hl) as [front Hfront].
  exists first, last, back, front, a. repeat split; assumption.
Qed.

Lemma analyze_all_results model scenes :
  forall w acc results w',
    all w model scenes acc = (Ok results, w') ->
    exists new,
      results = acc ++ new /\ Forall2 result_of_scene scenes new.
Proof.
  induction scenes as [| sc rest IH]; intros w acc results w' H.
  - injection H as <- _. exists []. rewrite app_nil_r.
    split; [reflexivity | constructor].
  - cbn [analyze_all] in H.
    destruct (analyze_one world generate api_key_env system_instruction
                w model sc) as [[r | e] w1] eqn:Hone; [| discriminate H].
    apply analyze_one_result in Hone.
    destruct (IH w1 (acc ++ [r]) results w' H) as (new & -> & Hnew).
    exists (r :: new). rewrite <- app_assoc.
    split; [reflexivity | constructor; assumption].
Qed.

Lemma analyze_returns w scene_text model c0 k0 reply w2 :
  startswith model "gemini" = true ->
  api_key_env = Some (String c0 k0) ->
  generate w (String c0 k0) model system_instruction (prompt scene_text)
  = (Ok reply, w2) ->
  analyze w scene_text model = (Ok (parse_llm_response reply), w2).
Proof.
  intros Hmodel Hk Hr. unfold analyze_scene_with_llm.
  rewrite Hmodel, Hk, Hr. reflexivity.
Qed.

Lemma analyze_all_returns model scenes :
  startswith model "gemini" = true ->
  credential api_key_env ->
  (forall w k m c p, exists reply w2, generate w k m c p = (Ok reply, w2)) ->
  Forall (fun s => s <> []) scenes ->
  forall w acc, exists results w', all w model scenes acc = (Ok results, w').
Proof.
  intros Hmodel (k & Hk & Hkne) Hgen Hall.
  destruct k as [| c0 k0]; [discriminate Hkne |].
  induction Hall as [| sc rest Hsc _ IH]; intros w acc.
  - do 2 eexists. reflexivity.
  - destruct (getitem_ends sc Hsc) as (first & last & Hf & Hl).
    destruct (Hgen w (String c0 k0) model system_instruction
                   (prompt (join " " (map text sc)))) as (reply & w2 & Hr).
    pose proof (analyze_returns w _ model c0 k0 reply w2 Hmodel Hk Hr)
      as Hone.
    cbn [analyze_all]. unfold analyze_one.
    rewrite Hf, Hl, Hone. apply IH.
Qed.

End WithService.

(** C7: the annotator raises, and returns no annotation, when the model
    identifier does not begin with gemini and when it does but no
    credential is configured; in a run with at least one scene the error
    leaves [main], before the service is reached. *)
Theorem configuration_errors_raise
        (world : Type)
        (generate : world -> string -> string -> string -> string ->
                    result pyval * world)
        (api_key_env : option string) (context : string)
        (w : world) (scene_text model content : string) :
  (startswith model "gemini" = false ->
   analyze_scene_with_llm world generate api_key_env context
                          w scene_text model
   = (Raise (ValueError_msg ("Unsupported model: " ++ model)), w))
  /\ (startswith model "gemini" = true ->
      no_credential api_key_env ->
      analyze_scene_with_llm world generate api_key_env context
                             w scene_text model
      = (Raise (ValueError_msg
                  "GEMINI_API_KEY not found in environment variables"), w))
  /\ (startswith model "gemini" = false \/ no_credential api_key_env ->
      forall subtitles scenes,
        parse_srt content = Ok subtitles ->
        group_into_scenes subtitles (4 # 1) = Ok scenes ->
        scenes <> [] ->
        exists msg,
          main world generate api_key_env context w content model
          = (Raise (ValueError_msg msg), w)).
Proof.
  split; [| split].
  - apply unsupported_model_raises.
  - apply missing_credential_raises.
  - intros Hcfg subtitles scenes Hparse Hgroup Hne.
    exact (misconfigured_run_aborts world generate api_key_env context
             w content model subtitles scenes Hcfg Hparse Hgroup Hne).
Qed.

Lemma configuration_errors_raise_witness :
  analyze_scene_with_llm unit canned (Some "key") "context"
                         tt "Greetings, my friend." "openai:gpt-4o"
  = (Raise (ValueError_msg "Unsupported model: openai:gpt-4o"), tt)
  /\ analyze_scene_with_llm unit canned None "context"
                            tt "Greetings, my friend." "gemini-2.0-flash"
     = (Raise (ValueError_msg
                 "GEMINI_API_KEY not found in environment variables"), tt)
  /\ exists msg,
       main unit canned None "context" tt two_scenes "gemini-2.0-flash"
       = (Raise (ValueError_msg msg), tt).
Proof.
  split; [| split].
  - exact (proj1 (configuration_errors_raise unit canned (Some "key")
                    "context" tt "Greetings, my friend." "openai:gpt-4o"
                    two_scenes) eq_refl).
  - exact (proj1 (proj2 (configuration_errors_raise unit canned None
                           "context" tt "Greetings, my friend."
                           "gemini-2.0-flash" two_scenes))
                 eq_refl (or_introl eq_refl)).
  - refine (proj2 (proj2 (configuration_errors_raise unit canned None
                            "context" tt "Greetings, my friend."
                            "gemini-2.0-flash" two_scenes))
                  (or_intror (or_introl eq_refl)) _ _ _ _ _).
    + vm_compute. reflexivity.
    + vm_compute. reflexivity.
    + discriminate.
Defined.

(** C8: the list a run hands to the serializer holds one dict per scene,
    in the order of the scenes; each dict has the keys start, end,
    transcript, summary, characters, mood and cultural_refs, with the
    start of the first subtitle of its scene, the end of the last one and
    the texts of the scene joined by single spaces.  A run whose
    subtitles are parsed and grouped, with a supported model, a
    credential and a service that answers, returns such a list. *)
Theorem results_follow_scenes
        (world : Type)
        (generate : world -> string -> string -> string -> string ->
                    result pyval * world)
        (api_key_env : option string) (context : string)
        (w : world) (content model : string) :
  (forall results w',
      main world generate api_key_env context w content model
      = (Ok results, w') ->
      exists subtitles scenes,
        parse_srt content = Ok subtitles
        /\ group_into_scenes subtitles (4 # 1) = Ok scenes
        /\ Forall2 result_of_scene scenes results)
  /\ (forall subtitles scenes,
        parse_srt content = Ok subtitles ->
        group_into_scenes subtitles (4 # 1) = Ok scenes ->
        startswith model "gemini" = true ->
        credential api_key_env ->
        (forall w0 k m c p,
            exists reply w2, generate w0 k m c p = (Ok reply, w2)) ->
        exists results w',
          main world generate api_key_env context w content model
          = (Ok results, w')).
Proof.
  split.
  - intros results w' H. unfold main in H.
    destruct (parse_srt content) as [subtitles | e] eqn:Hparse;
      [| discriminate H].
    destruct (group_into_scenes subtitles (4 # 1)) as [scenes | e] eqn:Hgroup;
      [| discriminate H].
    destruct (analyze_all world generate api_key_env context w model
                scenes []) as [[rs | e] w1] eqn:Hall; [| discriminate H].
    injection H as <- _.
    destruct (analyze_all_results world generate api_key_env context
                model scenes w [] rs w1 Hall) as (new & -> & Hnew).
    exists subtitles, scenes.
    split; [reflexivity |]. split; [exact Hgroup | exact Hnew].
  - intros subtitles scenes Hparse Hgroup Hmodel Hkey Hgen.
    pose proof (group_into_scenes_nonempty _ _ _ Hgroup) as Hne.
    destruct (analyze_all_returns world generate api_key_env context
                model scenes Hmodel Hkey Hgen Hne w [])
      as (results & w' & Hall).
    exists results, w'. unfold main. rewrite Hparse, Hgroup, Hall.
    reflexivity.
Qed.

Lemma results_follow_scenes_witness :
  exists results,
    main unit canned (Some "key") "context" tt two_scenes "gemini-2.0-flash"
    = (Ok results, tt)
    /\ List.length results = 2
    /\ exists subtitles scenes,
         parse_srt two_scenes = Ok subtitles
         /\ group_into_scenes subtitles (4 # 1) = Ok scenes
         /\ Forall2 result_of_scene scenes results.
Proof.
  eexists. split; [vm_compute; reflexivity |]. split; [reflexivity |].
  refine (proj1 (results_follow_scenes unit canned (Some "key") "context"
                   tt two_scenes "gemini-2.0-flash") _ tt _).
  vm_compute. reflexivity.
Defined.

End RunProofs.

(** ** More on scene segmentation *)

Module SegmenterMore.
Import PyStr PyList Datetime Segmenter SegmenterSpec SegmenterProofs.
Import SegmenterMoreSpec.
Local Open Scope list_scope.

Lemma scenes_from_group thr p rest f m :
  scenes_from thr p rest = Ok (f, m) <->
  group_into_scenes (p :: rest) thr = Ok (f :: m).
Proof.
  rewrite group_into_scenes_cons. split.
  - intros ->. reflexivity.
  - destruct (scenes_from thr p rest) as [[f' m'] | e]; [| discriminate].
    cbn. intros H. injection H as <- <-. reflexivity.
Qed.

Lemma all_tests_cons thr p x r b :
  all_tests thr (p :: x :: r) b <->
  pause_test thr p x = Ok b /\ all_tests thr (x :: r) b.
Proof.
  unfold all_tests. split.
  - intros H. split.
    + apply (H 0 p x); reflexivity.
    + intros i u v Hu Hv. apply (H (S i) u v); assumption.
  - intros [H0 H] [| i] u v Hu Hv.
    + cbn in Hu, Hv. injection Hu as <-. injection Hv as <-. exact H0.
    + apply (H i u v); assumption.
Qed.

Lemma scenes_from_no_pause thr rest :
  forall p, all_tests thr (p :: rest) false ->
            scenes_from thr p rest = Ok (p :: rest, []).
Proof.
  induction rest as [| x r IH]; intros p H; [reflexivity |].
  apply all_tests_cons in H. destruct H as [H0 H].
  cbn [scenes_from]. rewrite H0, (IH x H). reflexivity.
Qed.

Lemma scenes_from_all_pauses thr rest :
  forall p, all_tests thr (p :: rest) true ->
            scenes_from thr p rest = Ok ([p], map (fun u => [u]) rest).
Proof.
  induction rest as [| x r IH]; intros p H; [reflexivity |].
  apply all_tests_cons in H. destruct H as [H0 H].
  cbn [scenes_from]. rewrite H0, (IH x H). reflexivity.
Qed.

(** X1: when no test between neighbours finds the threshold reached, a
    non-empty transcript is one scene; when every test finds it reached,
    every subtitle is a scene of its own. *)
Theorem uniform_pauses (subtitles : list subtitle) (thr : Q) :
  (subtitles <> [] -> all_tests thr subtitles false ->
   group_into_scenes subtitles thr = Ok [subtitles])
  /\ (all_tests thr subtitles true ->
      group_into_scenes subtitles thr = Ok (map (fun u => [u]) subtitles)).
Proof.
  destruct subtitles as [| p rest]; split.
  - congruence.
  - reflexivity.
  - intros _ H. rewrite group_into_scenes_cons, (scenes_from_no_pause _ _ _ H).
    reflexivity.
  - intros H. rewrite group_into_scenes_cons, (scenes_from_all_pauses _ _ _ H).
    reflexivity.
Qed.

Lemma uniform_pauses_witness :
  group_into_scenes (firstn 2 Samples.opening) (4 # 1)
  = Ok [firstn 2 Samples.opening]
  /\ group_into_scenes Samples.opening (1 # 4)
     = Ok (map (fun u => [u]) Samples.opening).
Proof.
  split.
  - refine (proj1 (uniform_pauses (firstn 2 Samples.opening) (4 # 1)) _ _).
    + discriminate.
    + intros [| [| i]] u v Hu Hv; cbn in Hu, Hv; try discriminate.
      injection Hu as <-. injection Hv as <-. reflexivity.
  - refine (proj2 (uniform_pauses Samples.opening (1 # 4)) _).
    intros [| [| [| i]]] u v Hu Hv; cbn in Hu, Hv; try discriminate;
      injection Hu as <-; injection Hv as <-; reflexivity.
Defined.

Lemma scenes_from_count thr rest :
  forall p f m,
    scenes_from thr p rest = Ok (f, m) ->
    List.length m = pauses thr p rest.
Proof.
  induction rest as [| x r IH]; intros p f m H.
  - injection H as <- <-. reflexivity.
  - cbn [scenes_from pauses] in *.
    destruct (pause_test thr p x) as [b | e]; [| discriminate H].
    destruct (scenes_from thr x r) as [[f' m'] | e] eqn:Hr; [| discriminate H].
    specialize (IH x f' m' Hr).
    cbn [bind fst snd] in H. destruct b; injection H as <- <-; cbn; lia.
Qed.

(** X2: the number of scenes of a non-empty transcript is one more than the
    number of neighbours between which the threshold is reached. *)
Theorem scene_count (p : subtitle) (rest : list subtitle) (thr : Q)
        (scenes : list (list subtitle)) :
  group_into_scenes (p :: rest) thr = Ok scenes ->
  List.length scenes = S (pauses thr p rest).
Proof.
  intros H. destruct scenes as [| f m].
  - rewrite group_into_scenes_cons in H.
    destruct (scenes_from thr p rest) as [[f m] | e]; discriminate H.
  - apply scenes_from_group in H. cbn [List.length].
    rewrite (scenes_from_count _ _ _ _ _ H). reflexivity.
Qed.

Lemma scene_count_witness :
  exists scenes,
    group_into_scenes Samples.opening (4 # 1) = Ok scenes
    /\ List.length scenes = 2.
Proof.
  eexists. split; [vm_compute; reflexivity |].
  exact (scene_count (mk_subtitle 1 "00:00:01,000" "00:00:02,500"
                                  "Greetings, my friend.")
                     (tl Samples.opening) (4 # 1) _ eq_refl).
Defined.

Lemma pause_test_keeps_times thr f p x :
  keeps_times f -> pause_test thr (f p) (f x) = pause_test thr p x.
Proof.
  intros Hf. unfold pause_test.
  rewrite (proj2 (Hf p)), (proj1 (Hf x)). reflexivity.
Qed.

Lemma scenes_from_map thr f rest :
  keeps_times f ->
  forall p,
    scenes_from thr (f p) (map f rest)
    = (fm <- scenes_from thr p rest ;;
       Ok (map f (fst fm), map (map f) (snd fm))).
Proof.
  intros Hf. induction rest as [| x r IH]; intros p; [reflexivity |].
  cbn [map scenes_from]. rewrite (pause_test_keeps_times thr f p x Hf), IH.
  destruct (pause_test thr p x) as [b | e]; [| reflexivity].
  destruct (scenes_from thr x r) as [[f' m'] | e]; [| reflexivity].
  destruct b; reflexivity.
Qed.

(** X3: the grouping reads nothing but the two timestamps: changing the
    subtitles in a way that keeps them (other texts, other indices) gives
    the same scenes, made of the changed subtitles. *)
Theorem grouping_reads_times_only (f : subtitle -> subtitle)
        (subtitles : list subtitle) (thr : Q) :
  keeps_times f ->
  group_into_scenes (map f subtitles) thr
  = (scenes <- group_into_scenes subtitles thr ;; Ok (map (map f) scenes)).
Proof.
  intros Hf. destruct subtitles as [| p rest]; [reflexivity |].
  cbn [map]. rewrite !group_into_scenes_cons, (scenes_from_map thr f rest Hf).
  destruct (scenes_from thr p rest) as [[f' m'] | e]; reflexivity.
Qed.

Lemma grouping_reads_times_only_witness :
  keeps_times retitled
  /\ group_into_scenes (map retitled Samples.opening) (4 # 1)
     = (scenes <- group_into_scenes Samples.opening (4 # 1) ;;
        Ok (map (map retitled) scenes)).
Proof.
  assert (H : keeps_times retitled) by (intros u; split; reflexivity).
  split; [exact H |].
  exact (grouping_reads_times_only retitled Samples.opening (4 # 1) H).
Defined.

Lemma pause_test_threshold thr thr' p x b :
  (thr <= thr')%Q ->
  pause_test thr p x = Ok b ->
  exists b', pause_test thr' p x = Ok b' /\ (b' = true -> b = true).
Proof.
  intros Hle. unfold pause_test.
  destruct (strptime (end_ p)) as [e | err]; [| discriminate].
  destruct (strptime (start x)) as [s | err]; [| discriminate].
  cbn [bind]. intros H. injection H as <-.
  eexists. split; [reflexivity |].
  unfold pause_reached. intros H'.
  apply Qle_bool_iff in H'. apply Qle_bool_iff.
  exact (Qle_trans _ _ _ Hle H').
Qed.

Lemma scenes_from_threshold thr thr' rest :
  (thr <= thr')%Q ->
  forall p f m,
    scenes_from thr p rest = Ok (f, m) ->
    exists f' m',
      scenes_from thr' p rest = Ok (f', m')
      /\ List.length m' <= List.length m.
Proof.
  intros Hle. induction rest as [| x r IH]; intros p f m H.
  - injection H as <- <-. exists [p], []. split; [reflexivity | apply le_n].
  - cbn [scenes_from] in *.
    destruct (pause_test thr p x) as [b | e] eqn:Hb; [| discriminate H].
    destruct (scenes_from thr x r) as [[f0 m0] | e] eqn:Hr; [| discriminate H].
    destruct (pause_test_threshold thr thr' p x b Hle Hb) as (b' & -> & Hbb).
    destruct (IH x f0 m0 Hr) as (f1 & m1 & -> & Hlen).
    cbn [bind fst snd] in *.
    destruct b'.
    + rewrite (Hbb eq_refl) in H. injection H as <- <-.
      do 2 eexists. split; [reflexivity |]. cbn. lia.
    + destruct b; injection H as <- <-;
        do 2 eexists; (split; [reflexivity |]); cbn; lia.
Qed.

(** X4: raising the threshold never fails a transcript that was grouped
    and never gives more scenes. *)
Theorem higher_threshold_fewer_scenes (subtitles : list subtitle)
        (thr thr' : Q) (scenes : list (list subtitle)) :
  (thr <= thr')%Q ->
  group_into_scenes subtitles thr = Ok scenes ->
  exists scenes',
    group_into_scenes subtitles thr' = Ok scenes'
    /\ List.length scenes' <= List.length scenes.
Proof.
  intros Hle H. destruct subtitles as [| p rest].
  - injection H as <-. exists []. split; [reflexivity | apply le_n].
  - destruct scenes as [| f m].
    + rewrite group_into_scenes_cons in H.
      destruct (scenes_from thr p rest) as [[f m] | e]; discriminate H.
    + apply scenes_from_group in H.
      destruct (scenes_from_threshold thr thr' rest Hle p f m H)
        as (f' & m' & H' & Hlen).
      exists (f' :: m'). split; [apply scenes_from_group, H' |].
      cbn. lia.
Qed.

Lemma higher_threshold_fewer_scenes_witness :
  exists scenes scenes',
    group_into_scenes Samples.opening (1 # 4) = Ok scenes
    /\ group_into_scenes Samples.opening (4 # 1) = Ok scenes'
    /\ List.length scenes' <= List.length scenes.
Proof.
  eexists.
  destruct (higher_threshold_fewer_scenes Samples.opening (1 # 4) (4 # 1) _
              ltac:(vm_compute; discriminate) eq_refl)
    as (scenes' & H & Hlen).
  exists scenes'. split; [reflexivity |]. split; [exact H | exact Hlen].
Defined.

Lemma group_into_scenes_step thr q y r :
  group_into_scenes (q :: y :: r) thr
  = (b <- pause_test thr q y ;;
     sc <- group_into_scenes (y :: r) thr ;;
     Ok (cons_scene b q sc)).
Proof.
  rewrite !group_into_scenes_cons. cbn [scenes_from].
  destruct (pause_test thr q y) as [b | e]; [| reflexivity].
  destruct (scenes_from thr y r) as [[f m] | e]; [| reflexivity].
  destruct b; reflexivity.
Qed.

Lemma cons_scene_seam b0 q bb sa sb :
  sa <> [] ->
  cons_scene b0 q (seam bb sa sb) = seam bb (cons_scene b0 q sa) sb.
Proof.
  intros Hsa. destruct sa as [| f m]; [congruence |].
  destruct bb; cbn [seam].
  - destruct b0; reflexivity.
  - destruct sb as [| fb rb]; [reflexivity |].
    destruct m as [| g m'].
    + destruct b0; reflexivity.
    + destruct b0; reflexivity.
Qed.

Lemma group_into_scenes_not_nil thr p rest sc :
  group_into_scenes (p :: rest) thr = Ok sc -> sc <> [].
Proof.
  rewrite group_into_scenes_cons.
  destruct (scenes_from thr p rest) as [[f m] | e]; [| discriminate].
  intros H. injection H as <-. discriminate.
Qed.

(** X5: the scenes of two transcripts put one after the other are the
    scenes of each, side by side when the threshold is reached at the
    seam, and with the last scene of the first joined to the first scene
    of the second when it is not. *)
Theorem scenes_of_concatenation (thr : Q) (a : list subtitle) (p x : subtitle)
        (b' : list subtitle) (bb : bool) :
  pause_test thr p x = Ok bb ->
  group_into_scenes ((a ++ [p]) ++ x :: b') thr
  = (sa <- group_into_scenes (a ++ [p]) thr ;;
     sb <- group_into_scenes (x :: b') thr ;;
     Ok (seam bb sa sb)).
Proof.
  intros Hseam. induction a as [| q a' IH].
  - cbn [app]. rewrite group_into_scenes_step, Hseam. cbn [bind].
    destruct (group_into_scenes (x :: b') thr) as [sb | e] eqn:Hsb;
      [| reflexivity].
    pose proof (group_into_scenes_not_nil _ _ _ _ Hsb) as Hne.
    destruct sb as [| fb rb]; [congruence |].
    destruct bb; reflexivity.
  - cbn [app]. destruct (a' ++ [p]) as [| y ys] eqn:Hys;
      [destruct a'; discriminate Hys |].
    cbn [app] in *.
    rewrite (group_into_scenes_step thr q y (ys ++ x :: b')),
      (group_into_scenes_step thr q y ys), IH.
    destruct (pause_test thr q y) as [b0 | e]; [| reflexivity].
    cbn [bind].
    destruct (group_into_scenes (y :: ys) thr) as [sa | e] eqn:Hsa;
      [| reflexivity].
    cbn [bind].
    destruct (group_into_scenes (x :: b') thr) as [sb | e]; [| reflexivity].
    cbn [bind]. f_equal.
    apply cons_scene_seam. exact (group_into_scenes_not_nil _ _ _ _ Hsa).
Qed.

Lemma scenes_of_concatenation_witness :
  group_into_scenes Samples.opening (4 # 1)
  = (sa <- group_into_scenes (firstn 2 Samples.opening) (4 # 1) ;;
     sb <- group_into_scenes (skipn 2 Samples.opening) (4 # 1) ;;
     Ok (seam true sa sb)).
Proof.
  exact (scenes_of_concatenation (4 # 1) (firstn 1 Samples.opening)
           (mk_subtitle 2 "00:00:03,000" "00:00:05,000"
                        "We are all interested in the future.")
           (mk_subtitle 3 "00:00:12,000" "00:00:14,250" "You are interested.")
           [] true eq_refl).
Defined.

End SegmenterMore.

(** ** More on parsing the subtitle file *)

Module SrtMore.
Import PyStr PyList SrtParser SegmenterSpec SrtProofs SrtMoreSpec RunSamples.
Local Open Scope list_scope.

(** *** Pieces of a split at one character *)

Lemma no_char_app c s t :
  no_char c (s ++ t)%string = no_char c s && no_char c t.
Proof.
  induction s as [| d r IH]; [reflexivity |].
  cbn [append no_char]. rewrite IH, andb_assoc. reflexivity.
Qed.

Lemma prefix_one c d r :
  prefix (String c "") (String d r) = Ascii.eqb d c.
Proof.
  cbn [prefix]. destruct (ascii_dec c d) as [<- | Hne].
  - rewrite Ascii.eqb_refl. destruct r; reflexivity.
  - symmetry. apply Ascii.eqb_neq. congruence.
Qed.

Lemma split_pieces c s :
  forall cur piece,
    no_char c cur = true ->
    In piece (split_aux (String c "") 0 cur s) ->
    no_char c piece = true.
Proof.
  induction s as [| d r IH]; intros cur piece Hcur Hin.
  - destruct Hin as [<- | []]. exact Hcur.
  - cbn [split_aux] in Hin. rewrite prefix_one in Hin.
    destruct (Ascii.eqb d c) eqn:Hd.
    + destruct Hin as [<- | Hin]; [exact Hcur |].
      apply (IH "" piece eq_refl Hin).
    + apply (IH (cur ++ String d "")%string piece); [| exact Hin].
      rewrite no_char_app, Hcur. cbn. rewrite Hd. reflexivity.
Qed.

Lemma split_piece c s piece :
  In piece (split s (String c "")) -> no_char c piece = true.
Proof. apply split_pieces. reflexivity. Qed.

Lemma no_char_join c sep l :
  no_char c sep = true ->
  (forall x, In x l -> no_char c x = true) ->
  no_char c (join sep l) = true.
Proof.
  intros Hsep. induction l as [| x r IH]; intros H; [reflexivity |].
  destruct r as [| y r'].
  - apply H. left. reflexivity.
  - cbn [join]. rewrite !no_char_app, Hsep, (H x (or_introl eq_refl)).
    cbn [andb]. apply IH. intros z Hz. apply H. right. exact Hz.
Qed.

Lemma in_skipn {A : Type} (n : nat) (l : list A) (x : A) :
  In x (skipn n l) -> In x l.
Proof.
  intros H. rewrite <- (firstn_skipn n l). apply in_or_app. right. exact H.
Qed.

(** *** Timestamps found on a line *)

Lemma timestamp_at_stamp s t : timestamp_at s = Some t -> is_stamp t = true.
Proof.
  unfold timestamp_at.
  destruct s as [| a [| b [| c [| d [| e [| f [| g [| h [| i
    [| j [| k [| l ?]]]]]]]]]]]]; try discriminate.
  match goal with
  | |- context [if ?cond then _ else _] => destruct cond eqn:Hc
  end; [| discriminate].
  intros H. injection H as <-.
  repeat match goal with
         | H : (_ && _)%bool = true |- _ => apply andb_prop in H; destruct H
         end.
  unfold is_stamp, stamp_fields.
  repeat match goal with
         | H : _ = true |- _ => rewrite H; clear H
         end.
  reflexivity.
Qed.

Lemma findall_stamps s :
  forall skip t, In t (findall_aux skip s) -> is_stamp t = true.
Proof.
  induction s as [| c r IH]; intros skip t Hin; [destruct Hin |].
  cbn [findall_aux] in Hin. destruct skip as [| k].
  - destruct (timestamp_at (String c r)) as [t0 |] eqn:Ht.
    + destruct Hin as [<- | Hin]; [exact (timestamp_at_stamp _ _ Ht) |].
      exact (IH _ _ Hin).
    + exact (IH _ _ Hin).
  - exact (IH _ _ Hin).
Qed.

(** *** One block *)

Lemma parse_block_shape block u :
  parse_block block = Ok (Some u) -> parsed_shape u.
Proof.
  unfold parse_block. fold (block_lines block).
  destruct (List.length (block_lines block) <? 3); [discriminate |].
  destruct (getitem (block_lines block) 1) as [line |]; [| discriminate].
  cbn [bind].
  destruct (findall_timestamps line) as [| t1 [| t2 [| t3 ts]]] eqn:Hts;
    try discriminate.
  destruct (getitem (block_lines block) 0) as [line0 |]; [| discriminate].
  cbn [bind]. destruct (py_int line0) as [n |]; [| discriminate].
  cbn [bind]. intros H. injection H as <-.
  unfold parsed_shape. cbn [start end_ text].
  assert (H1 : In t1 (findall_aux 0 line))
    by (unfold findall_timestamps in Hts; rewrite Hts; left; reflexivity).
  assert (H2 : In t2 (findall_aux 0 line))
    by (unfold findall_timestamps in Hts; rewrite Hts; right; left;
        reflexivity).
  split; [exact (findall_stamps _ _ _ H1) |].
  split; [exact (findall_stamps _ _ _ H2) |].
  apply no_char_join; [reflexivity |].
  intros x Hx. apply (split_piece "010" (strip block)).
  unfold block_lines in Hx. fold nl. exact (in_skipn 2 (split (strip block) nl) x Hx).
Qed.

Lemma parse_blocks_shape blocks :
  forall acc subtitles,
    parse_blocks blocks acc = Ok subtitles ->
    Forall parsed_shape acc ->
    Forall parsed_shape subtitles
    /\ List.length subtitles <= List.length acc + List.length blocks.
Proof.
  induction blocks as [| b rest IH]; intros acc subtitles H Hacc.
  - injection H as <-. split; [exact Hacc | cbn; lia].
  - cbn [parse_blocks] in H.
    destruct (parse_block b) as [[u |] | e] eqn:Hb; [| | discriminate H];
      cbn [bind] in H.
    + destruct (IH _ _ H) as [Hall Hlen].
      * apply Forall_app. split; [exact Hacc |].
        constructor; [exact (parse_block_shape _ _ Hb) | constructor].
      * split; [exact Hall |]. rewrite length_app in Hlen. cbn in *. lia.
    + destruct (IH _ _ H Hacc) as [Hall Hlen].
      split; [exact Hall | cbn; lia].
Qed.

(** X6: every subtitle [parse_srt] returns has a start and an end of the
    form of a timestamp and a text without line break, and there are at
    most as many subtitles as blocks. *)
Theorem parsed_subtitles_shape (content : string) (subtitles : list subtitle) :
  parse_srt content = Ok subtitles ->
  Forall parsed_shape subtitles
  /\ List.length subtitles <= List.length (blocks_of content).
Proof.
  intros H. unfold parse_srt in H. fold (blocks_of content) in H.
  destruct (parse_blocks_shape _ _ _ H (Forall_nil _)) as [Hall Hlen].
  split; [exact Hall | exact Hlen].
Qed.

Lemma parsed_subtitles_shape_witness :
  exists subtitles,
    parse_srt two_scenes = Ok subtitles
    /\ Forall parsed_shape subtitles
    /\ List.length subtitles <= List.length (blocks_of two_scenes).
Proof.
  eexists. split; [vm_compute; reflexivity |].
  exact (parsed_subtitles_shape two_scenes _ eq_refl).
Defined.

(** *** Which blocks raise *)

Lemma getitem_nat {A : Type} (l : list A) (k : nat) :
  k < List.length l ->
  exists a, nth_error l k = Some a /\ getitem l (Z.of_nat k) = Ok a.
Proof.
  intros Hk. destruct (nth_error l k) as [a |] eqn:Hnth.
  - exists a. split; [reflexivity | apply getitem_nth, Hnth].
  - apply nth_error_None in Hnth. lia.
Qed.

Lemma parse_block_returns block :
  (exists r, parse_block block = Ok r) <-> (passes_guards block -> numbered block).
Proof.
  unfold parse_block, passes_guards, numbered. fold (block_lines block).
  destruct (List.length (block_lines block) <? 3) eqn:Hlen.
  - apply Nat.ltb_lt in Hlen. split.
    + intros _ [H3 _]. lia.
    + intros _. eexists. reflexivity.
  - apply Nat.ltb_ge in Hlen.
    destruct (getitem_nat (block_lines block) 1 ltac:(lia)) as (l1 & Hn1 & Hg1).
    destruct (getitem_nat (block_lines block) 0 ltac:(lia)) as (l0 & Hn0 & Hg0).
    cbn [Z.of_nat Pos.of_succ_nat] in Hg0, Hg1. rewrite Hg1. cbn [bind].
    destruct (findall_timestamps l1) as [| t1 [| t2 [| t3 ts]]] eqn:Hts.
    1, 2, 4: split;
      [ intros _ (_ & line & Hline & H2); rewrite Hn1 in Hline;
        injection Hline as <-; rewrite Hts in H2; discriminate H2
      | intros _; eexists; reflexivity ].
    rewrite Hg0. cbn [bind].
    destruct (py_int l0) as [n | e] eqn:Hint; cbn [bind].
    + split; [| intros _; eexists; reflexivity].
      intros _ _. exists l0, n. split; assumption.
    + split; [intros [r H]; discriminate H |].
      intros H. destruct H as (line & n & Hline & Hn).
      * split; [exact Hlen |]. exists l1.
        split; [exact Hn1 | rewrite Hts; reflexivity].
      * rewrite Hn0 in Hline. injection Hline as <-.
        rewrite Hint in Hn. discriminate Hn.
Qed.

Lemma parse_blocks_returns blocks :
  forall acc,
    (exists subtitles, parse_blocks blocks acc = Ok subtitles)
    <-> (forall b, In b blocks -> exists r, parse_block b = Ok r).
Proof.
  induction blocks as [| b rest IH]; intros acc.
  - split; [intros _ b [] | intros _; eexists; reflexivity].
  - cbn [parse_blocks]. split.
    + intros [subtitles H] b' [<- | Hin].
      * destruct (parse_block b) as [r | e]; [| discriminate H].
        exists r. reflexivity.
      * destruct (parse_block b) as [[u |] | e]; [| | discriminate H];
          cbn [bind] in H;
          exact (proj1 (IH _) (ex_intro _ subtitles H) b' Hin).
    + intros H. destruct (H b (or_introl eq_refl)) as [r ->]. cbn [bind].
      destruct r as [u |]; apply IH; intros b' Hin; apply H; right; exact Hin.
Qed.

Lemma parse_blocks_raises blocks :
  forall acc e, parse_blocks blocks acc = Raise e -> e = ValueError_int.
Proof.
  induction blocks as [| b rest IH]; intros acc e H; [discriminate H |].
  cbn [parse_blocks] in H.
  destruct (parse_block b) as [[u |] | e'] eqn:Hb; cbn [bind] in H.
  - exact (IH _ _ H).
  - exact (IH _ _ H).
  - injection H as <-. exact (parse_block_raises _ _ Hb).
Qed.

(** X7: the reading of the file aside, [parse_srt] returns subtitles
    exactly when every block that passes the two guards begins with a line
    that [int] accepts; from the content on, the only exception it raises
    is the [ValueError] of [int]. *)
Theorem parse_srt_returns (content : string) :
  ((exists subtitles, parse_srt content = Ok subtitles)
   <-> (forall b, In b (blocks_of content) -> passes_guards b -> numbered b))
  /\ (forall e, parse_srt content = Raise e -> e = ValueError_int).
Proof.
  unfold parse_srt. fold (blocks_of content). split.
  - rewrite parse_blocks_returns. split.
    + intros H b Hin. apply parse_block_returns, H, Hin.
    + intros H b Hin. apply parse_block_returns, H, Hin.
  - apply parse_blocks_raises.
Qed.

Lemma parse_srt_returns_witness :
  (forall b, In b (blocks_of two_scenes) -> passes_guards b -> numbered b)
  /\ exists subtitles, parse_srt two_scenes = Ok subtitles.
Proof.
  assert (H : forall b,
             In b (blocks_of two_scenes) -> passes_guards b -> numbered b).
  { intros b Hin Hg. vm_compute in Hin.
    destruct Hin as [<- | [<- | [<- | [<- | []]]]].
    - exists "1", 1%Z. split; vm_compute; reflexivity.
    - exists "2", 2%Z. split; vm_compute; reflexivity.
    - destruct Hg as [Hlen _]. vm_compute in Hlen. lia.
    - destruct Hg as (_ & line & Hline & Htwo).
      vm_compute in Hline. injection Hline as <-.
      vm_compute in Htwo. discriminate Htwo. }
  split; [exact H |].
  exact (proj2 (proj1 (parse_srt_returns two_scenes)) H).
Defined.

(** *** Blocks that are skipped *)

Lemma turned_away_skipped block : turned_away block -> parse_block block = Ok None.
Proof.
  intros [H | (line & Hline & Htwo)].
  - apply short_block_skipped, H.
  - exact (mistimed_block_skipped block line Hline Htwo).
Qed.

Lemma parse_blocks_skip before :
  forall b after acc,
    parse_block b = Ok None ->
    parse_blocks (before ++ b :: after) acc = parse_blocks (before ++ after) acc.
Proof.
  induction before as [| b0 rest IH]; intros b after acc Hb.
  - cbn [app parse_blocks]. rewrite Hb. reflexivity.
  - cbn [app parse_blocks].
    destruct (parse_block b0) as [[u |] | e]; cbn [bind];
      [apply IH, Hb | apply IH, Hb | reflexivity].
Qed.

(** X8: a block with fewer than three lines, or without exactly two
    timestamps on its second line, leaves no trace: two files whose blocks
    differ only by such a block give the same result. *)
Theorem skipped_block_leaves_no_trace (content content' : string)
        (before after : list string) (b : string) :
  blocks_of content = before ++ b :: after ->
  blocks_of content' = before ++ after ->
  turned_away b ->
  parse_srt content = parse_srt content'.
Proof.
  intros H H' Hb. unfold parse_srt. fold (blocks_of content) (blocks_of content').
  rewrite H, H'. apply parse_blocks_skip, turned_away_skipped, Hb.
Qed.

Lemma skipped_block_leaves_no_trace_witness :
  parse_srt two_scenes = parse_srt two_scenes_shorter.
Proof.
  refine (skipped_block_leaves_no_trace two_scenes two_scenes_shorter
            (firstn 2 (blocks_of two_scenes)) (skipn 3 (blocks_of two_scenes))
            ("3" ++ nl ++ "00:00:19,000 --> 00:00:20,000") _ _ _).
  - vm_compute. reflexivity.
  - vm_compute. reflexivity.
  - left. vm_compute. lia.
Defined.

End SrtMore.

(** ** Writing and reading back a subtitle file *)

Module SrtRoundTrip.
Import PyStr PyList SrtParser SegmenterSpec SrtProofs SrtMoreSpec SrtMore.

(** *** Strings that [strip] leaves alone *)

Lemma append_empty s : s ++ "" = s.
Proof. induction s as [| c r IH]; [reflexivity |]. cbn. rewrite IH. reflexivity. Qed.

Lemma append_assoc3 a b c : (a ++ b) ++ c = a ++ b ++ c.
Proof. induction a as [| x r IH]; [reflexivity |]. cbn. rewrite IH. reflexivity. Qed.

Lemma last_char_append a b : b <> "" -> last_char (a ++ b) = last_char b.
Proof.
  intros Hb. induction a as [| c r IH]; [reflexivity |].
  cbn [append last_char]. destruct (r ++ b) eqn:Hrb.
  - destruct r; [cbn in Hrb; congruence | discriminate Hrb].
  - exact IH.
Qed.

Lemma tail_solid_nonempty s : tail_solid s = true -> s <> "".
Proof. intros H ->. discriminate H. Qed.

Lemma tail_solid_append a b : tail_solid b = true -> tail_solid (a ++ b) = true.
Proof.
  intros Hb. unfold tail_solid.
  rewrite last_char_append by (apply tail_solid_nonempty, Hb). exact Hb.
Qed.

Lemma head_solid_append a b : head_solid a = true -> head_solid (a ++ b) = true.
Proof. destruct a; [discriminate | intros H; exact H]. Qed.

Lemma rstrip_solid s : tail_solid s = true -> rstrip s = s.
Proof.
  unfold tail_solid. induction s as [| c r IH]; [discriminate |].
  cbn [last_char rstrip]. destruct r as [| d r'].
  - cbn. destruct (is_space c); [discriminate | reflexivity].
  - intros H. rewrite (IH H). reflexivity.
Qed.

Lemma strip_solid s :
  head_solid s = true -> tail_solid s = true -> strip s = s.
Proof.
  intros Hh Ht. unfold strip.
  destruct s as [| c r]; [discriminate Hh |].
  cbn [lstrip]. cbn in Hh. apply negb_true_iff in Hh. rewrite Hh.
  apply rstrip_solid, Ht.
Qed.

(** *** Splitting what was joined *)

Lemma split_line_last c a :
  forall cur, no_char c a = true ->
              split_aux (String c "") 0 cur a = [cur ++ a].
Proof.
  induction a as [| d r IH]; intros cur H.
  - cbn. rewrite append_empty. reflexivity.
  - cbn [no_char] in H. apply andb_prop in H. destruct H as [Hd Hr].
    apply negb_true_iff in Hd.
    cbn [split_aux]. rewrite prefix_one, Hd, (IH _ Hr), append_assoc3.
    reflexivity.
Qed.

Lemma split_line_cons c a b :
  forall cur, no_char c a = true ->
              split_aux (String c "") 0 cur (a ++ String c b)
              = (cur ++ a) :: split_aux (String c "") 0 "" b.
Proof.
  induction a as [| d r IH]; intros cur H.
  - cbn [append split_aux]. rewrite prefix_one, Ascii.eqb_refl, append_empty.
    reflexivity.
  - cbn [no_char] in H. apply andb_prop in H. destruct H as [Hd Hr].
    apply negb_true_iff in Hd.
    cbn [append split_aux]. rewrite prefix_one, Hd, (IH _ Hr), append_assoc3.
    reflexivity.
Qed.

Lemma prefix_blank c s :
  prefix (nl ++ nl) (String c s)
  = Ascii.eqb c "010"
    && match s with "" => false | String d _ => Ascii.eqb d "010" end.
Proof.
  cbn [nl append prefix]. destruct (ascii_dec "010" c) as [<- | Hne].
  - cbn [Ascii.eqb Bool.eqb andb]. destruct s as [| d s']; [reflexivity |].
    apply (prefix_one "010" d s').
  - assert (H : Ascii.eqb c "010" = false) by (apply Ascii.eqb_neq; congruence).
    rewrite H. reflexivity.
Qed.

Lemma split_block_last b :
  forall cur, unbroken b = true ->
              split_aux (nl ++ nl) 0 cur b = [cur ++ b].
Proof.
  induction b as [| c r IH]; intros cur H.
  - cbn. rewrite append_empty. reflexivity.
  - cbn [unbroken] in H. apply andb_prop in H. destruct H as [Hc Hr].
    cbn [split_aux]. rewrite prefix_blank.
    assert (Hpre : Ascii.eqb c "010"
                   && match r with "" => false | String d _ => Ascii.eqb d "010" end
                   = false).
    { destruct (Ascii.eqb c "010"); [| reflexivity].
      destruct r as [| d r']; [discriminate Hc |].
      apply negb_true_iff in Hc. exact Hc. }
    rewrite Hpre, (IH _ Hr), append_assoc3. reflexivity.
Qed.

Lemma split_block_cons b rest :
  forall cur, unbroken b = true ->
              split_aux (nl ++ nl) 0 cur (b ++ (nl ++ nl) ++ rest)
              = (cur ++ b) :: split_aux (nl ++ nl) 0 "" rest.
Proof.
  induction b as [| c r IH]; intros cur H.
  - change ("" ++ (nl ++ nl) ++ rest) with (String "010" (String "010" rest)).
    cbn [split_aux]. rewrite prefix_blank. cbn [Ascii.eqb Bool.eqb andb].
    rewrite append_empty. reflexivity.
  - cbn [unbroken] in H. apply andb_prop in H. destruct H as [Hc Hr].
    cbn [append split_aux]. rewrite prefix_blank.
    assert (Hpre : Ascii.eqb c "010"
                   && match r ++ (nl ++ nl) ++ rest with
                      | "" => false
                      | String d _ => Ascii.eqb d "010"
                      end
                   = false).
    { destruct (Ascii.eqb c "010"); [| reflexivity].
      destruct r as [| d r']; [discriminate Hc |].
      apply negb_true_iff in Hc. exact Hc. }
    rewrite Hpre, (IH _ Hr), append_assoc3. reflexivity.
Qed.

(** *** Timestamps on the second line *)

Lemma digit_not_nl a : is_digit a = true -> Ascii.eqb a "010" = false.
Proof.
  intros H. destruct (Ascii.eqb_spec a "010") as [-> | _];
    [discriminate H | reflexivity].
Qed.

Ltac stamp_chars t H :=
  unfold is_stamp, stamp_fields in H;
  destruct t as [| ?a [| ?b [| ?c [| ?d [| ?e [| ?f [| ?g [| ?h [| ?i
    [| ?j [| ?k [| ?l [| ? ?]]]]]]]]]]]]]; try discriminate H;
  match type of H with
  | context [if (?x && Ascii.eqb ?y ",")%bool then _ else _] =>
      destruct (x && Ascii.eqb y ",")%bool eqn:Hcond
  end; [clear H | discriminate H];
  repeat match goal with
         | H0 : (_ && _)%bool = true |- _ =>
             apply andb_prop in H0; destruct H0
         end;
  repeat match goal with
         | H0 : Ascii.eqb _ _ = true |- _ => apply Ascii.eqb_eq in H0; subst
         end.

Lemma stamp_one_line t : is_stamp t = true -> no_char "010" t = true.
Proof.
  intros H. stamp_chars t H. cbn [no_char].
  repeat match goal with
         | H0 : is_digit _ = true |- _ =>
             rewrite (digit_not_nl _ H0); clear H0
         end.
  reflexivity.
Qed.

Lemma stamp_head t :
  is_stamp t = true -> exists c r, t = String c r /\ Ascii.eqb c "010" = false.
Proof.
  intros H. stamp_chars t H. do 2 eexists. split; [reflexivity |].
  apply digit_not_nl. assumption.
Qed.

Lemma findall_stamp_here t rest :
  is_stamp t = true -> findall_aux 0 (t ++ rest) = t :: findall_aux 0 rest.
Proof.
  intros H. stamp_chars t H.
  cbn [append findall_aux]. unfold timestamp_at.
  repeat match goal with
         | H0 : is_digit _ = true |- _ => rewrite H0; clear H0
         end.
  reflexivity.
Qed.

Lemma timestamp_at_nondigit c s :
  is_digit c = false -> timestamp_at (String c s) = None.
Proof.
  intros H. unfold timestamp_at.
  destruct s as [| ?b [| ?c [| ?d [| ?e [| ?f [| ?g [| ?h [| ?i
    [| ?j [| ?k [| ?l ?]]]]]]]]]]]; try reflexivity.
  rewrite H. reflexivity.
Qed.

Lemma findall_second_line s e :
  is_stamp s = true -> is_stamp e = true ->
  findall_timestamps (s ++ " --> " ++ e) = [s; e].
Proof.
  intros Hs He. unfold findall_timestamps.
  rewrite (findall_stamp_here s _ Hs).
  cbn [append findall_aux].
  rewrite !timestamp_at_nondigit by reflexivity.
  rewrite <- (append_empty e) at 1.
  rewrite (findall_stamp_here e "" He). reflexivity.
Qed.

(** *** One written block *)

Lemma unbroken_line a : no_char "010" a = true -> unbroken a = true.
Proof.
  induction a as [| c r IH]; [reflexivity |].
  cbn [no_char unbroken]. intros H. apply andb_prop in H. destruct H as [Hc Hr].
  apply negb_true_iff in Hc. rewrite Hc, (IH Hr). reflexivity.
Qed.

Lemma unbroken_lines a c r :
  no_char "010" a = true ->
  Ascii.eqb c "010" = false ->
  unbroken (String c r) = true ->
  unbroken (a ++ nl ++ String c r) = true.
Proof.
  intros Ha Hc Hb. induction a as [| d a' IH].
  - change ("" ++ nl ++ String c r) with (String "010" (String c r)).
    cbn [unbroken] in *. cbn [Ascii.eqb Bool.eqb]. rewrite Hc in *.
    exact Hb.
  - cbn [no_char] in Ha. apply andb_prop in Ha. destruct Ha as [Hd Ha].
    apply negb_true_iff in Hd.
    cbn [append unbroken]. rewrite Hd. cbn [andb]. exact (IH Ha).
Qed.

Lemma solid_text_head s :
  tail_solid s = true -> no_char "010" s = true ->
  exists c r, s = String c r /\ Ascii.eqb c "010" = false.
Proof.
  intros Ht Hn. destruct s as [| c r]; [discriminate Ht |].
  exists c, r. split; [reflexivity |].
  cbn [no_char] in Hn. apply andb_prop in Hn. destruct Hn as [Hc _].
  apply negb_true_iff in Hc. exact Hc.
Qed.

Lemma second_line_one_line s e :
  is_stamp s = true -> is_stamp e = true ->
  no_char "010" (s ++ " --> " ++ e) = true.
Proof.
  intros Hs He. rewrite !no_char_app, (stamp_one_line s Hs), (stamp_one_line e He).
  reflexivity.
Qed.

Lemma written_block_unbroken entry :
  writable entry -> unbroken (srt_block entry) = true.
Proof.
  intros (_ & Hn & _ & Hs & He & Ht & Hsolid). unfold srt_block.
  destruct (stamp_head _ Hs) as (c & r & Hsr & Hc).
  destruct (solid_text_head _ Hsolid Ht) as (d & q & Htq & Hd).
  rewrite Htq.
  assert (Hline : unbroken ((start (snd entry) ++ " --> " ++ end_ (snd entry))
                            ++ nl ++ String d q) = true).
  { apply unbroken_lines; [apply second_line_one_line; assumption | exact Hd |].
    apply unbroken_line. rewrite <- Htq. exact Ht. }
  rewrite !append_assoc3 in Hline. rewrite Hsr in *. cbn [append] in Hline.
  cbn [append]. apply unbroken_lines; [exact Hn | exact Hc | exact Hline].
Qed.

Lemma written_block_solid entry :
  writable entry ->
  head_solid (srt_block entry) = true /\ tail_solid (srt_block entry) = true.
Proof.
  intros (_ & _ & Hh & _ & _ & _ & Ht). unfold srt_block. split.
  - apply head_solid_append, Hh.
  - rewrite <- !append_assoc3. apply tail_solid_append, Ht.
Qed.

Lemma written_block_lines entry :
  writable entry ->
  split (srt_block entry) nl
  = [fst entry; start (snd entry) ++ " --> " ++ end_ (snd entry);
     text (snd entry)].
Proof.
  intros (_ & Hn & _ & Hs & He & Ht & _). unfold srt_block, split, nl.
  change (fst entry ++ String "010" ""
          ++ start (snd entry) ++ " --> " ++ end_ (snd entry)
          ++ String "010" "" ++ text (snd entry))
    with (fst entry ++ String "010"
            (start (snd entry) ++ " --> " ++ end_ (snd entry)
             ++ String "010" "" ++ text (snd entry))).
  rewrite (split_line_cons "010" _ _ "" Hn).
  replace (start (snd entry) ++ " --> " ++ end_ (snd entry)
           ++ String "010" "" ++ text (snd entry))
    with ((start (snd entry) ++ " --> " ++ end_ (snd entry))
          ++ String "010" (text (snd entry)))
    by (rewrite !append_assoc3; reflexivity).
  rewrite (split_line_cons "010" _ _ "" (second_line_one_line _ _ Hs He)).
  rewrite (split_line_last "010" _ "" Ht). reflexivity.
Qed.

Lemma written_block_parsed entry :
  writable entry -> parse_block (srt_block entry) = Ok (Some (snd entry)).
Proof.
  intros Hw. pose proof Hw as (Hint & _ & _ & Hs & He & _ & _).
  destruct (written_block_solid entry Hw) as [Hh Ht].
  unfold parse_block.
  rewrite (strip_solid _ Hh Ht), (written_block_lines entry Hw).
  cbn [List.length Nat.ltb Nat.leb].
  change (getitem [fst entry;
                   start (snd entry) ++ " --> " ++ end_ (snd entry);
                   text (snd entry)] 1)
    with (Ok (A := string)
             (start (snd entry) ++ " --> " ++ end_ (snd entry))).
  cbn [bind]. rewrite (findall_second_line _ _ Hs He).
  change (getitem [fst entry;
                   start (snd entry) ++ " --> " ++ end_ (snd entry);
                   text (snd entry)] 0)
    with (Ok (A := string) (fst entry)).
  cbn [bind]. rewrite Hint. cbn [bind skipn join].
  destruct entry as [number [i s e t]]. reflexivity.
Qed.

(** *** The written file *)

Lemma split_joined_blocks blocks :
  blocks <> [] ->
  Forall (fun b => unbroken b = true) blocks ->
  split (join (nl ++ nl) blocks) (nl ++ nl) = blocks.
Proof.
  intros Hne Hall. unfold split.
  induction Hall as [| b rest Hb Hrest IH]; [congruence |].
  destruct rest as [| b' rest'].
  - cbn [join]. apply (split_block_last b "" Hb).
  - change (join (nl ++ nl) (b :: b' :: rest'))
      with (b ++ (nl ++ nl) ++ join (nl ++ nl) (b' :: rest')).
    rewrite (split_block_cons b _ "" Hb), IH by discriminate.
    reflexivity.
Qed.

Lemma joined_blocks_solid blocks :
  blocks <> [] ->
  Forall (fun b => head_solid b = true /\ tail_solid b = true) blocks ->
  head_solid (join (nl ++ nl) blocks) = true
  /\ tail_solid (join (nl ++ nl) blocks) = true.
Proof.
  intros Hne Hall.
  induction Hall as [| b rest [Hh Ht] Hrest IH]; [congruence |].
  destruct rest as [| b' rest'].
  - split; assumption.
  - change (join (nl ++ nl) (b :: b' :: rest'))
      with (b ++ (nl ++ nl) ++ join (nl ++ nl) (b' :: rest')).
    destruct IH as [_ IHt]; [discriminate |]. split.
    + apply head_solid_append, Hh.
    + rewrite <- append_assoc3. apply tail_solid_append, IHt.
Qed.

Lemma written_blocks_parsed entries :
  Forall writable entries ->
  forall acc,
    parse_blocks (map srt_block entries) acc
    = Ok (acc ++ map snd entries)%list.
Proof.
  induction 1 as [| entry rest Hw _ IH]; intros acc.
  - cbn. rewrite app_nil_r. reflexivity.
  - cbn [map parse_blocks]. rewrite (written_block_parsed entry Hw).
    cbn [bind]. rewrite IH, <- app_assoc. reflexivity.
Qed.

(** X9: a content written block by block - a first line that [int] reads
    as the index, the two timestamps around an arrow, one line of text, an
    empty line between blocks - is parsed to the subtitles it was written
    from, in order.  The content is what [file.read()] returns, with the
    line ends of the file already translated. *)
Theorem written_file_read_back (entries : list (string * subtitle)) :
  Forall writable entries ->
  parse_srt (srt_file entries) = Ok (map snd entries).
Proof.
  intros Hall. destruct entries as [| entry rest]; [reflexivity |].
  unfold parse_srt, srt_file.
  assert (Hsolid : Forall (fun b => head_solid b = true /\ tail_solid b = true)
                          (map srt_block (entry :: rest))).
  { apply Forall_map. revert Hall. apply Forall_impl.
    intros e. apply written_block_solid. }
  assert (Hunbroken : Forall (fun b => unbroken b = true)
                             (map srt_block (entry :: rest))).
  { apply Forall_map. revert Hall. apply Forall_impl.
    intros e. apply written_block_unbroken. }
  assert (Hne : map srt_block (entry :: rest) <> []) by discriminate.
  destruct (joined_blocks_solid _ Hne Hsolid) as [Hh Ht].
  rewrite (strip_solid _ Hh Ht).
  rewrite (split_joined_blocks _ Hne Hunbroken).
  apply (written_blocks_parsed _ Hall []).
Qed.

Lemma written_file_read_back_witness :
  Forall writable numbered_opening
  /\ parse_srt (srt_file numbered_opening) = Ok Samples.opening.
Proof.
  assert (H : Forall writable numbered_opening).
  { repeat constructor. }
  split; [exact H |].
  exact (written_file_read_back numbered_opening H).
Defined.

End SrtRoundTrip.

(** ** Parsed timestamps and [strptime] *)

Module ClockMore.
Import PyStr PyList Datetime SrtParser Segmenter SegmenterSpec SegmenterProofs.
Import SrtMoreSpec SrtMore SrtRoundTrip ClockSpec.
Local Open Scope list_scope.

Lemma two_digits_bound a b :
  is_digit a = true -> is_digit b = true ->
  (two_H a b = true -> (two_digits a b <=? 23)%Z = true)
  /\ (two_M a b = true -> (two_digits a b <=? 59)%Z = true)
  /\ (two_S a b = true -> (two_digits a b <=? 61)%Z = true).
Proof.
  intros Ha Hb.
  apply is_digit_cases in Ha. apply is_digit_cases in Hb.
  repeat (destruct Ha as [Ha | Ha]); subst;
    repeat (destruct Hb as [Hb | Hb]); subst;
    vm_compute; repeat split; intros H; first [discriminate H | reflexivity].
Qed.

Lemma digit_not_sep a sep :
  is_digit a = true -> is_digit sep = false -> Ascii.eqb a sep = false.
Proof.
  intros Ha Hs. destruct (Ascii.eqb_spec a sep) as [-> | _];
    [congruence | reflexivity].
Qed.

Lemma re_field_two_only two_ok sep a b r v rest :
  is_digit a = true -> is_digit b = true -> is_digit sep = false ->
  re_field two_ok sep (String a (String b (String sep r))) = Some (v, rest) ->
  two_ok a b = true /\ v = two_digits a b /\ rest = r.
Proof.
  intros Ha Hb Hs. unfold re_field.
  rewrite Ha, Hb, Ascii.eqb_refl, (digit_not_sep b sep Hb Hs).
  destruct (two_ok a b); cbn [andb]; [| discriminate].
  intros H. injection H as <- <-. repeat split.
Qed.

(** Among strings of the form of a timestamp, [strptime] accepts the
    clock timestamps and no others. *)
Lemma stamp_accepted s :
  is_stamp s = true -> (accepted s <-> is_clock s = true).
Proof.
  intros Hs. split.
  - intros [d Hd]. revert Hd. unfold is_clock.
    pose proof Hs as Hs'. stamp_chars s Hs'.
    unfold stamp_fields.
    repeat match goal with
           | H0 : is_digit _ = true |- context [is_digit _] => rewrite H0
           end.
    cbn [Ascii.eqb Bool.eqb andb].
    unfold strptime.
    destruct (re_field two_H ":" _) as [[vh r1] |] eqn:Hfield1; [| discriminate].
    apply re_field_two_only in Hfield1; try assumption; try reflexivity.
    destruct Hfield1 as (HH & -> & ->).
    destruct (re_field two_M ":" _) as [[vm r2] |] eqn:Hfield2; [| discriminate].
    apply re_field_two_only in Hfield2; try assumption; try reflexivity.
    destruct Hfield2 as (HM & -> & ->).
    destruct (re_field two_S "," _) as [[vs r3] |] eqn:Hfield3; [| discriminate].
    apply re_field_two_only in Hfield3; try assumption; try reflexivity.
    destruct Hfield3 as (HS & -> & ->).
    destruct (re_fraction _); [| discriminate].
    destruct (two_digits g h <=? 59)%Z eqn:Hsec; [| discriminate].
    intros _.
    match goal with
    | Ha : is_digit ?a = true, Hb : is_digit ?b = true,
      H : two_H ?a ?b = true |- _ =>
        rewrite (proj1 (two_digits_bound a b Ha Hb) H)
    end.
    match goal with
    | Ha : is_digit ?a = true, Hb : is_digit ?b = true,
      H : two_M ?a ?b = true |- _ =>
        rewrite (proj1 (proj2 (two_digits_bound a b Ha Hb)) H)
    end.
    reflexivity.
  - intros Hc. destruct (strptime_clock s Hc) as (d & Hd & _).
    exists d. exact Hd.
Qed.

Lemma parsed_consulted subtitles :
  Forall parsed_shape subtitles ->
  (consulted_ok subtitles <-> clock_consulted subtitles).
Proof.
  intros Hall. rewrite Forall_forall in Hall.
  unfold consulted_ok, clock_consulted.
  split; intros H i u v Hu Hv; destruct (H i u v Hu Hv) as [He Hs];
    destruct (Hall u (nth_error_In _ _ Hu)) as (_ & Hue & _);
    destruct (Hall v (nth_error_In _ _ Hv)) as (Hvs & _ & _);
    split;
    first [ exact (proj1 (stamp_accepted _ Hue) He)
          | exact (proj1 (stamp_accepted _ Hvs) Hs)
          | exact (proj2 (stamp_accepted _ Hue) He)
          | exact (proj2 (stamp_accepted _ Hvs) Hs) ].
Qed.

(** X23: for the subtitles [parse_srt] returns from a content of
    code points below 256, where the digits 0 to 9 are the only decimal
    digits, the segmenter returns scenes exactly when the timestamps it
    reads - the end of every subtitle but the last, the start of every
    subtitle but the first - have an hour of at most 23 and a minute and a
    second of at most 59; otherwise it raises. *)
Theorem parsed_file_grouped (content : string) (subtitles : list subtitle)
        (thr : Q) :
  parse_srt content = Ok subtitles ->
  ((exists scenes, group_into_scenes subtitles thr = Ok scenes)
   <-> clock_consulted subtitles).
Proof.
  intros Hparse.
  unfold parse_srt in Hparse.
  destruct (parse_blocks_shape _ _ _ Hparse (Forall_nil _)) as [Hshape _].
  rewrite <- (parsed_consulted subtitles Hshape).
  destruct subtitles as [| p rest].
  - split; [| intros _; exists []; reflexivity].
    intros _ [| i] u v Hu Hv; discriminate Hu.
  - rewrite <- (scenes_from_ok thr rest p), group_into_scenes_cons. split.
    + intros [scenes H].
      destruct (scenes_from thr p rest) as [fm | e]; [| discriminate H].
      exists fm. reflexivity.
    + intros [fm ->]. eexists. reflexivity.
Qed.

Lemma parsed_file_grouped_witness :
  parse_srt Samples.past_midnight_srt = Ok Samples.past_midnight
  /\ ((exists scenes,
          group_into_scenes Samples.past_midnight (4 # 1) = Ok scenes)
      <-> clock_consulted Samples.past_midnight).
Proof.
  assert (H : parse_srt Samples.past_midnight_srt = Ok Samples.past_midnight)
    by (vm_compute; reflexivity).
  split; [exact H |].
  exact (parsed_file_grouped Samples.past_midnight_srt Samples.past_midnight
           (4 # 1) H).
Defined.

End ClockMore.

(** ** More on decoding the reply *)

Module ResponseMore.
Import PyStr ResponseParser ResponseSpec ResponseProofs.
Import SrtMoreSpec SrtMore ResponseMoreSpec.
Local Open Scope list_scope.

(** *** Lines without a label *)

Lemma fold_labelled lines :
  forall a,
    fold_left parse_line (filter (fun line => labelled (strip line)) lines) a
    = fold_left parse_line lines a.
Proof.
  induction lines as [| l r IH]; intros a; [reflexivity |].
  cbn [filter fold_left]. destruct (labelled (strip l)) eqn:Hl.
  - cbn [fold_left]. apply IH.
  - rewrite (parse_line_unlabelled a l Hl). apply IH.
Qed.

(** X10: lines without one of the four labels count for nothing: two
    replies with the same labelled lines are decoded to the same record. *)
Theorem unlabelled_lines_ignored (s s' : string) :
  labelled_lines s = labelled_lines s' ->
  parse_llm_response (PyStr s) = parse_llm_response (PyStr s').
Proof.
  intros H. unfold parse_llm_response, parse_body.
  fold (reply_lines s) (reply_lines s').
  rewrite <- (fold_labelled (reply_lines s)), <- (fold_labelled (reply_lines s')).
  unfold labelled_lines in H. rewrite H. reflexivity.
Qed.

Lemma unlabelled_lines_ignored_witness :
  parse_llm_response (PyStr padded_reply)
  = parse_llm_response (PyStr sample_reply).
Proof.
  exact (unlabelled_lines_ignored padded_reply sample_reply
           ltac:(vm_compute; reflexivity)).
Defined.

(** *** The order of the labels *)

Lemma parse_line_commute a l1 l2 :
  label_of (strip l1) <> label_of (strip l2) ->
  parse_line (parse_line a l1) l2 = parse_line (parse_line a l2) l1.
Proof.
  unfold label_of, parse_line.
  destruct (startswith (strip l1) "Summary:");
    destruct (startswith (strip l2) "Summary:");
    try (intros H; congruence);
    destruct (startswith (strip l1) "Characters:");
    destruct (startswith (strip l2) "Characters:");
    try (intros H; congruence);
    destruct (startswith (strip l1) "Mood:");
    destruct (startswith (strip l2) "Mood:");
    try (intros H; congruence);
    destruct (startswith (strip l1) "Cultural References:");
    destruct (startswith (strip l2) "Cultural References:");
    try (intros H; congruence);
    intros _;
    repeat match goal with
           | |- context [if ?c then _ else _] => destruct c
           end;
    reflexivity.
Qed.

(** X11: the labels may come in any order: exchanging two neighbouring
    lines that do not take the same branch changes nothing. *)
Theorem label_order_free (s s' : string) (before after : list string)
        (l1 l2 : string) :
  reply_lines s = before ++ l1 :: l2 :: after ->
  reply_lines s' = before ++ l2 :: l1 :: after ->
  label_of (strip l1) <> label_of (strip l2) ->
  parse_llm_response (PyStr s) = parse_llm_response (PyStr s').
Proof.
  intros H H' Hne. unfold parse_llm_response, parse_body.
  fold (reply_lines s) (reply_lines s').
  rewrite H, H', !fold_left_app. cbn [fold_left].
  rewrite (parse_line_commute _ l1 l2 Hne). reflexivity.
Qed.

Lemma label_order_free_witness :
  parse_llm_response (PyStr sample_reply)
  = parse_llm_response (PyStr shuffled_reply).
Proof.
  refine (label_order_free sample_reply shuffled_reply
            ["Summary: A man walks."] ["Cultural References: []"]
            "Characters: [Jeff, Paula]" "Mood: tense" _ _ _).
  - vm_compute. reflexivity.
  - vm_compute. reflexivity.
  - vm_compute. discriminate.
Defined.

(** *** Characters that never reach the record *)

















End ResponseMore.

(** ** Writing a reply and decoding it *)

Module ResponseRoundTrip.
Import PyStr ResponseParser ResponseSpec ResponseProofs.
Import SrtMoreSpec SrtMore SrtRoundTrip ResponseMoreSpec.

(** *** [replace] *)

Lemma replace_absent old new s :
  occurs old s = false -> replace_aux old new 0 s = s.
Proof.
  induction s as [| c r IH]; [reflexivity |].
  cbn [occurs replace_aux]. intros H. apply orb_false_elim in H.
  destruct H as [Hp Hr]. rewrite Hp, (IH Hr). reflexivity.
Qed.

Lemma replace_skip old new p rest :
  replace_aux old new (String.length p) (p ++ rest) = replace_aux old new 0 rest.
Proof. induction p as [| c r IH]; [reflexivity |]. exact IH. Qed.

Lemma prefix_append p rest : prefix p (p ++ rest) = true.
Proof.
  induction p as [| c r IH]; [destruct rest; reflexivity |].
  cbn [append prefix]. destruct (ascii_dec c c); [exact IH | congruence].
Qed.

Lemma replace_label c p rest :
  occurs (String c p) rest = false ->
  replace (String c p ++ rest) (String c p) "" = rest.
Proof.
  intros H. unfold replace.
  change (String c p ++ rest) with (String c (p ++ rest)).
  cbn [replace_aux].
  change (String c (p ++ rest)) with (String c p ++ rest).
  rewrite prefix_append. cbn [String.length Nat.sub append].
  rewrite Nat.sub_0_r, replace_skip. apply replace_absent, H.
Qed.

Lemma occurs_after_space c p s :
  Ascii.eqb c " " = false ->
  occurs (String c p) s = false ->
  occurs (String c p) (String " " s) = false.
Proof.
  intros Hc H. cbn [occurs prefix]. rewrite H.
  destruct (ascii_dec c " ") as [-> | _]; [discriminate Hc | reflexivity].
Qed.

(** *** [strip] *)

Lemma strip_space_solid s :
  head_solid s = true -> tail_solid s = true -> strip (String " " s) = s.
Proof. intros Hh Ht. exact (strip_solid s Hh Ht). Qed.

Lemma labelled_line_solid lbl s :
  head_solid lbl = true -> tail_solid s = true ->
  strip (lbl ++ String " " s) = lbl ++ String " " s.
Proof.
  intros Hl Hs. apply strip_solid.
  - apply head_solid_append, Hl.
  - apply tail_solid_append.
    change (String " " s) with (" " ++ s). apply tail_solid_append, Hs.
Qed.

(** The payload of a line [lbl ++ " " ++ s]. *)
Lemma payload c p s :
  head_solid (String c p) = true ->
  Ascii.eqb c " " = false ->
  head_solid s = true -> tail_solid s = true ->
  occurs (String c p) s = false ->
  strip (String c p ++ String " " s) = String c p ++ String " " s
  /\ strip (replace (String c p ++ String " " s) (String c p) "") = s.
Proof.
  intros Hl Hc Hh Ht Ho. split.
  - apply labelled_line_solid; assumption.
  - rewrite (replace_label c p (String " " s) (occurs_after_space c p s Hc Ho)).
    apply strip_space_solid; assumption.
Qed.

(** *** Bracketed lists *)

Lemma drop_last_snoc s c : drop_last (s ++ String c "") = s.
Proof.
  induction s as [| d r IH]; [reflexivity |].
  cbn [append drop_last]. destruct (r ++ String c "") eqn:Hr.
  - destruct r; discriminate Hr.
  - rewrite IH. reflexivity.
Qed.

Lemma append_nonempty s c t : s ++ String c t <> "".
Proof. destruct s; discriminate. Qed.

Lemma unbracket_bracketed l : unbracket (bracketed l) = join ", " l.
Proof.
  unfold unbracket, bracketed, startswith, endswith_char.
  change ("[" ++ join ", " l ++ "]") with (String "[" (join ", " l ++ "]")).
  rewrite prefix_one.
  change (String "[" (join ", " l ++ "]")) with ("[" ++ join ", " l ++ "]").
  rewrite (last_char_append "[" _ (append_nonempty _ _ _)).
  rewrite (last_char_append (join ", " l) "]") by discriminate.
  cbn [last_char Ascii.eqb Bool.eqb andb append slice_1_m1].
  apply drop_last_snoc.
Qed.

Lemma bracketed_solid l :
  head_solid (bracketed l) = true /\ tail_solid (bracketed l) = true.
Proof.
  split; [reflexivity |]. unfold bracketed.
  apply tail_solid_append, tail_solid_append. reflexivity.
Qed.

Lemma head_solid_nonempty s : head_solid s = true -> nonempty s = true.
Proof. destruct s; [discriminate | reflexivity]. Qed.

Lemma split_joined_items r :
  forall x pre,
    no_char "," pre = true ->
    no_char "," x = true ->
    Forall plain_item r ->
    split_aux "," 0 "" (pre ++ join ", " (x :: r))
    = (pre ++ x) :: map (String " ") r.
Proof.
  induction r as [| y r' IH]; intros x pre Hpre Hx Hr.
  - cbn [join map]. apply (split_line_last "," (pre ++ x) "").
    rewrite no_char_app, Hpre, Hx. reflexivity.
  - inversion Hr as [| ? ? Hy Hr']; subst.
    change (join ", " (x :: y :: r')) with (x ++ ", " ++ join ", " (y :: r')).
    replace (pre ++ x ++ ", " ++ join ", " (y :: r'))
      with ((pre ++ x) ++ String "," (" " ++ join ", " (y :: r')))
      by (rewrite append_assoc3; reflexivity).
    rewrite (split_line_cons "," (pre ++ x) _ "")
      by (rewrite no_char_app, Hpre, Hx; reflexivity).
    rewrite (IH y " " eq_refl (proj2 (proj2 (proj2 Hy))) Hr').
    reflexivity.
Qed.

Lemma spaced_items r :
  Forall plain_item r ->
  map strip (filter (fun x => nonempty (strip x)) (map (String " ") r)) = r.
Proof.
  induction 1 as [| y r' (Hh & Ht & _) _ IH]; [reflexivity |].
  cbn [map filter]. rewrite (strip_space_solid y Hh Ht), (head_solid_nonempty y Hh).
  cbn [map]. rewrite (strip_space_solid y Hh Ht), IH. reflexivity.
Qed.

Lemma comma_items_joined l :
  Forall plain_item l -> l <> [] -> comma_items (join ", " l) = l.
Proof.
  intros Hl Hne. destruct l as [| x r]; [congruence |].
  inversion Hl as [| ? ? (Hh & Ht & _ & Hc) Hr]; subst.
  unfold comma_items, split.
  pose proof (split_joined_items r x "" eq_refl Hc Hr) as Hsplit.
  cbn [append] in Hsplit. rewrite Hsplit.
  cbn [filter]. rewrite (strip_solid x Hh Ht), (head_solid_nonempty x Hh).
  cbn [map]. rewrite (strip_solid x Hh Ht), (spaced_items r Hr). reflexivity.
Qed.

Lemma joined_nonempty l :
  Forall plain_item l -> l <> [] -> nonempty (join ", " l) = true.
Proof.
  intros Hl Hne. destruct l as [| x r]; [congruence |].
  inversion Hl as [| ? ? (Hh & _) _]; subst.
  destruct x as [| c x']; [discriminate Hh |].
  destruct r; reflexivity.
Qed.

(** *** The four lines *)

Lemma line_summary a s :
  plain_text "Summary:" s ->
  parse_line a ("Summary: " ++ s)
  = mk_analysis s (characters a) (mood a) (cultural_refs a).
Proof.
  intros (Hh & Ht & _ & Ho).
  change ("Summary: " ++ s) with ("Summary:" ++ String " " s).
  destruct (payload "S" "ummary:" s eq_refl eq_refl Hh Ht Ho) as [Hline Hval].
  unfold parse_line, startswith. rewrite Hline, prefix_append, Hval.
  reflexivity.
Qed.

Lemma line_mood a m :
  plain_text "Mood:" m ->
  parse_line a ("Mood: " ++ m)
  = mk_analysis (summary a) (characters a) m (cultural_refs a).
Proof.
  intros (Hh & Ht & _ & Ho).
  change ("Mood: " ++ m) with ("Mood:" ++ String " " m).
  destruct (payload "M" "ood:" m eq_refl eq_refl Hh Ht Ho) as [Hline Hval].
  unfold parse_line. rewrite Hline.
  assert (Hm : startswith ("Mood:" ++ String " " m) "Mood:" = true)
    by apply prefix_append.
  destruct (mood_not_other _ Hm) as [H1 H2].
  rewrite H1, H2, Hm, Hval. reflexivity.
Qed.

Lemma line_characters a l :
  Forall plain_item l ->
  occurs "Characters:" (bracketed l) = false ->
  parse_line a ("Characters: " ++ bracketed l)
  = match l with
    | [] => a
    | _ :: _ => mk_analysis (summary a) l (mood a) (cultural_refs a)
    end.
Proof.
  intros Hl Ho.
  change ("Characters: " ++ bracketed l)
    with ("Characters:" ++ String " " (bracketed l)).
  destruct (bracketed_solid l) as [Hh Ht].
  destruct (payload "C" "haracters:" _ eq_refl eq_refl Hh Ht Ho)
    as [Hline Hval].
  unfold parse_line. rewrite Hline.
  assert (H1 : startswith ("Characters:" ++ String " " (bracketed l))
                          "Summary:" = false) by reflexivity.
  assert (H2 : startswith ("Characters:" ++ String " " (bracketed l))
                          "Characters:" = true) by apply prefix_append.
  rewrite H1, H2, Hval, unbracket_bracketed.
  destruct l as [| x r]; [reflexivity |].
  rewrite joined_nonempty, comma_items_joined by (assumption || discriminate).
  reflexivity.
Qed.

Lemma line_references a l :
  Forall plain_item l ->
  occurs "Cultural References:" (bracketed l) = false ->
  join ", " l <> "[]" ->
  parse_line a ("Cultural References: " ++ bracketed l)
  = match l with
    | [] => a
    | _ :: _ => mk_analysis (summary a) (characters a) (mood a) l
    end.
Proof.
  intros Hl Ho Hne.
  change ("Cultural References: " ++ bracketed l)
    with ("Cultural References:" ++ String " " (bracketed l)).
  destruct (bracketed_solid l) as [Hh Ht].
  destruct (payload "C" "ultural References:" _ eq_refl eq_refl Hh Ht Ho)
    as [Hline Hval].
  unfold parse_line. rewrite Hline.
  assert (H1 : startswith ("Cultural References:" ++ String " " (bracketed l))
                          "Summary:" = false) by reflexivity.
  assert (H2 : startswith ("Cultural References:" ++ String " " (bracketed l))
                          "Characters:" = false) by reflexivity.
  assert (H3 : startswith ("Cultural References:" ++ String " " (bracketed l))
                          "Mood:" = false) by reflexivity.
  assert (H4 : startswith ("Cultural References:" ++ String " " (bracketed l))
                          "Cultural References:" = true) by apply prefix_append.
  rewrite H1, H2, H3, H4, Hval, unbracket_bracketed.
  apply String.eqb_neq in Hne. rewrite Hne.
  destruct l as [| x r]; [reflexivity |].
  rewrite joined_nonempty, comma_items_joined by (assumption || discriminate).
  reflexivity.
Qed.

(** *** The whole reply *)

Lemma bracketed_one_line l :
  Forall plain_item l -> no_char "010" (bracketed l) = true.
Proof.
  intros Hl. unfold bracketed. rewrite !no_char_app.
  rewrite (no_char_join "010" ", " l eq_refl); [reflexivity |].
  intros x Hx. rewrite Forall_forall in Hl. apply (Hl x Hx).
Qed.

Lemma formatted_lines a :
  plain a ->
  split (strip (formatted a)) nl
  = [ "Summary: " ++ summary a; "Characters: " ++ bracketed (characters a);
      "Mood: " ++ mood a; "Cultural References: " ++ bracketed (cultural_refs a) ].
Proof.
  intros ((_ & _ & Hs & _) & (_ & _ & Hm & _) & Hc & _ & Hr & _ & _).
  assert (Hsolid : strip (formatted a) = formatted a).
  { apply strip_solid; [reflexivity |]. unfold formatted.
    do 10 apply tail_solid_append. apply bracketed_solid. }
  rewrite Hsolid.
  assert (Hshape :
            formatted a
            = ("Summary: " ++ summary a)
                ++ String "010"
                (("Characters: " ++ bracketed (characters a))
                   ++ String "010"
                   (("Mood: " ++ mood a)
                      ++ String "010"
                      ("Cultural References: "
                         ++ bracketed (cultural_refs a))))).
  { unfold formatted, nl. rewrite !append_assoc3. reflexivity. }
  rewrite Hshape. unfold split, nl.
  rewrite (split_line_cons "010" _ _ "")
    by (rewrite no_char_app, Hs; reflexivity).
  rewrite (split_line_cons "010" _ _ "")
    by (rewrite no_char_app, (bracketed_one_line _ Hc); reflexivity).
  rewrite (split_line_cons "010" _ _ "")
    by (rewrite no_char_app, Hm; reflexivity).
  rewrite (split_line_last "010" _ "")
    by (rewrite no_char_app, (bracketed_one_line _ Hr); reflexivity).
  reflexivity.
Qed.

(** X13: a reply of the four labelled lines, each label followed by a
    space, the two lists in brackets with their items separated by a comma
    and a space, is decoded to the record it was written from. *)
Theorem formatted_reply_decoded (a : analysis) :
  plain a -> parse_llm_response (PyStr (formatted a)) = a.
Proof.
  intros Ha. unfold parse_llm_response, parse_body.
  rewrite (formatted_lines a Ha).
  destruct Ha as (Hs & Hm & Hc & Hco & Hr & Hro & Hne).
  cbn [fold_left].
  rewrite (line_summary defaults _ Hs), (line_characters _ _ Hc Hco),
    (line_mood _ _ Hm), (line_references _ _ Hr Hro Hne).
  destruct a as [s cs m rs]. cbn [summary characters mood cultural_refs] in *.
  destruct cs, rs; reflexivity.
Qed.

Lemma formatted_reply_decoded_witness :
  plain saucer_record
  /\ parse_llm_response (PyStr (formatted saucer_record)) = saucer_record.
Proof.
  assert (H : plain saucer_record).
  { unfold plain, plain_text, plain_item.
    repeat split; try reflexivity; try discriminate;
      repeat constructor. }
  split; [exact H |].
  exact (formatted_reply_decoded saucer_record H).
Defined.

End ResponseRoundTrip.

(** ** More on the background context *)

Module ContextMore.
Import PyStr Context ContextMoreSpec.
Local Open Scope list_scope.

Lemma add_section_part fs parts name :
  add_section fs parts name = parts ++ section_part fs name.
Proof.
  unfold add_section, section_part, shown.
  destruct (fs name) as [| | c]; try (rewrite app_nil_r; reflexivity).
  destruct (nonempty (strip c)); [reflexivity | rewrite app_nil_r; reflexivity].
Qed.

Lemma fold_add_section fs names :
  forall parts,
    fold_left (add_section fs) names parts
    = parts ++ flat_map (section_part fs) names.
Proof.
  induction names as [| name rest IH]; intros parts.
  - cbn. rewrite app_nil_r. reflexivity.
  - cbn [fold_left flat_map]. rewrite IH, add_section_part, app_assoc.
    reflexivity.
Qed.

Lemma load_movie_context_parts fs :
  load_movie_context fs
  = join (nl ++ nl) (flat_map (section_part fs) section_order).
Proof. unfold load_movie_context. rewrite fold_add_section. reflexivity. Qed.

Lemma section_part_same fs fs' name :
  shown (fs name) = shown (fs' name) ->
  section_part fs name = section_part fs' name.
Proof. unfold section_part. intros ->. reflexivity. Qed.

(** X14: the loader reads nothing but the stripped contents of the seven
    section files: directories that agree on them - whatever other files
    they hold, whether a file is missing, unreadable or blank, whatever
    whitespace surrounds a content - give the same background context. *)
Theorem context_reads_seven_files (fs fs' : string -> file) :
  (forall name, In name section_order -> shown (fs name) = shown (fs' name)) ->
  load_movie_context fs = load_movie_context fs'
  /\ system_instruction fs = system_instruction fs'.
Proof.
  intros H.
  assert (Hload : load_movie_context fs = load_movie_context fs').
  { rewrite !load_movie_context_parts. f_equal.
    induction section_order as [| name rest IH]; [reflexivity |].
    cbn [flat_map].
    rewrite (section_part_same fs fs' name (H name (or_introl eq_refl))).
    rewrite IH; [reflexivity |].
    intros n Hn. apply H. right. exact Hn. }
  split; [exact Hload |]. unfold system_instruction. rewrite Hload.
  reflexivity.
Qed.

Lemma context_reads_seven_files_witness :
  load_movie_context some_sections = load_movie_context plot_only
  /\ system_instruction some_sections = system_instruction plot_only.
Proof.
  apply (context_reads_seven_files some_sections plot_only).
  intros name Hin. cbn in Hin.
  repeat (destruct Hin as [<- | Hin]; [reflexivity |]). destruct Hin.
Defined.

Lemma join_head_nonempty sep x l : x <> "" -> join sep (x :: l) <> "".
Proof.
  intros Hx. destruct x as [| c r]; [congruence |].
  destruct l; discriminate.
Qed.

Lemma flat_map_parts_nil fs names :
  flat_map (section_part fs) names = []
  <-> forall name, In name names -> shown (fs name) = "".
Proof.
  induction names as [| name rest IH].
  - split; [intros _ n [] | reflexivity].
  - cbn [flat_map]. split.
    + intros H. apply app_eq_nil in H. destruct H as [Hpart Hrest].
      intros n [<- | Hn]; [| exact (proj1 IH Hrest n Hn)].
      unfold section_part in Hpart.
      destruct (shown (fs name)); [reflexivity | discriminate Hpart].
    + intros H. rewrite (proj2 IH) by (intros n Hn; apply H; right; exact Hn).
      unfold section_part. rewrite (H name (or_introl eq_refl)). reflexivity.
Qed.

Lemma parts_nonempty fs names x l :
  flat_map (section_part fs) names = x :: l -> x <> "".
Proof.
  induction names as [| name rest IH]; [discriminate |].
  cbn [flat_map]. unfold section_part at 1.
  destruct (nonempty (shown (fs name))); [| exact IH].
  cbn [app]. intros H. injection H as <- _. discriminate.
Qed.

(** X15: the fallback synopsis is the background context exactly when
    none of the seven section files has a content left after stripping;
    otherwise the context is the loaded document, which is not empty. *)
Theorem fallback_when_nothing_shown (fs : string -> file) :
  ((forall name, In name section_order -> shown (fs name) = "") ->
   load_movie_context fs = "" /\ system_instruction fs = fallback_text)
  /\ ((exists name, In name section_order /\ shown (fs name) <> "") ->
      load_movie_context fs <> ""
      /\ system_instruction fs = load_movie_context fs).
Proof.
  split.
  - intros H. apply flat_map_parts_nil in H.
    assert (Hload : load_movie_context fs = "")
      by (rewrite load_movie_context_parts, H; reflexivity).
    split; [exact Hload |]. unfold system_instruction. rewrite Hload.
    reflexivity.
  - intros (name & Hin & Hshown).
    assert (Hload : load_movie_context fs <> "").
    { rewrite load_movie_context_parts.
      destruct (flat_map (section_part fs) section_order) as [| x l] eqn:Hparts.
      - exfalso. apply Hshown.
        exact (proj1 (flat_map_parts_nil fs section_order) Hparts name Hin).
      - apply join_head_nonempty. exact (parts_nonempty _ _ _ _ Hparts). }
    split; [exact Hload |]. unfold system_instruction.
    destruct (load_movie_context fs); [congruence | reflexivity].
Qed.

Lemma fallback_when_nothing_shown_witness :
  (load_movie_context RunSamples.no_sections = ""
   /\ system_instruction RunSamples.no_sections = fallback_text)
  /\ (load_movie_context some_sections <> ""
      /\ system_instruction some_sections = load_movie_context some_sections).
Proof.
  split.
  - apply (proj1 (fallback_when_nothing_shown RunSamples.no_sections)).
    intros name _. reflexivity.
  - apply (proj2 (fallback_when_nothing_shown some_sections)).
    exists "Plot.txt". split; [right; left; reflexivity |].
    vm_compute. discriminate.
Defined.

End ContextMore.

(** ** More on the run *)

Module RunMore.
Import PyStr PyList Datetime SrtParser Segmenter SegmenterSpec SegmenterProofs.
Import ResponseParser Annotator Run RunSpec RunSamples RunProofs.
Import SrtMoreSpec SrtMore RunMoreSpec.
Local Open Scope list_scope.

(** *** A file without subtitles *)

Lemma parse_blocks_all_skipped blocks :
  forall acc,
    (forall b, In b blocks -> turned_away b) ->
    parse_blocks blocks acc = Ok acc.
Proof.
  induction blocks as [| b rest IH]; intros acc H; [reflexivity |].
  cbn [parse_blocks].
  rewrite (turned_away_skipped b (H b (or_introl eq_refl))). cbn [bind].
  apply IH. intros b' Hin. apply H. right. exact Hin.
Qed.

(** X16: a file in which every block is turned away by a guard gives the
    empty result, whatever the model identifier and the credential are:
    the annotator is never called, so a wrong configuration goes
    unnoticed. *)
Theorem no_subtitles_no_error
        (world : Type)
        (generate : world -> string -> string -> string -> string ->
                    result pyval * world)
        (api_key_env : option string) (context : string)
        (w : world) (content model : string) :
  (forall b, In b (blocks_of content) -> turned_away b) ->
  main world generate api_key_env context w content model = (Ok [], w).
Proof.
  intros H. unfold main, parse_srt. fold (blocks_of content).
  rewrite (parse_blocks_all_skipped _ [] H). reflexivity.
Qed.

Lemma no_subtitles_no_error_witness :
  main unit canned None "context" tt no_subtitles "openai:gpt-4o" = (Ok [], tt).
Proof.
  apply (no_subtitles_no_error unit canned None "context" tt no_subtitles
           "openai:gpt-4o").
  intros b Hin. vm_compute in Hin. destruct Hin as [<- | [<- | []]].
  - left. vm_compute. lia.
  - right. eexists. split; [vm_compute; reflexivity |].
    vm_compute. discriminate.
Defined.

(** *** The requests a run makes *)

Section Requests.
Variable world : Type.
Variable client : Type.
Variable new_client : world -> string -> result client * world.
Variable caches_create :
  world -> client -> string -> string -> result pyval * world.
Variable generate_content :
  world -> client -> string -> string -> pyval -> result pyval * world.
Variable api_key_env : option string.
Variable context : string.

Local Abbreviation plain_exchange :=
  (Client.exchange world client new_client caches_create generate_content).
Local Abbreviation logged_exchange :=
  (Client.exchange (world * list request) client
     (logged_client new_client) (logged_create caches_create)
     (logged_generate generate_content)).
Local Abbreviation plain_one :=
  (analyze_one world plain_exchange api_key_env context).
Local Abbreviation logged_one :=
  (analyze_one (world * list request) logged_exchange api_key_env context).
Local Abbreviation plain_all :=
  (analyze_all world plain_exchange api_key_env context).
Local Abbreviation logged_all :=
  (analyze_all (world * list request) logged_exchange api_key_env context).

(** One exchange: the logged calls return what the plain ones return, and
    the log grows by the requests that were made. *)
Lemma exchange_logged w log k model p :
  exists calls,
    logged_exchange (w, log) k model context p
    = (fst (plain_exchange w k model context p),
       (snd (plain_exchange w k model context p), log ++ calls))
    /\ match fst (plain_exchange w k model context p) with
       | Ok reply =>
           exists name,
             calls = [ CreateCache model context (Ok name);
                       GenerateContent model p name (Ok reply) ]
       | Raise e =>
           calls = []
           \/ calls = [ CreateCache model context (Raise e) ]
           \/ exists name,
                calls = [ CreateCache model context (Ok name);
                          GenerateContent model p name (Raise e) ]
       end.
Proof.
  unfold Client.exchange, logged_client, logged_create, logged_generate.
  cbn [fst snd].
  destruct (new_client w k) as [[c | e] w0]; cbn [fst snd].
  2: { exists []. rewrite app_nil_r. split; [reflexivity |].
       left. reflexivity. }
  destruct (caches_create w0 c model context) as [[name | e] w1];
    cbn [fst snd].
  2: { eexists. split; [reflexivity |]. right. left. reflexivity. }
  destruct (generate_content w1 c model p name) as [[reply | e] w2];
    cbn [fst snd]; rewrite <- app_assoc; cbn [app].
  - eexists. split; [reflexivity |]. exists name. reflexivity.
  - eexists. split; [reflexivity |]. right. right. exists name. reflexivity.
Qed.

Lemma analyze_one_logged w log model sc :
  exists calls,
    logged_one (w, log) model sc
    = (fst (plain_one w model sc), (snd (plain_one w model sc), log ++ calls))
    /\ match fst (plain_one w model sc) with
       | Ok _ => answered model context sc calls
       | Raise e => refused model context sc e calls
       end.
Proof.
  unfold analyze_one.
  destruct (getitem sc 0) as [first | e].
  2: { exists []. rewrite app_nil_r. split; [reflexivity |].
       left. reflexivity. }
  destruct (getitem sc (-1)) as [last | e].
  2: { exists []. rewrite app_nil_r. split; [reflexivity |].
       left. reflexivity. }
  unfold analyze_scene_with_llm.
  destruct (startswith model "gemini").
  2: { exists []. rewrite app_nil_r. split; [reflexivity |].
       left. reflexivity. }
  destruct api_key_env as [[| c k] |].
  1, 3: exists []; rewrite app_nil_r; (split; [reflexivity |]);
    left; reflexivity.
  destruct (exchange_logged w log (String c k) model
              (prompt (join " " (map text sc)))) as (calls & -> & Hcalls).
  exists calls.
  destruct (plain_exchange w (String c k) model context
              (prompt (join " " (map text sc)))) as [[reply | e] w1];
    cbn [fst snd] in *.
  - split; [reflexivity |].
    destruct Hcalls as [name ->]. exists name, reply. reflexivity.
  - split; [reflexivity |]. exact Hcalls.
Qed.

Lemma analyze_all_logged model scenes :
  forall w log acc,
    exists logs tail,
      logged_all (w, log) model scenes acc
      = (fst (plain_all w model scenes acc),
         (snd (plain_all w model scenes acc),
          log ++ List.concat logs ++ tail))
      /\ Forall2 (answered model context)
                 (firstn (List.length logs) scenes) logs
      /\ match fst (plain_all w model scenes acc) with
         | Ok _ => List.length logs = List.length scenes /\ tail = []
         | Raise e =>
             exists sc,
               nth_error scenes (List.length logs) = Some sc
               /\ refused model context sc e tail
         end.
Proof.
  induction scenes as [| sc rest IH]; intros w log acc.
  - exists [], []. cbn. rewrite app_nil_r.
    split; [reflexivity |]. split; [constructor | split; reflexivity].
  - cbn [analyze_all].
    destruct (analyze_one_logged w log model sc) as (calls & -> & Hcalls).
    destruct (plain_one w model sc) as [[r | e] w1] eqn:Hone; cbn [fst snd] in *.
    + destruct (IH w1 (log ++ calls) (acc ++ [r]))
        as (logs & tail & -> & Hlogs & Hend).
      exists (calls :: logs), tail. cbn [List.concat List.length firstn].
      rewrite <- !app_assoc.
      split; [reflexivity |]. split; [constructor; assumption |].
      destruct (fst (plain_all w1 model rest (acc ++ [r]))) as [results | e].
      * destruct Hend as [Hlen ->]. split; [f_equal; exact Hlen | reflexivity].
      * exact Hend.
    + exists [], calls. cbn [List.concat List.length firstn app].
      split; [reflexivity |]. split; [constructor |].
      exists sc. split; [reflexivity | exact Hcalls].
Qed.

End Requests.

(** X17: for every scene that is annotated a run makes two requests and
    no more: a [caches.create] with the model and the system instruction,
    then a [generate_content] with the model, the prompt of the scene and
    the name of the cache just created.  The scenes are served in their
    order; no cache is used for a second scene.  A run that returns has
    served every scene; a run that raises [e] has served the scenes before
    the one that failed, and for that one has made no request, or the
    [caches.create] that raised [e], or a [caches.create] and the
    [generate_content] that raised [e].  Keeping the log changes neither
    the result nor the state the service is left in. *)
Theorem requests_follow_scenes
        (world client : Type)
        (new_client : world -> string -> result client * world)
        (caches_create :
           world -> client -> string -> string -> result pyval * world)
        (generate_content :
           world -> client -> string -> string -> pyval ->
           result pyval * world)
        (api_key_env : option string) (context : string)
        (w : world) (content model : string)
        (subtitles : list subtitle) (scenes : list (list subtitle)) :
  parse_srt content = Ok subtitles ->
  group_into_scenes subtitles (4 # 1) = Ok scenes ->
  exists logs tail,
    main (world * list request)
         (Client.exchange (world * list request) client
            (logged_client new_client) (logged_create caches_create)
            (logged_generate generate_content))
         api_key_env context (w, []) content model
    = (fst (main world
                 (Client.exchange world client new_client caches_create
                    generate_content)
                 api_key_env context w content model),
       (snd (main world
                  (Client.exchange world client new_client caches_create
                     generate_content)
                  api_key_env context w content model),
        List.concat logs ++ tail))
    /\ Forall2 (answered model context)
               (firstn (List.length logs) scenes) logs
    /\ match fst (main world
                       (Client.exchange world client new_client caches_create
                          generate_content)
                       api_key_env context w content model) with
       | Ok _ => List.length logs = List.length scenes /\ tail = []
       | Raise e =>
           exists sc,
             nth_error scenes (List.length logs) = Some sc
             /\ refused model context sc e tail
       end.
Proof.
  intros Hparse Hgroup. unfold main. rewrite Hparse, Hgroup.
  destruct (analyze_all_logged world client new_client caches_create
              generate_content api_key_env context model scenes w [] [])
    as (logs & tail & Hlog & Hlogs & Hend).
  exists logs, tail. rewrite Hlog. cbn [app].
  destruct (analyze_all world
              (Client.exchange world client new_client caches_create
                 generate_content)
              api_key_env context w model scenes [])
    as [[results | e] w1]; cbn [fst snd] in *.
  - split; [reflexivity |]. split; [exact Hlogs | exact Hend].
  - split; [reflexivity |]. split; [exact Hlogs | exact Hend].
Qed.

Lemma requests_follow_scenes_witness :
  exists subtitles scenes logs tail,
    parse_srt three_scenes = Ok subtitles
    /\ group_into_scenes subtitles (4 # 1) = Ok scenes
    /\ main (nat * list request)
            (Client.exchange (nat * list request) unit
               (logged_client key_client) (logged_create numbered_cache)
               (logged_generate tired_generation))
            (Some "key") "context" (0, []) three_scenes "gemini-2.0-flash"
       = (Raise ServiceError, (6, List.concat logs ++ tail))
    /\ Forall2 (answered "gemini-2.0-flash" "context")
               (firstn (List.length logs) scenes) logs
    /\ exists sc,
         nth_error scenes (List.length logs) = Some sc
         /\ refused "gemini-2.0-flash" "context" sc ServiceError tail.
Proof.
  assert (Hp : {subtitles | parse_srt three_scenes = Ok subtitles})
    by (eexists; vm_compute; reflexivity).
  destruct Hp as [subtitles Hp].
  assert (Hg : {scenes | group_into_scenes subtitles (4 # 1) = Ok scenes}).
  { vm_compute in Hp. injection Hp as <-. eexists. vm_compute. reflexivity. }
  destruct Hg as [scenes Hg].
  destruct (requests_follow_scenes nat unit key_client numbered_cache
              tired_generation (Some "key") "context" 0 three_scenes
              "gemini-2.0-flash" subtitles scenes Hp Hg)
    as (logs & tail & H & Hlogs & Hend).
  assert (Hrun : main nat
                   (Client.exchange nat unit key_client numbered_cache
                      tired_generation)
                   (Some "key") "context" 0 three_scenes "gemini-2.0-flash"
                 = (Raise ServiceError, 6))
    by (vm_compute; reflexivity).
  rewrite Hrun in H, Hend. cbn [fst snd] in H, Hend.
  exists subtitles, scenes, logs, tail.
  split; [exact Hp |]. split; [exact Hg |].
  split; [exact H |]. split; [exact Hlogs | exact Hend].
Defined.

(** *** The errors of a run *)

Lemma strptime_raises s e : strptime s = Raise e -> e = ValueError_strptime.
Proof.
  unfold strptime.
  repeat match goal with
         | |- context [match ?x with _ => _ end] => destruct x
         end; intros H; first [discriminate H | injection H as <-; reflexivity].
Qed.

Lemma pause_test_raises thr p x e :
  pause_test thr p x = Raise e -> e = ValueError_strptime.
Proof.
  unfold pause_test.
  destruct (strptime (end_ p)) as [d | e1] eqn:H1; cbn [bind].
  - destruct (strptime (start x)) as [d' | e2] eqn:H2; cbn [bind];
      [discriminate |].
    intros H. injection H as <-. exact (strptime_raises _ _ H2).
  - intros H. injection H as <-. exact (strptime_raises _ _ H1).
Qed.

Lemma scenes_from_raises thr rest :
  forall p e, scenes_from thr p rest = Raise e -> e = ValueError_strptime.
Proof.
  induction rest as [| x r IH]; intros p e H; [discriminate H |].
  cbn [scenes_from] in H.
  destruct (pause_test thr p x) as [b | e1] eqn:Hb; cbn [bind] in H.
  - destruct (scenes_from thr x r) as [fm | e2] eqn:Hr; cbn [bind] in H;
      [discriminate H |].
    injection H as <-. exact (IH _ _ Hr).
  - injection H as <-. exact (pause_test_raises _ _ _ _ Hb).
Qed.

Lemma group_into_scenes_raises subtitles thr e :
  group_into_scenes subtitles thr = Raise e -> e = ValueError_strptime.
Proof.
  destruct subtitles as [| p rest]; [discriminate |].
  rewrite group_into_scenes_cons.
  destruct (scenes_from thr p rest) as [fm | e1] eqn:H; cbn [bind];
    [discriminate |].
  intros H'. injection H' as <-. exact (scenes_from_raises _ _ _ _ H).
Qed.

Section Errors.
Variable world : Type.
Variable generate :
  world -> string -> string -> string -> string -> result pyval * world.
Variable api_key_env : option string.
Variable context : string.

Local Abbreviation annotation_error :=
  (annotator_error generate context).

Lemma analyze_raises w scene_text model e w' :
  analyze_scene_with_llm world generate api_key_env context w scene_text model
  = (Raise e, w') ->
  annotation_error model e.
Proof.
  unfold analyze_scene_with_llm, annotation_error.
  destruct (startswith model "gemini").
  2: { intros H. injection H as <- _. right. left. reflexivity. }
  destruct api_key_env as [[| c k] |].
  1, 3: intros H; injection H as <- _; left; reflexivity.
  destruct (generate w (String c k) model context (prompt scene_text))
    as [[reply | e1] w1] eqn:Hg; [discriminate |].
  intros H. injection H as <- _. right. right.
  exists w, (String c k), (prompt scene_text), w1. exact Hg.
Qed.

Lemma analyze_all_raises model scenes :
  Forall (fun s => s <> []) scenes ->
  forall w acc e w',
    analyze_all world generate api_key_env context w model scenes acc
    = (Raise e, w') ->
    annotation_error model e.
Proof.
  induction 1 as [| sc rest Hsc _ IH]; intros w acc e w' H; [discriminate H |].
  cbn [analyze_all] in H. unfold analyze_one in H.
  destruct (getitem_ends sc Hsc) as (first & last & Hf & Hl).
  rewrite Hf, Hl in H.
  destruct (analyze_scene_with_llm world generate api_key_env context w
              (join " " (map text sc)) model) as [[a | e1] w1] eqn:Ha.
  - exact (IH _ _ _ _ H).
  - injection H as <- _. exact (analyze_raises _ _ _ _ _ Ha).
Qed.

End Errors.

(** X18: from the content of the subtitle file to the complete list of
    results - the parsing of the arguments, the reading of the file and
    the writing of the output aside - a run can end in four kinds of error
    only: the [ValueError] of [int] on a first line, the [ValueError] of
    [strptime] on a timestamp, one of the two configuration errors, or an
    error raised in the exchange with the service.  The indexing of
    subtitles and scenes and the decoding of a reply never raise. *)
Theorem errors_of_a_run
        (world : Type)
        (generate : world -> string -> string -> string -> string ->
                    result pyval * world)
        (api_key_env : option string) (context : string)
        (w : world) (content model : string) (e : exn) (w' : world) :
  main world generate api_key_env context w content model = (Raise e, w') ->
  e = ValueError_int
  \/ e = ValueError_strptime
  \/ e = ValueError_msg "GEMINI_API_KEY not found in environment variables"
  \/ e = ValueError_msg ("Unsupported model: " ++ model)
  \/ exists w0 k p w1, generate w0 k model context p = (Raise e, w1).
Proof.
  unfold main.
  destruct (parse_srt content) as [subtitles | e1] eqn:Hparse.
  2: { intros H. injection H as <- _. left.
       exact (parse_blocks_raises _ _ _ Hparse). }
  destruct (group_into_scenes subtitles (4 # 1)) as [scenes | e2] eqn:Hgroup.
  2: { intros H. injection H as <- _. right. left.
       exact (group_into_scenes_raises _ _ _ Hgroup). }
  destruct (analyze_all world generate api_key_env context w model scenes [])
    as [[results | e3] w1] eqn:Hall; [discriminate |].
  intros H. injection H as <- _. right. right.
  exact (analyze_all_raises world generate api_key_env context model scenes
           (group_into_scenes_nonempty _ _ _ Hgroup) _ _ _ _ Hall).
Qed.

Lemma errors_of_a_run_witness :
  ServiceError = ValueError_int
  \/ ServiceError = ValueError_strptime
  \/ ServiceError
     = ValueError_msg "GEMINI_API_KEY not found in environment variables"
  \/ ServiceError = ValueError_msg ("Unsupported model: " ++ "gemini-2.0-flash")
  \/ exists w0 k p w1,
       third_time_down w0 k "gemini-2.0-flash" "context" p
       = (Raise ServiceError, w1).
Proof.
  apply (errors_of_a_run nat third_time_down (Some "key") "context" 0
           three_scenes "gemini-2.0-flash" ServiceError 3).
  vm_compute. reflexivity.
Defined.

(** *** The transcripts of the results *)

Lemma join_app sep l1 l2 :
  l1 <> [] -> l2 <> [] ->
  join sep (l1 ++ l2) = (join sep l1 ++ sep ++ join sep l2)%string.
Proof.
  intros H1 H2. induction l1 as [| x r IH]; [congruence |].
  destruct r as [| y r'].
  - cbn [app join]. destruct l2; [congruence | reflexivity].
  - change (join sep ((x :: y :: r') ++ l2))
      with (x ++ sep ++ join sep ((y :: r') ++ l2))%string.
    rewrite IH by discriminate.
    change (join sep (x :: y :: r')) with (x ++ sep ++ join sep (y :: r'))%string.
    rewrite !SrtRoundTrip.append_assoc3. reflexivity.
Qed.

Lemma concat_nonempty {A : Type} (s : list A) (rest : list (list A)) :
  s <> [] -> List.concat (s :: rest) <> [].
Proof. destruct s; [congruence | discriminate]. Qed.

Lemma transcripts_joined scenes :
  Forall (fun s : list subtitle => s <> []) scenes ->
  join " " (map (fun sc => join " " (map text sc)) scenes)
  = join " " (map text (List.concat scenes)).
Proof.
  induction 1 as [| sc rest Hsc Hrest IH]; [reflexivity |].
  destruct rest as [| sc' rest'].
  - cbn [map List.concat join]. rewrite app_nil_r. reflexivity.
  - change (join " " (map (fun sc0 => join " " (map text sc0))
                          (sc :: sc' :: rest')))
      with (join " " (map text sc) ++ " "
            ++ join " " (map (fun sc0 => join " " (map text sc0))
                             (sc' :: rest')))%string.
    rewrite IH.
    change (List.concat (sc :: sc' :: rest'))
      with (sc ++ List.concat (sc' :: rest')).
    rewrite map_app.
    inversion Hrest as [| ? ? Hsc' _]; subst.
    rewrite join_app; [reflexivity | |].
    + destruct sc; [congruence | discriminate].
    + pose proof (concat_nonempty sc' rest' Hsc') as Hne.
      destruct (List.concat (sc' :: rest')); [congruence | discriminate].
Qed.

Lemma group_into_scenes_concat subtitles thr scenes :
  group_into_scenes subtitles thr = Ok scenes -> List.concat scenes = subtitles.
Proof.
  destruct subtitles as [| p rest].
  - intros H. injection H as <-. reflexivity.
  - rewrite group_into_scenes_cons.
    destruct (scenes_from thr p rest) as [[f m] | err] eqn:Hfm; [| discriminate].
    intros H. injection H as <-.
    exact (proj1 (scenes_from_partition thr rest p f m Hfm)).
Qed.

Lemma results_transcripts scenes results :
  Forall2 result_of_scene scenes results ->
  Forall2 (fun r t => lookup "transcript" r = Some (JStr t)) results
          (map (fun sc => join " " (map text sc)) scenes).
Proof.
  induction 1 as [| sc r scenes' results' Hr _ IH]; [constructor |].
  cbn [map]. constructor; [| exact IH].
  destruct Hr as (first & last & back & front & a & _ & _ & ->). reflexivity.
Qed.

(** X19: no text is lost or moved: the transcripts of the results,
    joined by single spaces in order, are the texts of all subtitles of
    the file joined by single spaces in order. *)
Theorem transcripts_cover_the_file
        (world : Type)
        (generate : world -> string -> string -> string -> string ->
                    result pyval * world)
        (api_key_env : option string) (context : string)
        (w : world) (content model : string)
        (results : list jobject) (w' : world) :
  main world generate api_key_env context w content model = (Ok results, w') ->
  exists subtitles transcripts,
    parse_srt content = Ok subtitles
    /\ Forall2 (fun r t => lookup "transcript" r = Some (JStr t))
               results transcripts
    /\ join " " transcripts = join " " (map text subtitles).
Proof.
  intros H. unfold main in H.
  destruct (parse_srt content) as [subtitles | e] eqn:Hparse;
    [| discriminate H].
  destruct (group_into_scenes subtitles (4 # 1)) as [scenes | e] eqn:Hgroup;
    [| discriminate H].
  destruct (analyze_all world generate api_key_env context w model scenes [])
    as [[rs | e] w1] eqn:Hall; [| discriminate H].
  injection H as <- _.
  destruct (analyze_all_results world generate api_key_env context
              model scenes w [] rs w1 Hall) as (new & -> & Hnew).
  exists subtitles, (map (fun sc => join " " (map text sc)) scenes).
  split; [reflexivity |]. split; [exact (results_transcripts _ _ Hnew) |].
  rewrite (transcripts_joined scenes (group_into_scenes_nonempty _ _ _ Hgroup)).
  rewrite (group_into_scenes_concat _ _ _ Hgroup). reflexivity.
Qed.

Lemma transcripts_cover_the_file_witness :
  exists results subtitles transcripts,
    main unit canned (Some "key") "context" tt two_scenes "gemini-2.0-flash"
    = (Ok results, tt)
    /\ parse_srt two_scenes = Ok subtitles
    /\ Forall2 (fun r t => lookup "transcript" r = Some (JStr t))
               results transcripts
    /\ join " " transcripts = join " " (map text subtitles).
Proof.
  assert (Hm : {results |
                 main unit canned (Some "key") "context" tt two_scenes
                      "gemini-2.0-flash" = (Ok results, tt)})
    by (eexists; vm_compute; reflexivity).
  destruct Hm as [results Hm].
  destruct (transcripts_cover_the_file unit canned (Some "key") "context" tt
              two_scenes "gemini-2.0-flash" results tt Hm)
    as (subtitles & transcripts & H1 & H2 & H3).
  exists results, subtitles, transcripts.
  split; [exact Hm |]. split; [exact H1 |]. split; [exact H2 | exact H3].
Defined.

End RunMore.

(** ** The section files *)

Module ScraperProofs.
Import PyStr Context Scraper ScraperSpec SrtMoreSpec.
Local Open Scope list_scope.

Lemma clean_filename_length t :
  String.length (clean_filename t) = String.length t.
Proof. induction t as [| c r IH]; [reflexivity |]. cbn. rewrite IH. reflexivity. Qed.

Lemma clean_filename_chars t : all_chars is_word_char (clean_filename t) = true.
Proof.
  induction t as [| c r IH]; [reflexivity |].
  cbn [clean_filename all_chars]. rewrite IH.
  destruct (is_word_char c) eqn:Hc; [rewrite Hc |]; reflexivity.
Qed.

Lemma clean_filename_fixed t :
  all_chars is_word_char t = true -> clean_filename t = t.
Proof.
  induction t as [| c r IH]; [reflexivity |].
  cbn [all_chars clean_filename]. intros H. apply andb_prop in H.
  destruct H as [Hc Hr]. rewrite Hc, (IH Hr). reflexivity.
Qed.

(** X20: [clean_filename] keeps the length of the title, returns nothing
    but letters, digits and underscores (so no separator of paths and no
    dot), leaves such names alone, and cleaning twice is cleaning once. *)
Theorem clean_filename_safe (title : string) :
  String.length (clean_filename title) = String.length title
  /\ all_chars is_word_char (clean_filename title) = true
  /\ (all_chars is_word_char title = true -> clean_filename title = title)
  /\ clean_filename (clean_filename title) = clean_filename title.
Proof.
  split; [apply clean_filename_length |].
  split; [apply clean_filename_chars |].
  split; [apply clean_filename_fixed |].
  apply clean_filename_fixed, clean_filename_chars.
Qed.

Lemma clean_filename_safe_witness :
  all_chars is_word_char "Plot" = true /\ clean_filename "Plot" = "Plot".
Proof.
  split; [reflexivity |].
  exact (proj1 (proj2 (proj2 (clean_filename_safe "Plot"))) eq_refl).
Defined.

(** *** Which headings the loader reads *)

Lemma clean_filename_named n :
  forall t, no_char "_" n = true -> clean_filename t = n -> t = n.
Proof.
  induction n as [| d n' IH]; intros t Hn H.
  - destruct t; [reflexivity | discriminate H].
  - destruct t as [| c r]; [discriminate H |].
    cbn [clean_filename] in H. injection H as Hc Hr.
    cbn [no_char] in Hn. apply andb_prop in Hn. destruct Hn as [Hd Hn'].
    rewrite (IH r Hn' Hr). f_equal.
    destruct (is_word_char c); [exact Hc |].
    subst d. discriminate Hd.
Qed.

Lemma length_append a b :
  String.length (a ++ b)%string = String.length a + String.length b.
Proof. induction a as [| c r IH]; [reflexivity |]. cbn. rewrite IH. reflexivity. Qed.

Lemma append_same_tail s :
  forall a b, (a ++ s)%string = (b ++ s)%string -> a = b.
Proof.
  induction a as [| c a' IH]; intros b H.
  - destruct b as [| d b']; [reflexivity |].
    apply (f_equal String.length) in H. rewrite !length_append in H.
    cbn in H. lia.
  - destruct b as [| d b'].
    + apply (f_equal String.length) in H. rewrite !length_append in H.
      cbn in H. lia.
    + cbn [append] in H. injection H as -> H. rewrite (IH b' H). reflexivity.
Qed.

(** X21: the loader reads the file of a scraped section exactly when its
    heading is, letter for letter, one of Introduction, Plot, Cast,
    Production, Reception, Legacy and Documentaries. *)
Theorem loader_reads_named_sections (title : string) :
  In (section_filename title) section_order <-> In title loaded_titles.
Proof.
  split.
  - unfold section_filename, section_order, loaded_titles. intros H.
    repeat (destruct H as [H | H];
            [ match type of H with
              | ?name = _ =>
                  let base := eval vm_compute in
                    (substring 0 (String.length name - 4) name) in
                  change name with (base ++ ".txt")%string in H;
                  apply append_same_tail in H; symmetry in H;
                  apply clean_filename_named in H; [| reflexivity];
                  subst title; cbn; tauto
              end |]).
    destruct H.
  - unfold loaded_titles. intros H.
    repeat (destruct H as [<- | H]; [cbn; tauto |]). destruct H.
Qed.

Lemma loader_reads_named_sections_witness :
  In "Plot" loaded_titles /\ In (section_filename "Plot") section_order.
Proof.
  assert (H : In "Plot" loaded_titles) by (cbn; tauto).
  split; [exact H |].
  exact (proj2 (loader_reads_named_sections "Plot") H).
Defined.

(** *** The directory after the output stage *)

Lemma fold_write sections :
  forall fs0 name,
    fold_left
      (fun fs' section =>
         write fs' (section_filename (fst section))
               (section_file_text (fst section) (snd section)))
      sections fs0 name
    = match last_written sections name with
      | Some section =>
          Content (section_file_text (fst section) (snd section))
      | None => fs0 name
      end.
Proof.
  induction sections as [| s rest IH] using rev_ind; intros fs0 name.
  - reflexivity.
  - rewrite fold_left_app. cbn [fold_left]. unfold last_written.
    rewrite rev_app_distr. cbn [rev app find]. unfold write at 1.
    rewrite String.eqb_sym.
    destruct (String.eqb (section_filename (fst s)) name); [reflexivity |].
    apply IH.
Qed.

Lemma clear_old_keeps fs name :
  In name section_order -> clear_old fs name = fs name.
Proof.
  unfold section_order. intros H.
  repeat (destruct H as [<- | H]; [reflexivity |]). destruct H.
Qed.

(** X22: after the output stage a file holds what the last section with
    its file name wrote, so of two headings with the same cleaned name
    the later one wins; a file no section wrote is removed when it is
    named plan9_*.txt and left as it was otherwise.  In particular the
    files the loader reads are never removed: a section file of an earlier
    run stays in use when the page no longer has that section. *)
Theorem output_stage (fs : string -> file) (sections : list (string * string))
        (name : string) :
  write_sections fs sections name
  = match last_written sections name with
    | Some section => Content (section_file_text (fst section) (snd section))
    | None => clear_old fs name
    end
  /\ (In name section_order -> last_written sections name = None ->
      write_sections fs sections name = fs name).
Proof.
  assert (H : write_sections fs sections name
              = match last_written sections name with
                | Some section =>
                    Content (section_file_text (fst section) (snd section))
                | None => clear_old fs name
                end)
    by apply fold_write.
  split; [exact H |].
  intros Hin Hnone. rewrite H, Hnone. apply clear_old_keeps, Hin.
Qed.

Lemma output_stage_witness :
  write_sections earlier_run scraped "Cast___crew.txt"
  = Content (section_file_text "Cast_&_crew"
                               "Tor Johnson plays Inspector Clay.")
  /\ write_sections earlier_run scraped "plan9_notes.txt" = Missing
  /\ write_sections earlier_run scraped "Legacy.txt" = earlier_run "Legacy.txt".
Proof.
  split; [| split].
  - exact (proj1 (output_stage earlier_run scraped "Cast___crew.txt")).
  - exact (proj1 (output_stage earlier_run scraped "plan9_notes.txt")).
  - refine (proj2 (output_stage earlier_run scraped "Legacy.txt") _ eq_refl).
    cbn. tauto.
Defined.

End ScraperProofs.
